(** * VisualPIC raw-data readers: a shallow embedding of
      [VisualPIC/DataReading/rawDataReaders.py]

    The module defines an abstract reader ([RawDataReaderBase]) holding a
    one-slot cache keyed by the time step, and three concrete readers
    (OSIRIS, HiPACE, openPMD).  The embedding keeps the structure of the
    Python code:

    - a reader object is a record of its attribute slots;
    - methods are computations in a state-and-exception monad over the
      object ([self]) and the outside world (files, open handles); the
      state written before an exception is raised survives it, as in Python;
    - the abstract methods form a type class with one instance per subclass;
    - NumPy [float64] arithmetic is IEEE-754 binary64 as specified by
      [SpecFloat]; integer arrays wrap around at their bit width.

    The code is read as Python 3 code: [_ReadUnits] strips the [b'...']
    wrapper that only Python 3 puts around [str] of a [bytes] value, hence
    [1/2] is true division. *)

From Stdlib Require Import ZArith Lia List String Ascii Bool.
From Stdlib Require Import Floats.SpecFloat.
From Stdlib Require Import DecimalString.
From Stdlib Require DecimalPos DecimalZ.
Import ListNotations.
Open Scope string_scope.
Open Scope Z_scope.

(* ================================================================= *)
(** ** NumPy numbers *)

(** [float64] values and the two operations the readers use. *)
Definition f64 : Type := spec_float.
Definition prec64 : Z := 53.
Definition emax64 : Z := 1024.

Definition f64_add : f64 -> f64 -> f64 := SFadd prec64 emax64.
Definition f64_sub : f64 -> f64 -> f64 := SFsub prec64 emax64.
Definition f64_mul : f64 -> f64 -> f64 := SFmul prec64 emax64.
Definition f64_div : f64 -> f64 -> f64 := SFdiv prec64 emax64.

(** Conversion of an integer to [float64] (round to nearest even), as NumPy
    does when an integer array meets a float operand. *)
Definition f64_of_Z (n : Z) : f64 := binary_normalize prec64 emax64 n 0 false.

(** The canonical binary64 datum of value [n * 2^k], for [0 < n < 2^53]. *)
Definition dyadic64 (s : bool) (n : positive) (k : Z) : f64 :=
  let sh := 53 - Zpos (digits2_pos n) in
  S754_finite s (Z.to_pos (Zpos n * 2 ^ sh)) (k - sh).

Definition in_range64 (k : Z) (n : positive) : Prop :=
  -1074 <= k - (53 - Zpos (digits2_pos n)) <= 971.

(** The integer a [float64] stands for, when it stands for one. *)
Definition f64_to_Z (x : f64) : option Z :=
  match x with
  | S754_zero _ => Some 0
  | S754_finite s m e =>
      let v := if s then Zneg m else Zpos m in
      if 0 <=? e then Some (v * 2 ^ e)
      else if (Zpos m) mod 2 ^ (- e) =? 0 then Some (v / 2 ^ (- e))
      else None
  | _ => None
  end.

(** Signed [w]-bit integer arithmetic of an integer array: results wrap. *)
Definition wrap (w z : Z) : Z := (z + 2 ^ (w - 1)) mod 2 ^ w - 2 ^ (w - 1).

(** The Cantor pairing of two naturals, the reference formula. *)
Definition cantor (a b : Z) : Z := (a + b) * (a + b + 1) / 2 + b.

(** [1/2*(a+b)*(a+b+1)+b] on one row of a [w]-bit integer array: [a+b] and
    [a+b+1] are integer sums; [1/2] is the float 0.5, so both products and the
    final sum are [float64] operations on converted integers. *)
Definition cantor_f64 (w a b : Z) : f64 :=
  let half := f64_div (f64_of_Z 1) (f64_of_Z 2) in
  let s := wrap w (a + b) in
  f64_add (f64_mul (f64_mul half (f64_of_Z s)) (f64_of_Z (wrap w (s + 1))))
          (f64_of_Z b).

(** Arrays as the readers meet them. *)
Inductive ndarray : Type :=
| NdNone                                  (* np.array(None) *)
| NdFloat (xs : list f64)                 (* one-dimensional float64 *)
| NdTags (w : Z) (rows : list (Z * Z)).   (* N x 2 signed w-bit integers *)

(** Scalars stored in the [currentTime] slot. *)
Inductive pyscalar : Type :=
| PyNone
| PyInt (z : Z)
| PyFloat (x : f64).

(* ================================================================= *)
(** ** Python exceptions and strings *)

Inductive exn : Type :=
| OSError (msg : string)
| KeyError (key : string)
| IndexError (msg : string)
| TypeError (msg : string)
| ValueError (msg : string)
| NameError (name : string)
| RuntimeError (msg : string)
| NotImplementedError (msg : string)
| AttributeError (msg : string)
| OpenPMDException (msg : string).

Inductive result (A : Type) : Type :=
| Ok (a : A)
| Raise (e : exn).
Arguments Ok {A} a.
Arguments Raise {A} e.

Definition returned {A} (x : result A) : bool :=
  match x with
  | Ok _ => true
  | Raise _ => false
  end.

(** The text a caller sees when the exception is printed. *)
Definition exn_message (e : exn) : string :=
  match e with
  | OSError m | IndexError m | TypeError m | ValueError m
  | RuntimeError m | NotImplementedError m | AttributeError m
  | OpenPMDException m => m
  | KeyError k => "'" ++ k ++ "'"
  | NameError n => "name '" ++ n ++ "' is not defined"
  end.

(** Names bound in the module's global scope or in [builtins] that denote
    exception classes.  Evaluating [raise X(msg)] first looks [X] up. *)
Definition lookup_exception_class (name : string) : option (string -> exn) :=
  if (name =? "RuntimeError")%string then Some RuntimeError
  else if (name =? "NotImplementedError")%string then Some NotImplementedError
  else if (name =? "OSError")%string then Some OSError
  else if (name =? "KeyError")%string then Some KeyError
  else if (name =? "IndexError")%string then Some IndexError
  else if (name =? "TypeError")%string then Some TypeError
  else if (name =? "ValueError")%string then Some ValueError
  else if (name =? "NameError")%string then Some NameError
  else if (name =? "AttributeError")%string then Some AttributeError
  else None.

Definition raise_named (name msg : string) : exn :=
  match lookup_exception_class name with
  | Some mk => mk msg
  | None => NameError name
  end.

(** [str(n)] for an integer. *)
Definition py_str_int (n : Z) : string := NilZero.string_of_int (Z.to_int n).

Fixpoint zeros (n : nat) : string :=
  match n with
  | O => EmptyString
  | S k => String "0" (zeros k)
  end.

(** [s.zfill(width)]: left padding with zeros, after a leading sign. *)
Definition zfill (width : nat) (s : string) : string :=
  let pad := zeros (width - String.length s) in
  match s with
  | String c rest =>
      if (Ascii.eqb c "-" || Ascii.eqb c "+")%bool
      then String c (pad ++ rest) else pad ++ s
  | EmptyString => pad
  end.

(** [str(b)] for a [bytes] value of printable characters: [b'...'] with each
    backslash doubled. *)
Fixpoint escape_backslashes (s : string) : string :=
  match s with
  | EmptyString => EmptyString
  | String c rest =>
      if Ascii.eqb c "\" then String "\" (String "\" (escape_backslashes rest))
      else String c (escape_backslashes rest)
  end.

Definition py_str_bytes (b : string) : string :=
  "b'" ++ escape_backslashes b ++ "'".

(** [s[2:-1]] *)
Definition slice_2_m1 (s : string) : string :=
  substring 2 (String.length s - 3) s.

(** [s.replace("\\\\", "\\")]: every doubled backslash becomes a single one,
    scanning from the left. *)
Fixpoint replace_double_backslash (s : string) : string :=
  match s with
  | EmptyString => EmptyString
  | String c rest =>
      match rest with
      | String c' rest' =>
          if (Ascii.eqb c "\" && Ascii.eqb c' "\")%bool
          then String "\" (replace_double_backslash rest')
          else String c (replace_double_backslash rest)
      | EmptyString => s
      end
  end.

(** The decoding both unit attributes go through. *)
Definition decode_units (b : string) : string :=
  replace_double_backslash (slice_2_m1 (py_str_bytes b)).

(* ================================================================= *)
(** ** HDF5 files, the collaborator and the outside world *)

(** A dataset of an OSIRIS or HiPACE dump, with its [UNITS] attribute (an
    array of [bytes]). *)
Record H5Dataset : Type := mkDataset {
  ds_array : ndarray;
  ds_UNITS : option (list string) }.

(** The content of one dump file: its datasets by name and the top-level
    attributes the readers ask for, with the types the codes write. *)
Record H5Content : Type := mkContent {
  h5_datasets : string -> option H5Dataset;
  h5_TIME : option (list f64);
  h5_TIME_UNITS : option (list string);
  h5_NX : option (list Z);
  h5_XMAX : option (list f64);
  h5_XMIN : option (list f64) }.

(** An open [h5py.File] object. *)
Record H5Handle : Type := mkHandle {
  hid : nat;
  content : H5Content }.

(** The part of an [OpenPMDTimeSeries] object (package [opmd_viewer]) the
    openPMD reader touches: the iteration table, the slot selected by the last
    [_find_output], and the particle records by species, name and slot.  What
    the package does with an iteration the series does not list is not fixed
    by this module (releases differ: an error, or a notice and a fall-back
    slot), so the object carries that answer as [on_unlisted]. *)
Record OpenPMDTimeSeries : Type := mkSeries {
  iterations : list Z;
  series_t : list f64;
  h5_files : list string;
  _current_i : nat;
  particle_data : string -> string -> nat -> option ndarray;
  on_unlisted : Z -> result nat }.

Inductive io_event : Type :=
| EvOpen (path : string)                  (* H5File(path, 'r') was called *)
| EvClose (h : nat)                       (* file_content.close() *)
| EvDataset (name : string)               (* a dataset was looked up by name *)
| EvSeries (location : string)            (* OpenPMDTimeSeries(location, ...) *)
| EvParticle (name species : string) (iteration : Z).  (* get_particle *)

(** Dispatches of the abstract methods, recorded by the base class (what a
    call-counting stub would count). *)
Inductive abstract_call : Type :=
| Call_ReadData (timeStep : Z)
| Call_ReadTime (timeStep : Z)
| Call_ReadUnits
| Call_ReadBasicData.

Record World : Type := mkWorld {
  fs : string -> option H5Content;         (* files on disk, read-only *)
  handles : list nat;                      (* handles currently open *)
  next_handle : nat;
  io_log : list io_event;                  (* newest first *)
  calls : list abstract_call;              (* newest first *)
  openpmd_installed : bool;                (* did [import opmd_viewer] work *)
  series_at : string -> result OpenPMDTimeSeries }.

Definition set_handles (hs : list nat) (n : nat) (w : World) : World :=
  mkWorld (fs w) hs n (io_log w) (calls w) (openpmd_installed w) (series_at w).

Definition log_io (ev : io_event) (w : World) : World :=
  mkWorld (fs w) (handles w) (next_handle w) (ev :: io_log w) (calls w)
          (openpmd_installed w) (series_at w).

Definition log_call (c : abstract_call) (w : World) : World :=
  mkWorld (fs w) (handles w) (next_handle w) (io_log w) (c :: calls w)
          (openpmd_installed w) (series_at w).

Fixpoint remove_first (h : nat) (hs : list nat) : list nat :=
  match hs with
  | [] => []
  | x :: rest => if Nat.eqb x h then rest else x :: remove_first h rest
  end.

(* ================================================================= *)
(** ** The reader object *)

Record Reader : Type := mkReader {
  location : string;
  speciesName : string;
  dataName : string;
  internalName : string;
  firstTimeStep : Z;
  dataUnits : string;
  timeUnits : string;
  currentTimeStep : Z;
  currentTime : pyscalar;
  data : ndarray;
  grid_resolution : option (list Z);
  grid_size : option (list f64);
  grid_units : string;
  openpmd_ts : option OpenPMDTimeSeries }.

Definition set_internalName (v : string) (r : Reader) : Reader :=
  mkReader (location r) (speciesName r) (dataName r) v (firstTimeStep r)
    (dataUnits r) (timeUnits r) (currentTimeStep r) (currentTime r) (data r)
    (grid_resolution r) (grid_size r) (grid_units r) (openpmd_ts r).

Definition set_firstTimeStep (v : Z) (r : Reader) : Reader :=
  mkReader (location r) (speciesName r) (dataName r) (internalName r) v
    (dataUnits r) (timeUnits r) (currentTimeStep r) (currentTime r) (data r)
    (grid_resolution r) (grid_size r) (grid_units r) (openpmd_ts r).

Definition set_dataUnits (v : string) (r : Reader) : Reader :=
  mkReader (location r) (speciesName r) (dataName r) (internalName r)
    (firstTimeStep r) v (timeUnits r) (currentTimeStep r) (currentTime r)
    (data r) (grid_resolution r) (grid_size r) (grid_units r) (openpmd_ts r).

Definition set_timeUnits (v : string) (r : Reader) : Reader :=
  mkReader (location r) (speciesName r) (dataName r) (internalName r)
    (firstTimeStep r) (dataUnits r) v (currentTimeStep r) (currentTime r)
    (data r) (grid_resolution r) (grid_size r) (grid_units r) (openpmd_ts r).

Definition set_currentTimeStep (v : Z) (r : Reader) : Reader :=
  mkReader (location r) (speciesName r) (dataName r) (internalName r)
    (firstTimeStep r) (dataUnits r) (timeUnits r) v (currentTime r)
    (data r) (grid_resolution r) (grid_size r) (grid_units r) (openpmd_ts r).

Definition set_currentTime (v : pyscalar) (r : Reader) : Reader :=
  mkReader (location r) (speciesName r) (dataName r) (internalName r)
    (firstTimeStep r) (dataUnits r) (timeUnits r) (currentTimeStep r) v
    (data r) (grid_resolution r) (grid_size r) (grid_units r) (openpmd_ts r).

Definition set_data (v : ndarray) (r : Reader) : Reader :=
  mkReader (location r) (speciesName r) (dataName r) (internalName r)
    (firstTimeStep r) (dataUnits r) (timeUnits r) (currentTimeStep r)
    (currentTime r) v (grid_resolution r) (grid_size r) (grid_units r)
    (openpmd_ts r).

Definition set_grid_resolution (v : option (list Z)) (r : Reader) : Reader :=
  mkReader (location r) (speciesName r) (dataName r) (internalName r)
    (firstTimeStep r) (dataUnits r) (timeUnits r) (currentTimeStep r)
    (currentTime r) (data r) v (grid_size r) (grid_units r) (openpmd_ts r).

Definition set_grid_size (v : option (list f64)) (r : Reader) : Reader :=
  mkReader (location r) (speciesName r) (dataName r) (internalName r)
    (firstTimeStep r) (dataUnits r) (timeUnits r) (currentTimeStep r)
    (currentTime r) (data r) (grid_resolution r) v (grid_units r) (openpmd_ts r).

Definition set_grid_units (v : string) (r : Reader) : Reader :=
  mkReader (location r) (speciesName r) (dataName r) (internalName r)
    (firstTimeStep r) (dataUnits r) (timeUnits r) (currentTimeStep r)
    (currentTime r) (data r) (grid_resolution r) (grid_size r) v (openpmd_ts r).

Definition set_openpmd_ts (v : option OpenPMDTimeSeries) (r : Reader) : Reader :=
  mkReader (location r) (speciesName r) (dataName r) (internalName r)
    (firstTimeStep r) (dataUnits r) (timeUnits r) (currentTimeStep r)
    (currentTime r) (data r) (grid_resolution r) (grid_size r) (grid_units r) v.

(* ================================================================= *)
(** ** Methods: state over [self] and the world, with exceptions *)

Record Outcome (A : Type) : Type := mkOutcome {
  out_res : result A;
  out_self : Reader;
  out_world : World }.
Arguments mkOutcome {A} _ _ _.
Arguments out_res {A} _.
Arguments out_self {A} _.
Arguments out_world {A} _.

Definition M (A : Type) : Type := Reader -> World -> Outcome A.

Definition ret {A} (a : A) : M A := fun r w => mkOutcome (Ok a) r w.

Definition raise {A} (e : exn) : M A := fun r w => mkOutcome (Raise e) r w.

Definition bind {A B} (m : M A) (k : A -> M B) : M B :=
  fun r w =>
    match m r w with
    | mkOutcome (Ok a) r1 w1 => k a r1 w1
    | mkOutcome (Raise e) r1 w1 => mkOutcome (Raise e) r1 w1
    end.

Definition attr {A} (f : Reader -> A) : M A := fun r w => mkOutcome (Ok (f r)) r w.

Definition assign (f : Reader -> Reader) : M unit :=
  fun r w => mkOutcome (Ok tt) (f r) w.

Definition effect (f : World -> World) : M unit :=
  fun r w => mkOutcome (Ok tt) r (f w).

Definition lift {A} (x : result A) : M A := fun r w => mkOutcome x r w.

Declare Scope py_scope.
Delimit Scope py_scope with py.
Notation "x <- m ;; k" := (bind m (fun x => k))
  (at level 61, m at next level, right associativity) : py_scope.
Notation "m ;; k" := (bind m (fun _ => k))
  (at level 61, right associativity) : py_scope.
Open Scope py_scope.

Definition world_attr {A} (f : World -> A) : M A :=
  fun r w => mkOutcome (Ok (f w)) r w.

(* ================================================================= *)
(** ** h5py and NumPy primitives *)

(** [H5File(path, 'r')]: a missing file raises; otherwise a new handle is
    open until it is closed. *)
Definition H5File (path : string) : M H5Handle :=
  fun r w =>
    let w1 := log_io (EvOpen path) w in
    match fs w path with
    | Some c =>
        mkOutcome (Ok (mkHandle (next_handle w) c)) r
          (set_handles (next_handle w :: handles w) (S (next_handle w)) w1)
    | None => mkOutcome (Raise (OSError ("Unable to open file " ++ path))) r w1
    end.

(** [file_content.close()] *)
Definition close (f : H5Handle) : M unit :=
  effect (fun w =>
    log_io (EvClose (hid f))
      (set_handles (remove_first (hid f) (handles w)) (next_handle w) w)).

(** The array [np.array(file.get(name))] evaluates to: [get] answers [None]
    for a name the file does not hold. *)
Definition stored_array (c : H5Content) (name : string) : ndarray :=
  match h5_datasets c name with
  | Some ds => ds_array ds
  | None => NdNone
  end.

(** [np.array(file_content.get(name))] *)
Definition get_array (f : H5Handle) (name : string) : M ndarray :=
  effect (log_io (EvDataset name)) ;;
  ret (stored_array (content f) name).

(** [file_content[name]] *)
Definition getitem (f : H5Handle) (name : string) : M H5Dataset :=
  effect (log_io (EvDataset name)) ;;
  match h5_datasets (content f) name with
  | Some ds => ret ds
  | None => raise (KeyError name)
  end.

(** [attrs[key]] *)
Definition attrs {A} (key : string) (v : option A) : M A :=
  match v with
  | Some x => ret x
  | None => raise (KeyError key)
  end.

(** [xs[0]] *)
Definition index0 {A} (xs : list A) : M A :=
  match xs with
  | x :: _ => ret x
  | [] => raise (IndexError "index 0 is out of bounds")
  end.

(** [tags[:,0]], [tags[:,1]]: only a two-dimensional array has columns. *)
Definition columns (tags : ndarray) : M (Z * list Z * list Z) :=
  match tags with
  | NdTags w rows => ret (w, map fst rows, map snd rows)
  | _ => raise (IndexError "too many indices for array")
  end.

(** [1/2*(a+b)*(a+b+1)+b], elementwise on two columns. *)
Definition pair_columns (w : Z) (a b : list Z) : ndarray :=
  NdFloat (map (fun ab => cantor_f64 w (fst ab) (snd ab)) (combine a b)).

(** [data += x] for a scalar [x]: float arrays take it elementwise; an integer
    array cannot hold the float result, and [None] has no addition. *)
Definition iadd (d : ndarray) (x : pyscalar) : M ndarray :=
  match d, x with
  | NdFloat xs, PyFloat t => ret (NdFloat (map (fun v => f64_add v t) xs))
  | NdFloat xs, PyInt z =>
      ret (NdFloat (map (fun v => f64_add v (f64_of_Z z)) xs))
  | _, _ => raise (TypeError "unsupported operand for +=")
  end.

(** [np.array(xs) - np.array(ys)] on one-dimensional arrays, with NumPy's
    broadcasting of a one-element operand. *)
Definition array_sub (xs ys : list f64) : M (list f64) :=
  if (List.length xs =? List.length ys)%nat
  then ret (map (fun p => f64_sub (fst p) (snd p)) (combine xs ys))
  else match xs, ys with
       | [x], _ => ret (map (fun y => f64_sub x y) ys)
       | _, [y] => ret (map (fun x => f64_sub x y) xs)
       | _, _ => raise (ValueError "operands could not be broadcast together")
       end.

(* ================================================================= *)
(** ** [RawDataReaderBase] *)

(** The abstract methods every subclass provides. *)
Class RawDataReader : Type := {
  _ReadData : Z -> M ndarray;
  _ReadTime : Z -> M unit;
  _ReadUnits : M unit;
  _ReadBasicData : M unit }.

(** Values of the slots [DataReader.__init__] fills before any read. *)
Record BaseDefaults : Type := mkDefaults {
  noTimeStep : Z;
  noTime : pyscalar;
  noData : ndarray }.

(** Modelled from the spec: [DataReader.__init__] of
    [VisualPIC/DataReading/dataReader.py], which is not among the sources.  It
    stores the four descriptor arguments in their slots, sets both unit strings
    to the empty string and the cache slots to their "none" values. *)
Definition DataReader_init (dflt : BaseDefaults)
    (location speciesName dataName internalName : string) : M unit :=
  assign (fun r =>
    mkReader location speciesName dataName internalName (firstTimeStep r)
      "" "" (noTimeStep dflt) (noTime dflt) (noData dflt)
      (grid_resolution r) (grid_size r) (grid_units r) (openpmd_ts r)).

(** An object before [__init__] has run. *)
Definition new_object : Reader :=
  mkReader "" "" "" "" 0 "" "" 0 PyNone NdNone None None "" None.

Definition dispatch {A} (c : abstract_call) (m : M A) : M A :=
  effect (log_call c) ;; m.

Section RawDataReaderBase.
Context {R : RawDataReader}.

Definition RawDataReaderBase_init (dflt : BaseDefaults)
    (location speciesName dataName internalName : string)
    (firstTimeStep : Z) : M unit :=
  DataReader_init dflt location speciesName dataName internalName ;;
  assign (set_internalName dataName) ;;
  assign (set_firstTimeStep firstTimeStep) ;;
  dispatch Call_ReadBasicData _ReadBasicData.

Definition GetData (timeStep : Z) : M ndarray :=
  cur <- attr currentTimeStep ;;
  (if negb (timeStep =? cur) then
     assign (set_currentTimeStep timeStep) ;;
     d <- dispatch (Call_ReadData timeStep) (_ReadData timeStep) ;;
     assign (set_data d)
   else ret tt) ;;
  attr data.

Definition GetDataUnits : M string :=
  u <- attr dataUnits ;;
  (if (u =? "")%string then dispatch Call_ReadUnits _ReadUnits else ret tt) ;;
  attr dataUnits.

Definition GetTime (timeStep : Z) : M pyscalar :=
  cur <- attr currentTimeStep ;;
  (if negb (timeStep =? cur) then
     assign (set_currentTimeStep timeStep) ;;
     dispatch (Call_ReadTime timeStep) (_ReadTime timeStep)
   else ret tt) ;;
  attr currentTime.

Definition GetTimeUnits : M string :=
  u <- attr timeUnits ;;
  (if (u =? "")%string then dispatch Call_ReadUnits _ReadUnits else ret tt) ;;
  attr timeUnits.
End RawDataReaderBase.

(* ================================================================= *)
(** ** [OsirisRawDataReader] *)

Module OsirisRawDataReader.

Definition file_path (r : Reader) (timeStep : Z) : string :=
  let fileName := "RAW-" ++ speciesName r ++ "-" ++ zfill 6 (py_str_int timeStep) in
  let ending := ".h5" in
  location r ++ "/" ++ fileName ++ ending.

Definition _OpenFile (timeStep : Z) : M H5Handle :=
  self <- attr id ;;
  H5File (file_path self timeStep).

Definition _ReadData (timeStep : Z) : M ndarray :=
  file_content <- _OpenFile timeStep ;;
  name <- attr internalName ;;
  d <- (if (name =? "tag")%string then
          tags <- get_array file_content name ;;
          cols <- columns tags ;;
          ret (pair_columns (fst (fst cols)) (snd (fst cols)) (snd cols))
        else
          get_array file_content name) ;;
  time <- attrs "TIME" (h5_TIME (content file_content)) ;;
  t0 <- index0 time ;;
  assign (set_currentTime (PyFloat t0)) ;;
  close file_content ;;
  ret d.

Definition _ReadTime (timeStep : Z) : M unit :=
  file_content <- _OpenFile timeStep ;;
  time <- attrs "TIME" (h5_TIME (content file_content)) ;;
  t0 <- index0 time ;;
  assign (set_currentTime (PyFloat t0)) ;;
  close file_content.

Definition _ReadUnits : M unit :=
  first <- attr firstTimeStep ;;
  file_content <- _OpenFile first ;;
  name <- attr internalName ;;
  ds <- getitem file_content name ;;
  units <- attrs "UNITS" (ds_UNITS ds) ;;
  u0 <- index0 units ;;
  assign (set_dataUnits (decode_units u0)) ;;
  tunits <- attrs "TIME UNITS" (h5_TIME_UNITS (content file_content)) ;;
  tu0 <- index0 tunits ;;
  assign (set_timeUnits (decode_units tu0)) ;;
  close file_content.

Definition _ReadSimulationProperties (file_content : H5Handle) : M unit :=
  nx <- attrs "NX" (h5_NX (content file_content)) ;;
  assign (set_grid_resolution (Some nx)) ;;
  xmax <- attrs "XMAX" (h5_XMAX (content file_content)) ;;
  xmin <- attrs "XMIN" (h5_XMIN (content file_content)) ;;
  size <- array_sub xmax xmin ;;
  assign (set_grid_size (Some size)) ;;
  assign (set_grid_units "c/ \omega_p").

Definition _ReadBasicData : M unit :=
  first <- attr firstTimeStep ;;
  file_content <- _OpenFile first ;;
  _ReadSimulationProperties file_content ;;
  close file_content.

#[export] Instance reader : RawDataReader :=
  Build_RawDataReader _ReadData _ReadTime _ReadUnits _ReadBasicData.

Definition __init__ (dflt : BaseDefaults)
    (location speciesName dataName internalName : string)
    (firstTimeStep : Z) : M unit :=
  RawDataReaderBase_init (R := reader) dflt location speciesName dataName
    internalName firstTimeStep.

End OsirisRawDataReader.

(* ================================================================= *)
(** ** [HiPACERawDataReader] *)

Module HiPACERawDataReader.

Definition file_path (r : Reader) (timeStep : Z) : string :=
  let fileName := "raw_" ++ speciesName r ++ "_" ++ zfill 6 (py_str_int timeStep) in
  let ending := ".h5" in
  location r ++ "/" ++ fileName ++ ending.

Definition _OpenFile (timeStep : Z) : M H5Handle :=
  self <- attr id ;;
  H5File (file_path self timeStep).

Definition _ReadData (timeStep : Z) : M ndarray :=
  file_content <- _OpenFile timeStep ;;
  name <- attr internalName ;;
  d <- (if (name =? "tag")%string then
          tags <- get_array file_content name ;;
          cols <- columns tags ;;
          ret (pair_columns (fst (fst cols)) (snd (fst cols)) (snd cols))
        else
          get_array file_content name) ;;
  time <- attrs "TIME" (h5_TIME (content file_content)) ;;
  t0 <- index0 time ;;
  assign (set_currentTime (PyFloat t0)) ;;
  d <- (if (name =? "x1")%string then
          now <- attr currentTime ;;
          iadd d now
        else ret d) ;;
  close file_content ;;
  ret d.

Definition _ReadTime (timeStep : Z) : M unit :=
  file_content <- _OpenFile timeStep ;;
  time <- attrs "TIME" (h5_TIME (content file_content)) ;;
  t0 <- index0 time ;;
  assign (set_currentTime (PyFloat t0)) ;;
  close file_content.

(** No file is read: the labels are fixed per field name. *)
Definition _ReadUnits : M unit :=
  name <- attr dataName ;;
  (if ((name =? "x1") || (name =? "x2") || (name =? "x3"))%string then
     assign (set_dataUnits "c/ \omega_p")
   else if ((name =? "p1") || (name =? "p2") || (name =? "p3"))%string then
     assign (set_dataUnits "m_e c")
   else if (name =? "q")%string then
     assign (set_dataUnits "e")
   else
     assign (set_dataUnits "unknown")) ;;
  assign (set_timeUnits "1/ \omega_p").

Definition _ReadSimulationProperties (file_content : H5Handle) : M unit :=
  nx <- attrs "NX" (h5_NX (content file_content)) ;;
  assign (set_grid_resolution (Some nx)) ;;
  xmax <- attrs "XMAX" (h5_XMAX (content file_content)) ;;
  xmin <- attrs "XMIN" (h5_XMIN (content file_content)) ;;
  size <- array_sub xmax xmin ;;
  assign (set_grid_size (Some size)) ;;
  assign (set_grid_units "c/ \omega_p").

Definition _ReadBasicData : M unit :=
  first <- attr firstTimeStep ;;
  file_content <- _OpenFile first ;;
  _ReadSimulationProperties file_content ;;
  close file_content.

#[export] Instance reader : RawDataReader :=
  Build_RawDataReader _ReadData _ReadTime _ReadUnits _ReadBasicData.

Definition __init__ (dflt : BaseDefaults)
    (location speciesName dataName internalName : string)
    (firstTimeStep : Z) : M unit :=
  RawDataReaderBase_init (R := reader) dflt location speciesName dataName
    internalName firstTimeStep.

End HiPACERawDataReader.

(* ================================================================= *)
(** ** The [opmd_viewer] collaborator, as far as the reader uses it *)

Definition set_current_i (i : nat) (ts : OpenPMDTimeSeries) : OpenPMDTimeSeries :=
  mkSeries (iterations ts) (series_t ts) (h5_files ts) i (particle_data ts)
    (on_unlisted ts).

Fixpoint index_of (x : Z) (l : list Z) : option nat :=
  match l with
  | [] => None
  | y :: rest =>
      if x =? y then Some O
      else match index_of x rest with
           | Some i => Some (S i)
           | None => None
           end
  end.

(** [OpenPMDTimeSeries(location, check_all_files=False)] *)
Definition OpenPMDTimeSeries_new (location : string) : M OpenPMDTimeSeries :=
  effect (log_io (EvSeries location)) ;;
  scan <- world_attr series_at ;;
  lift (scan location).

(** [self.openpmd_ts] *)
Definition the_series : M OpenPMDTimeSeries :=
  ts <- attr openpmd_ts ;;
  match ts with
  | Some s => ret s
  | None => raise (AttributeError "openpmd_ts")
  end.

(** The slot [_find_output] resolves an iteration to: its position in the
    iteration table when it is listed, the package's own answer otherwise. *)
Definition find_slot (ts : OpenPMDTimeSeries) (iteration : Z) : result nat :=
  match index_of iteration (iterations ts) with
  | Some i => Ok i
  | None => on_unlisted ts iteration
  end.

(** [ts._find_output(None, iteration)]: selects the slot of the iteration. *)
Definition _find_output (iteration : Z) : M unit :=
  ts <- the_series ;;
  match find_slot ts iteration with
  | Ok i => assign (set_openpmd_ts (Some (set_current_i i ts)))
  | Raise e => raise e
  end.

(** [ts.get_particle([name], species=species, iteration=iteration)], unpacked
    to its single component. *)
Definition get_particle (name species : string) (iteration : Z) : M ndarray :=
  effect (log_io (EvParticle name species iteration)) ;;
  _find_output iteration ;;
  ts <- the_series ;;
  match particle_data ts species name (_current_i ts) with
  | Some d => ret d
  | None => raise (OpenPMDException "The requested quantity is not available.")
  end.

(** [xs[i]] *)
Definition index {A} (xs : list A) (i : nat) : M A :=
  match nth_error xs i with
  | Some x => ret x
  | None => raise (IndexError "index out of bounds")
  end.

(** The value a method without [return] hands back. *)
Definition returned_None (u : unit) : pyscalar := PyNone.

(* ================================================================= *)
(** ** [OpenPMDRawDataReader] *)

Module OpenPMDRawDataReader.

Definition _ReadTime (timeStep : Z) : M unit :=
  _find_output timeStep ;;
  ts <- the_series ;;
  t <- index (series_t ts) (_current_i ts) ;;
  assign (set_currentTime (PyFloat t)).

(** [self.currentTime = self._ReadTime(timeStep)]: [_ReadTime] stores the
    time itself and returns nothing, and that nothing is then assigned. *)
Definition _ReadData (timeStep : Z) : M ndarray :=
  name <- attr internalName ;;
  species <- attr speciesName ;;
  d <- get_particle name species timeStep ;;
  v <- _ReadTime timeStep ;;
  assign (set_currentTime (returned_None v)) ;;
  ret d.

Definition _ReadUnits : M unit :=
  assign (set_dataUnits "arb.u.") ;;
  assign (set_timeUnits "s").

Definition _OpenFile (timeStep : Z) : M H5Handle :=
  _find_output timeStep ;;
  ts <- the_series ;;
  fileName <- index (h5_files ts) (_current_i ts) ;;
  H5File fileName.

Definition _ReadSimulationProperties (file_content : H5Handle) : M unit :=
  assign (set_grid_resolution None) ;;
  assign (set_grid_size None) ;;
  assign (set_grid_units "m").

Definition _ReadBasicData : M unit :=
  first <- attr firstTimeStep ;;
  file_content <- _OpenFile first ;;
  _ReadSimulationProperties file_content ;;
  close file_content.

#[export] Instance reader : RawDataReader :=
  Build_RawDataReader _ReadData _ReadTime _ReadUnits _ReadBasicData.

Definition install_hint : string :=
  "You need to install openPMD-viewer, e.g. with:" ++
  String (ascii_of_nat 10) "pip install openPMD-viewer".

Definition __init__ (dflt : BaseDefaults)
    (location speciesName dataName internalName : string)
    (firstTimeStep : Z) : M unit :=
  installed <- world_attr openpmd_installed ;;
  (if negb installed then raise (raise_named "RunTimeError" install_hint)
   else ret tt) ;;
  ts <- OpenPMDTimeSeries_new location ;;
  assign (set_openpmd_ts (Some ts)) ;;
  RawDataReaderBase_init (R := reader) dflt location speciesName dataName
    internalName firstTimeStep.

End OpenPMDRawDataReader.

(** [cls(location, speciesName, dataName, internalName, firstTimeStep)]:
    [__init__] runs on a new object. *)
Definition construct (init : M unit) (w : World) : Outcome unit :=
  init new_object w.

(* ================================================================= *)
(** ** Vocabulary of the properties *)

(** How often each abstract method was dispatched. *)
Definition data_extractions (cs : list abstract_call) : nat :=
  List.length (filter (fun c => match c with Call_ReadData _ => true | _ => false end) cs).

Definition time_extractions (cs : list abstract_call) : nat :=
  List.length (filter (fun c => match c with Call_ReadTime _ => true | _ => false end) cs).

Definition units_resolutions (cs : list abstract_call) : nat :=
  List.length (filter (fun c => match c with Call_ReadUnits => true | _ => false end) cs).

Definition open_calls (evs : list io_event) : nat :=
  List.length (filter (fun e => match e with EvOpen _ | EvSeries _ => true | _ => false end) evs).

(** What no extraction method of a well-behaved subclass touches: the
    descriptor, the cache key, the cached array, the dispatch record and the
    files on disk. *)
Record frame (r : Reader) (w : World) (r' : Reader) (w' : World) : Prop := mkFrame {
  fr_location : location r' = location r;
  fr_speciesName : speciesName r' = speciesName r;
  fr_dataName : dataName r' = dataName r;
  fr_internalName : internalName r' = internalName r;
  fr_firstTimeStep : firstTimeStep r' = firstTimeStep r;
  fr_currentTimeStep : currentTimeStep r' = currentTimeStep r;
  fr_data : data r' = data r;
  fr_calls : calls w' = calls w;
  fr_fs : fs w' = fs w }.

Definition units_kept (r : Reader) (w : World) (r' : Reader) (w' : World) : Prop :=
  dataUnits r' = dataUnits r /\ timeUnits r' = timeUnits r.

Definition preserves {A} (P : Reader -> World -> Reader -> World -> Prop)
    (m : M A) : Prop :=
  forall r w, P r w (out_self (m r w)) (out_world (m r w)).

(** Two states a units resolution cannot tell apart: same descriptor, same
    files. *)
Definition same_source (r : Reader) (w : World) (r' : Reader) (w' : World) : Prop :=
  location r' = location r /\ speciesName r' = speciesName r /\
  dataName r' = dataName r /\ internalName r' = internalName r /\
  firstTimeStep r' = firstTimeStep r /\ fs w' = fs w.

(** Two runs stored the same string in a slot, or both left it alone. *)
Definition same_store (slot : Reader -> string)
    (r1 r1' r2 r2' : Reader) : Prop :=
  slot r2' = slot r1' \/ (slot r1' = slot r1 /\ slot r2' = slot r2).

(** The events logged between two states of the world look no stored field
    up. *)
Definition not_a_lookup (ev : io_event) : Prop :=
  match ev with
  | EvDataset _ => False
  | EvParticle _ _ _ => False
  | _ => True
  end.

Definition no_lookups (r : Reader) (w : World) (r' : Reader) (w' : World) : Prop :=
  exists evs, io_log w' = (evs ++ io_log w)%list /\ Forall not_a_lookup evs.

(** A subclass is lawful when its extraction methods stay within their frame
    (the time extraction, moreover, looks no stored field up), and its units
    resolution is a function of the descriptor and the files:
    two runs from states with the same source raise or return alike and store
    the same strings, whatever the cache holds. *)
Class Lawful (R : RawDataReader) : Prop := {
  ReadData_frame : forall t, preserves frame (_ReadData t);
  ReadData_units : forall t, preserves units_kept (_ReadData t);
  ReadTime_frame : forall t, preserves frame (_ReadTime t);
  ReadTime_units : forall t, preserves units_kept (_ReadTime t);
  ReadTime_no_lookup : forall t, preserves no_lookups (_ReadTime t);
  ReadUnits_frame : preserves frame _ReadUnits;
  ReadUnits_function : forall r w r' w',
      same_source r w r' w' ->
      out_res (_ReadUnits r' w') = out_res (_ReadUnits r w) /\
      same_store dataUnits r (out_self (_ReadUnits r w))
                           r' (out_self (_ReadUnits r' w')) /\
      same_store timeUnits r (out_self (_ReadUnits r w))
                           r' (out_self (_ReadUnits r' w')) }.

(** The cache slots replaced wholesale. *)
Definition with_cache (ts : Z) (tm : pyscalar) (d : ndarray) (r : Reader) : Reader :=
  set_data d (set_currentTime tm (set_currentTimeStep ts r)).

(** States reached from a given one by calls of the four public methods. *)
Inductive later {R : RawDataReader} (r0 : Reader) (w0 : World) :
    Reader -> World -> Prop :=
| later_now : later r0 w0 r0 w0
| later_GetData r w t :
    later r0 w0 r w ->
    later r0 w0 (out_self (GetData t r w)) (out_world (GetData t r w))
| later_GetTime r w t :
    later r0 w0 r w ->
    later r0 w0 (out_self (GetTime t r w)) (out_world (GetTime t r w))
| later_GetDataUnits r w :
    later r0 w0 r w ->
    later r0 w0 (out_self (GetDataUnits r w)) (out_world (GetDataUnits r w))
| later_GetTimeUnits r w :
    later r0 w0 r w ->
    later r0 w0 (out_self (GetTimeUnits r w)) (out_world (GetTimeUnits r w)).

(** What becomes of the handle of a method that opens the file [path r]:
    the method leaves no handle behind when it returns; when it raises, no
    handle exists if the file did not open, and the handle it opened is still
    open if the file did open. *)
Definition handle_fate {A} (path : Reader -> string) (m : M A) : Prop :=
  forall r w,
    match out_res (m r w), fs w (path r) with
    | Ok _, _ => handles (out_world (m r w)) = handles w
    | Raise _, None => handles (out_world (m r w)) = handles w
    | Raise _, Some _ => handles (out_world (m r w)) = next_handle w :: handles w
    end.

(** The events logged between two states of the world name no stored field
    other than [name]. *)
Definition names_only (name : string) (ev : io_event) : Prop :=
  match ev with
  | EvDataset n => n = name
  | EvParticle n _ _ => n = name
  | _ => True
  end.

Definition lookups_use (name : string) (before after : list io_event) : Prop :=
  exists evs, after = (evs ++ before)%list /\ Forall (names_only name) evs.

Definition tag_in_domain (ab : Z * Z) : Prop :=
  0 <= fst ab /\ 0 <= snd ab /\ cantor (fst ab) (snd ab) < 2 ^ 53.

(** A method keeps [internalName] equal to [dataName], changes neither, and
    looks stored fields up by that one name. *)
Definition uses_dataName {A} (m : M A) : Prop :=
  forall r w,
    internalName r = dataName r ->
    internalName (out_self (m r w)) = dataName (out_self (m r w)) /\
    dataName (out_self (m r w)) = dataName r /\
    lookups_use (dataName r) (io_log w) (io_log (out_world (m r w))).

(** The three concrete classes of the module. *)
Inductive reader_class : Type := Osiris | HiPACE | OpenPMD.

Definition methods_of (c : reader_class) : RawDataReader :=
  match c with
  | Osiris => OsirisRawDataReader.reader
  | HiPACE => HiPACERawDataReader.reader
  | OpenPMD => OpenPMDRawDataReader.reader
  end.

Definition init_of (c : reader_class) :
    BaseDefaults -> string -> string -> string -> string -> Z -> M unit :=
  match c with
  | Osiris => OsirisRawDataReader.__init__
  | HiPACE => HiPACERawDataReader.__init__
  | OpenPMD => OpenPMDRawDataReader.__init__
  end.

(* ================================================================= *)
(** ** A small simulation directory *)

Module Fixture.

Definition ratio (p q : Z) : f64 := f64_div (f64_of_Z p) (f64_of_Z q).

Definition x1_raw : list f64 := [f64_of_Z 1; ratio (-1) 2].

(** The dump of time step 5, at simulation time 2.5. *)
Definition dump5 : H5Content :=
  mkContent
    (fun name =>
       if (name =? "x1")%string then
         Some (mkDataset (NdFloat x1_raw) (Some ["c / \omega_p"]))
       else if (name =? "p1")%string then
         Some (mkDataset (NdFloat [f64_of_Z 4; f64_of_Z 6]) (Some ["m_e c"]))
       else if (name =? "tag")%string then
         Some (mkDataset (NdTags 32 [(3, 5); (0, 0)]) (Some [""]))
       else None)
    (Some [ratio 5 2]) (Some ["1 / \omega_p"])
    (Some [64]) (Some [f64_of_Z 10]) (Some [f64_of_Z 0]).

(** The dump of time step 7, with large tags. *)
Definition dump7 : H5Content :=
  mkContent
    (fun name =>
       if (name =? "tag")%string then
         Some (mkDataset (NdTags 32 [(2 ^ 27 - 1, 1); (2 ^ 27, 0)]) (Some [""]))
       else None)
    (Some [f64_of_Z 3]) (Some ["1 / \omega_p"])
    (Some [64]) (Some [f64_of_Z 10]) (Some [f64_of_Z 0]).

(** A dump without datasets or attributes. *)
Definition dump8 : H5Content :=
  mkContent (fun _ => None) None None None None None.

Definition disk (path : string) : option H5Content :=
  if (path =? "run/RAW-e-000005.h5")%string then Some dump5
  else if (path =? "run/raw_e_000005.h5")%string then Some dump5
  else if (path =? "run/RAW-e-000007.h5")%string then Some dump7
  else if (path =? "run/RAW-e-000008.h5")%string then Some dump8
  else None.

Definition series : OpenPMDTimeSeries :=
  mkSeries [5] [ratio 5 2] ["run/data00000005.h5"] 0
    (fun species name slot =>
       if ((species =? "e") && (name =? "x1"))%string
       then Some (NdFloat x1_raw) else None)
    (fun _ => Raise (OpenPMDException "The requested iteration is not available.")).

Definition world : World :=
  mkWorld disk [] 0 [] [] false
    (fun location =>
       if (location =? "run")%string then Ok series
       else Raise (OSError "no such directory")).

Definition dflt : BaseDefaults := mkDefaults (-1) (PyInt (-1)) NdNone.

(** A reader for field [name] as [__init__] leaves it. *)
Definition fresh (name : string) : Reader :=
  mkReader "run" "e" name name 5 "" "" (-1) (PyInt (-1)) NdNone
    (Some [64]) (Some [f64_of_Z 10]) "c/ \omega_p" None.

End Fixture.

(* ================================================================= *)
(** ** Vocabulary of further properties *)

(** The integer a zero-padded decimal field stands for. *)
Definition padded_value (s : string) : option Z :=
  option_map Z.of_int (NilEmpty.int_of_string s).

(** [GetData] called for each time step of a list, in order, whatever the
    single calls return. *)
Fixpoint GetData_all {R : RawDataReader} (ts : list Z) (r : Reader) (w : World)
    : Reader * World :=
  match ts with
  | [] => (r, w)
  | t :: rest =>
      GetData_all rest (out_self (GetData t r w)) (out_world (GetData t r w))
  end.

(** How often the requested time step differs from the one requested before
    it, the first being compared with [cur]. *)
Fixpoint changes (cur : Z) (ts : list Z) : nat :=
  match ts with
  | [] => O
  | t :: rest => (if t =? cur then O else 1%nat) + changes t rest
  end.

(** Shapes NumPy subtracts: equal lengths, or one operand of one element. *)
Definition broadcastable {A B} (xs : list A) (ys : list B) : Prop :=
  List.length xs = List.length ys \/ List.length xs = 1%nat \/ List.length ys = 1%nat.

(** Bytes that [str] renders as themselves between [b'] and ['], up to the
    doubling of backslashes: printable ASCII other than the single quote. *)
Definition plain_char (c : ascii) : bool :=
  ((32 <=? nat_of_ascii c)%nat && (nat_of_ascii c <=? 126)%nat
   && negb (Ascii.eqb c "'"))%bool.

Fixpoint plain_bytes (s : string) : bool :=
  match s with
  | EmptyString => true
  | String c rest => (plain_char c && plain_bytes rest)%bool
  end.

(** The ways a read of a dump can fail: the file does not open, the [TIME]
    attribute is missing, or an index is out of range. *)
Definition read_failure (path : string) (e : exn) : Prop :=
  e = OSError ("Unable to open file " ++ path) \/
  e = KeyError "TIME" \/
  (exists m, e = IndexError m).

(** The object as [RawDataReaderBase.__init__] hands it to [_ReadBasicData]:
    descriptors stored, [internalName] overwritten with [dataName], the first
    time step stored, units and cache empty. *)
Definition initialised (dflt : BaseDefaults) (location speciesName dataName : string)
    (firstTimeStep : Z) (r : Reader) : Reader :=
  mkReader location speciesName dataName dataName firstTimeStep
    "" "" (noTimeStep dflt) (noTime dflt) (noData dflt)
    (grid_resolution r) (grid_size r) (grid_units r) (openpmd_ts r).

(** [np.array(xmax) - np.array(xmin)] for operands of one shape. *)
Definition extent (xmax xmin : list f64) : list f64 :=
  map (fun p => f64_sub (fst p) (snd p)) (combine xmax xmin).

(** A method itself calls [H5File] exactly [n] times, whatever its outcome. *)
Definition opens {A} (m : M A) (n : nat) : Prop :=
  forall r w,
    open_calls (io_log (out_world (m r w))) = (open_calls (io_log w) + n)%nat.

(** The labels the HiPACE reader has for data units. *)
Definition HiPACE_labels : list string :=
  ["c/ \omega_p"; "m_e c"; "e"; "unknown"].

(** A second directory: step 9 has no [TIME UNITS] attribute; the openPMD
    package is installed. *)
Module Fixture2.

Definition dump9 : H5Content :=
  mkContent
    (fun name =>
       if (name =? "x1")%string then
         Some (mkDataset (NdFloat Fixture.x1_raw) (Some ["c / \omega_p"]))
       else None)
    (Some [Fixture.ratio 9 2]) None
    (Some [64; 32]) (Some [f64_of_Z 10; f64_of_Z 4]) (Some [f64_of_Z 0; f64_of_Z 1]).

Definition disk (path : string) : option H5Content :=
  if (path =? "run/RAW-e-000009.h5")%string then Some dump9
  else if (path =? "run/RAW-e-000005.h5")%string then Some Fixture.dump5
  else if (path =? "run/raw_e_000005.h5")%string then Some Fixture.dump5
  else if (path =? "run/data00000005.h5")%string then Some Fixture.dump5
  else None.

Definition world : World :=
  mkWorld disk [] 0 [] [] true (fun _ => Ok Fixture.series).

(** An OSIRIS reader for [x1] bootstrapped on step 9. *)
Definition reader9 : Reader := set_firstTimeStep 9 (Fixture.fresh "x1").

(** An openPMD reader for [x1]. *)
Definition opmd_reader : Reader :=
  set_openpmd_ts (Some Fixture.series) (Fixture.fresh "x1").

(** The same series under a package that answers an iteration it does not
    list with its first slot. *)
Definition series_first : OpenPMDTimeSeries :=
  mkSeries (iterations Fixture.series) (series_t Fixture.series)
    (h5_files Fixture.series) 0 (particle_data Fixture.series)
    (fun _ => Ok O).

Definition world_first : World :=
  mkWorld disk [] 0 [] [] true (fun _ => Ok series_first).

Definition opmd_reader_first : Reader :=
  set_openpmd_ts (Some series_first) (Fixture.fresh "x1").

End Fixture2.

(* ================================================================= *)
(** * Properties *)

(** ** binary64 arithmetic on values that need no rounding *)

Section Digits.

Lemma digits2_bounds (p : positive) :
  2 ^ (Zpos (digits2_pos p) - 1) <= Zpos p < 2 ^ Zpos (digits2_pos p).
Proof.
  induction p as [p IH | p IH | ]; cbn [digits2_pos].
  - rewrite Pos2Z.inj_succ, Z.pow_succ_r by lia.
    replace (Z.succ (Zpos (digits2_pos p)) - 1) with (Z.succ (Zpos (digits2_pos p) - 1)) by lia.
    rewrite Z.pow_succ_r by lia. lia.
  - rewrite Pos2Z.inj_succ, Z.pow_succ_r by lia.
    replace (Z.succ (Zpos (digits2_pos p)) - 1) with (Z.succ (Zpos (digits2_pos p) - 1)) by lia.
    rewrite Z.pow_succ_r by lia. lia.
  - cbn. lia.
Qed.

Lemma digits2_unique (p : positive) (k : Z) :
  2 ^ (k - 1) <= Zpos p < 2 ^ k -> Zpos (digits2_pos p) = k.
Proof.
  intros [Hlo Hhi]. pose proof (digits2_bounds p) as [Dlo Dhi].
  set (d := Zpos (digits2_pos p)) in *.
  assert (0 < d) by (subst d; lia).
  destruct (Z.lt_trichotomy d k) as [Hlt | [Heq | Hgt]]; [ | exact Heq | ].
  - assert (2 ^ d <= 2 ^ (k - 1)) by (apply Z.pow_le_mono_r; lia). lia.
  - assert (0 <= k).
    { destruct (Z.le_gt_cases 0 k) as [|Hneg]; [assumption|].
      rewrite (Z.pow_neg_r 2 k) in Hhi by lia. lia. }
    assert (2 ^ k <= 2 ^ (d - 1)) by (apply Z.pow_le_mono_r; lia). lia.
Qed.

Lemma digits2_shift (n m : positive) (t : Z) :
  0 <= t -> Zpos m = Zpos n * 2 ^ t ->
  Zpos (digits2_pos m) = Zpos (digits2_pos n) + t.
Proof.
  intros Ht Hm. apply digits2_unique. rewrite Hm.
  pose proof (digits2_bounds n) as [Dlo Dhi].
  replace (Zpos (digits2_pos n) + t - 1) with ((Zpos (digits2_pos n) - 1) + t) by lia.
  rewrite !Z.pow_add_r by lia.
  assert (0 < 2 ^ t) by (apply Z.pow_pos_nonneg; lia).
  split; nia.
Qed.

Lemma digits2_le53 (n : positive) : Zpos n < 2 ^ 53 -> Zpos (digits2_pos n) <= 53.
Proof.
  intros Hn. pose proof (digits2_bounds n) as [Dlo _].
  destruct (Z.le_gt_cases (Zpos (digits2_pos n)) 53) as [|Hgt]; [assumption|].
  assert (2 ^ 53 <= 2 ^ (Zpos (digits2_pos n) - 1)) by (apply Z.pow_le_mono_r; lia).
  lia.
Qed.

End Digits.

Section Shifts.

Lemma iter_pos_nat {A} (f : A -> A) (p : positive) (x : A) :
  iter_pos f p x = Nat.iter (Pos.to_nat p) f x.
Proof.
  revert x. induction p as [p IH | p IH | ]; intros x; cbn [iter_pos].
  - rewrite !IH, Pos2Nat.inj_xI.
    replace (S (2 * Pos.to_nat p))%nat with (Pos.to_nat p + (Pos.to_nat p + 1))%nat by lia.
    rewrite !Nat.iter_add. reflexivity.
  - rewrite !IH, Pos2Nat.inj_xO.
    replace (2 * Pos.to_nat p)%nat with (Pos.to_nat p + Pos.to_nat p)%nat by lia.
    rewrite Nat.iter_add. reflexivity.
  - reflexivity.
Qed.

Lemma shr_1_even (q : Z) :
  0 <= q -> shr_1 (Build_shr_record (2 * q) false false) = Build_shr_record q false false.
Proof. destruct q as [ | q | q]; intros Hq; [reflexivity | reflexivity | lia]. Qed.

Lemma shr_iter_exact (n : nat) (q : Z) :
  0 <= q ->
  Nat.iter n shr_1 (Build_shr_record (q * 2 ^ Z.of_nat n) false false)
  = Build_shr_record q false false.
Proof.
  revert q. induction n as [ | n IH]; intros q Hq.
  - change (2 ^ Z.of_nat 0) with 1. rewrite Z.mul_1_r. reflexivity.
  - rewrite Nat2Z.inj_succ, Z.pow_succ_r by lia.
    replace (q * (2 * 2 ^ Z.of_nat n)) with ((2 * q) * 2 ^ Z.of_nat n) by ring.
    change (Nat.iter (S n) shr_1 ?x) with (shr_1 (Nat.iter n shr_1 x)).
    rewrite IH by lia. apply shr_1_even; assumption.
Qed.

Lemma shr_exact (q e n : Z) :
  0 <= q -> 0 <= n ->
  shr (Build_shr_record (q * 2 ^ n) false false) e n
  = (Build_shr_record q false false, e + n).
Proof.
  intros Hq Hn. destruct n as [ | p | p]; [ | | lia].
  - cbn [shr]. rewrite Z.pow_0_r, Z.mul_1_r, Z.add_0_r. reflexivity.
  - cbn [shr]. rewrite iter_pos_nat.
    rewrite <- (positive_nat_Z p) at 1. rewrite shr_iter_exact by assumption.
    reflexivity.
Qed.

Lemma iter_xO_pow (m d : positive) : Zpos (Pos.iter xO m d) = Zpos m * 2 ^ Zpos d.
Proof.
  induction d as [ | d IH] using Pos.peano_ind.
  - cbn. lia.
  - rewrite Pos.iter_succ, Pos2Z.inj_xO, IH, Pos2Z.inj_succ, Z.pow_succ_r by lia. lia.
Qed.

Lemma shl_align_spec (m : positive) (e e' : Z) :
  e' <= e ->
  Zpos (fst (shl_align m e e')) = Zpos m * 2 ^ (e - e') /\ snd (shl_align m e e') = e'.
Proof.
  intros He. unfold shl_align.
  destruct (e' - e) as [ | d | d] eqn:Hd; cbn [fst snd].
  - replace (e - e') with 0 by lia. split; lia.
  - lia.
  - rewrite iter_xO_pow. replace (e - e') with (Zpos d) by lia. split; reflexivity.
Qed.

End Shifts.

Section Rounding.

Lemma fexp64 (k : Z) : fexp prec64 emax64 k = Z.max (k - 53) (-1074).
Proof. reflexivity. Qed.

Lemma round_aux_exact (s : bool) (n m : positive) (t e : Z) :
  Zpos n < 2 ^ 53 -> 0 <= t -> Zpos m = Zpos n * 2 ^ t ->
  53 <= Zpos (digits2_pos n) + t -> in_range64 (e + t) n ->
  binary_round_aux prec64 emax64 s (Zpos m) e loc_Exact = dyadic64 s n (e + t).
Proof.
  intros Hn Ht Hm Hd Hr. unfold in_range64 in Hr.
  pose proof (digits2_shift n m t Ht Hm) as Dm.
  pose proof (digits2_le53 n Hn) as Dn.
  set (d := Zpos (digits2_pos n)) in *.
  set (sh := 53 - d).
  assert (Hpow : 0 < 2 ^ sh) by (apply Z.pow_pos_nonneg; lia).
  unfold binary_round_aux, shr_fexp.
  cbn [Zdigits2 shr_record_of_loc]. rewrite Dm, fexp64.
  replace (Z.max (d + t + e - 53) (-1074) - e) with (t - sh) by lia.
  replace (Zpos m) with ((Zpos n * 2 ^ sh) * 2 ^ (t - sh)).
  2:{ rewrite Hm, <- Z.mul_assoc, <- Z.pow_add_r by lia. do 2 f_equal. lia. }
  rewrite shr_exact by lia.
  cbn [shr_m loc_of_shr_record round_nearest_even].
  assert (Hq : exists q, Zpos q = Zpos n * 2 ^ sh).
  { exists (Z.to_pos (Zpos n * 2 ^ sh)). rewrite Z2Pos.id; lia. }
  destruct Hq as [q Hq]. rewrite <- Hq.
  cbn [Zdigits2 shr_record_of_loc].
  rewrite (digits2_shift n q sh) by (lia || auto). fold d. rewrite fexp64.
  replace (Z.max (d + sh + (e + (t - sh)) - 53) (-1074) - (e + (t - sh))) with 0 by lia.
  cbn [shr shr_m].
  replace (e + (t - sh) <=? emax64 - prec64) with true
    by (symmetry; apply Z.leb_le; unfold emax64, prec64; lia).
  unfold dyadic64. fold d. fold sh. rewrite <- Hq, Pos2Z.id. f_equal. lia.
Qed.

Lemma round_exact (s : bool) (n m : positive) (t e : Z) :
  Zpos n < 2 ^ 53 -> 0 <= t -> Zpos m = Zpos n * 2 ^ t -> in_range64 (e + t) n ->
  binary_round prec64 emax64 s m e = dyadic64 s n (e + t).
Proof.
  intros Hn Ht Hm Hr.
  pose proof (digits2_shift n m t Ht Hm) as Dm.
  pose proof (digits2_le53 n Hn) as Dn.
  unfold binary_round. rewrite Dm, fexp64.
  assert (Hr' := Hr). unfold in_range64 in Hr'.
  destruct (Z.le_gt_cases 53 (Zpos (digits2_pos n) + t)) as [Hge | Hlt].
  - replace (Z.max (Zpos (digits2_pos n) + t + e - 53) (-1074)) with
      (e + (Zpos (digits2_pos n) + t - 53)) by lia.
    unfold shl_align.
    destruct (e + (Zpos (digits2_pos n) + t - 53) - e) as [ | p | p] eqn:Hp; try lia;
      apply round_aux_exact; assumption.
  - set (e' := Z.max (Zpos (digits2_pos n) + t + e - 53) (-1074)).
    assert (He' : e' = e + (Zpos (digits2_pos n) + t - 53)) by (subst e'; lia).
    destruct (shl_align_spec m e e') as [Hv He]; [lia|].
    destruct (shl_align m e e') as [mz ez]. cbn [fst snd] in Hv, He. subst ez.
    replace (e + t) with (e' + (53 - Zpos (digits2_pos n))) by lia.
    apply round_aux_exact; try lia.
    + rewrite Hv, Hm, <- Z.mul_assoc, <- Z.pow_add_r by lia. do 2 f_equal. lia.
    + unfold in_range64. lia.
Qed.

End Rounding.

Section ExactOperations.

Lemma digits2_mono (p q : positive) :
  Zpos p <= Zpos q -> Zpos (digits2_pos p) <= Zpos (digits2_pos q).
Proof.
  intros Hpq. pose proof (digits2_bounds p) as [Plo _].
  pose proof (digits2_bounds q) as [_ Qhi].
  destruct (Z.le_gt_cases (Zpos (digits2_pos p)) (Zpos (digits2_pos q))) as [|Hgt];
    [assumption|].
  assert (2 ^ Zpos (digits2_pos q) <= 2 ^ (Zpos (digits2_pos p) - 1))
    by (apply Z.pow_le_mono_r; lia).
  lia.
Qed.

Lemma in_range64_small (n : positive) (k : Z) :
  Zpos n < 2 ^ 53 -> -1000 <= k <= 900 -> in_range64 k n.
Proof.
  intros Hn Hk. unfold in_range64. pose proof (digits2_le53 n Hn).
  assert (0 < Zpos (digits2_pos n)) by lia. lia.
Qed.

Lemma dyadic64_mantissa (n : positive) :
  Zpos n < 2 ^ 53 ->
  Zpos (Z.to_pos (Zpos n * 2 ^ (53 - Zpos (digits2_pos n))))
  = Zpos n * 2 ^ (53 - Zpos (digits2_pos n)).
Proof.
  intros Hn. pose proof (digits2_le53 n Hn).
  assert (0 < 2 ^ (53 - Zpos (digits2_pos n))) by (apply Z.pow_pos_nonneg; lia).
  rewrite Z2Pos.id; lia.
Qed.

Lemma f64_of_Z_pos (n : positive) :
  Zpos n < 2 ^ 53 -> f64_of_Z (Zpos n) = dyadic64 false n 0.
Proof.
  intros Hn. unfold f64_of_Z, binary_normalize.
  apply (round_exact false n n 0 0); try lia.
  apply in_range64_small; lia.
Qed.

Lemma f64_half : f64_div (f64_of_Z 1) (f64_of_Z 2) = dyadic64 false 1 (-1).
Proof. reflexivity. Qed.

Lemma f64_mul_exact (s1 s2 : bool) (n1 n2 n : positive) (k1 k2 j : Z) :
  Zpos n1 < 2 ^ 53 -> Zpos n2 < 2 ^ 53 -> Zpos n < 2 ^ 53 -> 0 <= j ->
  Zpos n1 * Zpos n2 = Zpos n * 2 ^ j ->
  in_range64 (k1 + k2 + j) n ->
  f64_mul (dyadic64 s1 n1 k1) (dyadic64 s2 n2 k2)
  = dyadic64 (xorb s1 s2) n (k1 + k2 + j).
Proof.
  intros H1 H2 Hn Hj Hprod Hr.
  pose proof (digits2_le53 n1 H1) as D1. pose proof (digits2_le53 n2 H2) as D2.
  pose proof (dyadic64_mantissa n1 H1) as M1.
  pose proof (dyadic64_mantissa n2 H2) as M2.
  unfold f64_mul, dyadic64 at 1 2, SFmul. cbv zeta.
  set (sh1 := 53 - Zpos (digits2_pos n1)) in *.
  set (sh2 := 53 - Zpos (digits2_pos n2)) in *.
  replace (k1 + k2 + j) with ((k1 - sh1 + (k2 - sh2)) + (j + sh1 + sh2)) by lia.
  apply round_aux_exact; try lia.
  - rewrite Pos2Z.inj_mul, M1, M2.
    replace (Zpos n1 * 2 ^ sh1 * (Zpos n2 * 2 ^ sh2))
      with ((Zpos n1 * Zpos n2) * (2 ^ sh1 * 2 ^ sh2)) by ring.
    rewrite Hprod, !Z.pow_add_r by lia. ring.
  - assert (Dp : Zpos (digits2_pos (n1 * n2)) = Zpos (digits2_pos n) + j)
      by (apply digits2_shift; [lia | rewrite Pos2Z.inj_mul; exact Hprod]).
    assert (Zpos (digits2_pos n1) <= Zpos (digits2_pos (n1 * n2)))
      by (apply digits2_mono; rewrite Pos2Z.inj_mul; nia).
    lia.
  - replace (k1 - sh1 + (k2 - sh2) + (j + sh1 + sh2)) with (k1 + k2 + j) by lia.
    exact Hr.
Qed.

Lemma f64_add_exact (n1 n2 : positive) :
  Zpos n1 + Zpos n2 < 2 ^ 53 ->
  f64_add (dyadic64 false n1 0) (dyadic64 false n2 0) = dyadic64 false (n1 + n2) 0.
Proof.
  intros Hsum.
  assert (H1 : Zpos n1 < 2 ^ 53) by lia. assert (H2 : Zpos n2 < 2 ^ 53) by lia.
  pose proof (digits2_le53 n1 H1) as D1. pose proof (digits2_le53 n2 H2) as D2.
  pose proof (dyadic64_mantissa n1 H1) as M1.
  pose proof (dyadic64_mantissa n2 H2) as M2.
  unfold f64_add, dyadic64 at 1 2, SFadd. cbv zeta. cbn [cond_Zopp].
  set (sh1 := 53 - Zpos (digits2_pos n1)) in *.
  set (sh2 := 53 - Zpos (digits2_pos n2)) in *.
  set (ez := Z.min (0 - sh1) (0 - sh2)).
  destruct (shl_align_spec (Z.to_pos (Zpos n1 * 2 ^ sh1)) (0 - sh1) ez) as [A1 _];
    [subst ez; lia|].
  destruct (shl_align_spec (Z.to_pos (Zpos n2 * 2 ^ sh2)) (0 - sh2) ez) as [A2 _];
    [subst ez; lia|].
  rewrite M1 in A1. rewrite M2 in A2.
  rewrite <- Pos2Z.inj_add. unfold binary_normalize.
  replace 0 with (ez + (- ez)) at 3 by lia.
  apply round_exact.
  - rewrite Pos2Z.inj_add. exact Hsum.
  - subst ez. lia.
  - rewrite !Pos2Z.inj_add, A1, A2, <- !Z.mul_assoc, <- !Z.pow_add_r
      by (subst ez; lia).
    replace (sh1 + (0 - sh1 - ez)) with (- ez) by lia.
    replace (sh2 + (0 - sh2 - ez)) with (- ez) by lia. ring.
  - replace (ez + - ez) with 0 by lia.
    apply in_range64_small; [rewrite Pos2Z.inj_add|]; lia.
Qed.

Lemma f64_to_Z_dyadic (n : positive) :
  Zpos n < 2 ^ 53 -> f64_to_Z (dyadic64 false n 0) = Some (Zpos n).
Proof.
  intros Hn. pose proof (digits2_le53 n Hn) as Dn.
  pose proof (dyadic64_mantissa n Hn) as Mn.
  unfold f64_to_Z, dyadic64. cbv zeta.
  set (sh := 53 - Zpos (digits2_pos n)) in *.
  assert (Hp : 0 < 2 ^ sh) by (apply Z.pow_pos_nonneg; lia).
  destruct (0 <=? 0 - sh) eqn:E.
  - apply Z.leb_le in E. assert (sh = 0) by lia.
    rewrite Mn. replace (0 - sh) with 0 by lia. replace sh with 0 by lia.
    rewrite !Z.pow_0_r. f_equal. lia.
  - rewrite Mn. replace (- (0 - sh)) with sh by lia.
    rewrite Z.mod_mul by lia. cbn [Z.eqb]. rewrite Z.div_mul by lia. reflexivity.
Qed.

End ExactOperations.

(** ** The pairing formula *)

Section Cantor.

Lemma consecutive_product_even (s : Z) : exists c, s * (s + 1) = 2 * c.
Proof.
  destruct (Z.Even_or_Odd s) as [[k Hk] | [k Hk]]; subst s.
  - exists (k * (2 * k + 1)). ring.
  - exists ((2 * k + 1) * (k + 1)). ring.
Qed.

Lemma cantor_double (a b : Z) :
  2 * cantor a b = (a + b) * (a + b + 1) + 2 * b.
Proof.
  unfold cantor. destruct (consecutive_product_even (a + b)) as [c Hc].
  rewrite Hc, (Z.mul_comm 2 c), Z.div_mul by lia. lia.
Qed.

Lemma cantor_injective (a b a' b' : Z) :
  0 <= a -> 0 <= b -> 0 <= a' -> 0 <= b' ->
  cantor a b = cantor a' b' -> a = a' /\ b = b'.
Proof.
  intros Ha Hb Ha' Hb' Heq.
  pose proof (cantor_double a b) as D. pose proof (cantor_double a' b') as D'.
  rewrite Heq in D.
  assert (Hs : a + b = a' + b').
  { destruct (Z.lt_trichotomy (a + b) (a' + b')) as [Hlt | [He | Hgt]];
      [exfalso | exact He | exfalso]; nia. }
  rewrite Hs in D. lia.
Qed.

Lemma wrap_small (w z : Z) :
  32 <= w -> 0 <= z < 2 ^ 31 -> wrap w z = z.
Proof.
  intros Hw Hz. unfold wrap.
  assert (2 ^ 31 <= 2 ^ (w - 1)) by (apply Z.pow_le_mono_r; lia).
  replace (2 ^ w) with (2 * 2 ^ (w - 1))
    by (rewrite <- Z.pow_succ_r by lia; f_equal; lia).
  rewrite Z.mod_small; lia.
Qed.

Lemma cantor_f64_exact (w a b : Z) :
  32 <= w -> 0 <= a -> 0 <= b -> cantor a b < 2 ^ 53 ->
  cantor_f64 w a b = f64_of_Z (cantor a b).
Proof.
  intros Hw Ha Hb Hc. pose proof (cantor_double a b) as D.
  destruct (consecutive_product_even (a + b)) as [c Hprod].
  assert (Hcb : cantor a b = c + b) by lia.
  assert (Hs : a + b < 2 ^ 27) by nia.
  unfold cantor_f64. cbv zeta.
  rewrite (wrap_small w (a + b)) by lia. rewrite (wrap_small w (a + b + 1)) by lia.
  rewrite f64_half, Hcb.
  destruct (a + b) as [ | s | s] eqn:Es; [ | | lia].
  - assert (b = 0) by lia. assert (c = 0) by lia. subst b c. reflexivity.
  - assert (Hcpos : 0 < c) by nia.
    destruct c as [ | pc | pc]; [lia | | lia].
    rewrite (f64_of_Z_pos s) by lia.
    rewrite (f64_mul_exact false false 1 s s (-1) 0 0); try lia;
      [ | apply in_range64_small; lia ].
    cbn [xorb]. change (-1 + 0 + 0) with (-1).
    change (Zpos s + 1) with (Zpos (s + 1)).
    rewrite (f64_of_Z_pos (s + 1)) by lia.
    rewrite (f64_mul_exact false false s (s + 1) pc (-1) 0 1); try lia;
      [ | apply in_range64_small; lia ].
    cbn [xorb]. change (-1 + 0 + 1) with 0.
    destruct b as [ | pb | pb]; [ | | lia].
    + rewrite Z.add_0_r, (f64_of_Z_pos pc) by lia. reflexivity.
    + rewrite (f64_of_Z_pos pb) by lia.
      change (Zpos pc + Zpos pb) with (Zpos (pc + pb)).
      rewrite (f64_of_Z_pos (pc + pb)) by lia.
      apply f64_add_exact. lia.
Qed.

Lemma f64_to_Z_of_Z (n : Z) :
  0 <= n < 2 ^ 53 -> f64_to_Z (f64_of_Z n) = Some n.
Proof.
  intros Hn. destruct n as [ | p | p]; [reflexivity | | lia].
  rewrite f64_of_Z_pos by lia. apply f64_to_Z_dyadic. lia.
Qed.

Lemma cantor_nonneg (a b : Z) : 0 <= a -> 0 <= b -> 0 <= cantor a b.
Proof. intros Ha Hb. pose proof (cantor_double a b). nia. Qed.

Lemma combine_columns (rows : list (Z * Z)) :
  combine (map fst rows) (map snd rows) = rows.
Proof.
  induction rows as [ | [a b] rows IH]; cbn; [reflexivity | now rewrite IH].
Qed.

Lemma pair_columns_exact (w : Z) (rows : list (Z * Z)) :
  32 <= w -> Forall tag_in_domain rows ->
  pair_columns w (map fst rows) (map snd rows)
  = NdFloat (map (fun ab => f64_of_Z (cantor (fst ab) (snd ab))) rows).
Proof.
  intros Hw Hrows. unfold pair_columns. rewrite combine_columns. f_equal.
  induction Hrows as [ | [a b] rows [Ha [Hb Hc]] _ IH]; cbn [map fst snd] in *;
    [reflexivity|].
  rewrite IH, cantor_f64_exact by assumption. reflexivity.
Qed.

End Cantor.

(** ** Running the methods symbolically *)

Arguments OsirisRawDataReader.file_path : simpl never.
Arguments HiPACERawDataReader.file_path : simpl never.
Arguments pair_columns : simpl never.
Arguments decode_units : simpl never.
Arguments f64_add : simpl never.
Arguments f64_sub : simpl never.
Arguments f64_of_Z : simpl never.
Arguments index_of : simpl never.
Arguments stored_array : simpl never.
Arguments String.eqb : simpl never.
Arguments Z.eqb : simpl never.

Ltac unfold_monad :=
  unfold dispatch, H5File, close, get_array, getitem, attrs, index0, index,
    columns, iadd, array_sub, get_particle, _find_output, the_series,
    OpenPMDTimeSeries_new, bind, ret, raise, attr, assign, effect, lift,
    world_attr in *.

Ltac split_match :=
  match goal with
  | |- context [match ?x with _ => _ end] =>
      lazymatch x with
      | context [match _ with _ => _ end] => fail
      | _ => destruct x eqn:?
      end
  end.

Ltac exec := unfold_monad; repeat (cbn in *; try split_match).

Ltac frame_done :=
  first [ constructor; reflexivity
        | split; reflexivity ].

Section LogPrefix.

Lemma no_lookup_log_refl (l : list io_event) :
  exists evs, l = (evs ++ l)%list /\ Forall not_a_lookup evs.
Proof. exists []. split; [reflexivity | constructor]. Qed.

Lemma no_lookup_log_cons (ev : io_event) (l l' : list io_event) :
  not_a_lookup ev ->
  (exists evs, l' = (evs ++ l)%list /\ Forall not_a_lookup evs) ->
  exists evs, ev :: l' = (evs ++ l)%list /\ Forall not_a_lookup evs.
Proof.
  intros Hev (evs & -> & Hall). exists (ev :: evs).
  split; [reflexivity | constructor; assumption].
Qed.

End LogPrefix.

Ltac no_lookup_done :=
  cbn; repeat (apply no_lookup_log_cons; [exact I | ]); apply no_lookup_log_refl.

Section OsirisLaws.
Import OsirisRawDataReader.

Lemma Osiris_ReadTime_no_lookup t : preserves no_lookups (_ReadTime t).
Proof.
  intros r w. unfold no_lookups, _ReadTime, _OpenFile. exec; no_lookup_done.
Qed.

Lemma Osiris_ReadData_frame t : preserves frame (_ReadData t).
Proof. intros r w. unfold _ReadData, _OpenFile. exec; frame_done. Qed.

Lemma Osiris_ReadData_units t : preserves units_kept (_ReadData t).
Proof. intros r w. unfold _ReadData, _OpenFile. exec; frame_done. Qed.

Lemma Osiris_ReadTime_frame t : preserves frame (_ReadTime t).
Proof. intros r w. unfold _ReadTime, _OpenFile. exec; frame_done. Qed.

Lemma Osiris_ReadTime_units t : preserves units_kept (_ReadTime t).
Proof. intros r w. unfold _ReadTime, _OpenFile. exec; frame_done. Qed.

Lemma Osiris_ReadUnits_frame : preserves frame _ReadUnits.
Proof. intros r w. unfold _ReadUnits, _OpenFile. exec; frame_done. Qed.

Lemma Osiris_ReadBasicData_frame : preserves frame _ReadBasicData.
Proof.
  intros r w. unfold _ReadBasicData, _ReadSimulationProperties, _OpenFile.
  exec; frame_done.
Qed.
End OsirisLaws.

Ltac same_source_subst r w r' w' H :=
  destruct H as (? & ? & ? & ? & ? & ?);
  destruct r, r', w, w'; cbn in *; subst.

Ltac store_done :=
  repeat split; first [ reflexivity | left; reflexivity | right; split; reflexivity ].

Section OsirisUnits.
Import OsirisRawDataReader.

Lemma Osiris_ReadUnits_function r w r' w' :
  same_source r w r' w' ->
  out_res (_ReadUnits r' w') = out_res (_ReadUnits r w) /\
  same_store dataUnits r (out_self (_ReadUnits r w)) r' (out_self (_ReadUnits r' w')) /\
  same_store timeUnits r (out_self (_ReadUnits r w)) r' (out_self (_ReadUnits r' w')).
Proof.
  intros H. same_source_subst r w r' w' H.
  unfold same_store, _ReadUnits, _OpenFile, file_path. exec; store_done.
Qed.

#[export] Instance Osiris_lawful : Lawful reader.
Proof.
  constructor.
  - exact Osiris_ReadData_frame.
  - exact Osiris_ReadData_units.
  - exact Osiris_ReadTime_frame.
  - exact Osiris_ReadTime_units.
  - exact Osiris_ReadTime_no_lookup.
  - exact Osiris_ReadUnits_frame.
  - exact Osiris_ReadUnits_function.
Qed.
End OsirisUnits.

Section HiPACELaws.
Import HiPACERawDataReader.

Lemma HiPACE_ReadTime_no_lookup t : preserves no_lookups (_ReadTime t).
Proof.
  intros r w. unfold no_lookups, _ReadTime, _OpenFile. exec; no_lookup_done.
Qed.

Lemma HiPACE_ReadData_frame t : preserves frame (_ReadData t).
Proof. intros r w. unfold _ReadData, _OpenFile. exec; frame_done. Qed.

Lemma HiPACE_ReadData_units t : preserves units_kept (_ReadData t).
Proof. intros r w. unfold _ReadData, _OpenFile. exec; frame_done. Qed.

Lemma HiPACE_ReadTime_frame t : preserves frame (_ReadTime t).
Proof. intros r w. unfold _ReadTime, _OpenFile. exec; frame_done. Qed.

Lemma HiPACE_ReadTime_units t : preserves units_kept (_ReadTime t).
Proof. intros r w. unfold _ReadTime, _OpenFile. exec; frame_done. Qed.

Lemma HiPACE_ReadUnits_frame : preserves frame _ReadUnits.
Proof. intros r w. unfold _ReadUnits. exec; frame_done. Qed.

Lemma HiPACE_ReadBasicData_frame : preserves frame _ReadBasicData.
Proof.
  intros r w. unfold _ReadBasicData, _ReadSimulationProperties, _OpenFile.
  exec; frame_done.
Qed.

Lemma HiPACE_ReadUnits_function r w r' w' :
  same_source r w r' w' ->
  out_res (_ReadUnits r' w') = out_res (_ReadUnits r w) /\
  same_store dataUnits r (out_self (_ReadUnits r w)) r' (out_self (_ReadUnits r' w')) /\
  same_store timeUnits r (out_self (_ReadUnits r w)) r' (out_self (_ReadUnits r' w')).
Proof.
  intros H. same_source_subst r w r' w' H.
  unfold same_store, _ReadUnits. exec; store_done.
Qed.

#[export] Instance HiPACE_lawful : Lawful reader.
Proof.
  constructor.
  - exact HiPACE_ReadData_frame.
  - exact HiPACE_ReadData_units.
  - exact HiPACE_ReadTime_frame.
  - exact HiPACE_ReadTime_units.
  - exact HiPACE_ReadTime_no_lookup.
  - exact HiPACE_ReadUnits_frame.
  - exact HiPACE_ReadUnits_function.
Qed.
End HiPACELaws.

Section OpenPMDLaws.
Import OpenPMDRawDataReader.

Lemma OpenPMD_ReadTime_no_lookup t : preserves no_lookups (_ReadTime t).
Proof.
  intros r w. unfold no_lookups, _ReadTime. exec; no_lookup_done.
Qed.

Lemma OpenPMD_ReadData_frame t : preserves frame (_ReadData t).
Proof. intros r w. unfold _ReadData, _ReadTime. exec; frame_done. Qed.

Lemma OpenPMD_ReadData_units t : preserves units_kept (_ReadData t).
Proof. intros r w. unfold _ReadData, _ReadTime. exec; frame_done. Qed.

Lemma OpenPMD_ReadTime_frame t : preserves frame (_ReadTime t).
Proof. intros r w. unfold _ReadTime. exec; frame_done. Qed.

Lemma OpenPMD_ReadTime_units t : preserves units_kept (_ReadTime t).
Proof. intros r w. unfold _ReadTime. exec; frame_done. Qed.

Lemma OpenPMD_ReadUnits_frame : preserves frame _ReadUnits.
Proof. intros r w. unfold _ReadUnits. exec; frame_done. Qed.

Lemma OpenPMD_ReadBasicData_frame : preserves frame _ReadBasicData.
Proof.
  intros r w. unfold _ReadBasicData, _ReadSimulationProperties, _OpenFile.
  exec; frame_done.
Qed.

Lemma OpenPMD_ReadUnits_function r w r' w' :
  same_source r w r' w' ->
  out_res (_ReadUnits r' w') = out_res (_ReadUnits r w) /\
  same_store dataUnits r (out_self (_ReadUnits r w)) r' (out_self (_ReadUnits r' w')) /\
  same_store timeUnits r (out_self (_ReadUnits r w)) r' (out_self (_ReadUnits r' w')).
Proof.
  intros H. unfold same_store, _ReadUnits. exec; store_done.
Qed.

#[export] Instance OpenPMD_lawful : Lawful reader.
Proof.
  constructor.
  - exact OpenPMD_ReadData_frame.
  - exact OpenPMD_ReadData_units.
  - exact OpenPMD_ReadTime_frame.
  - exact OpenPMD_ReadTime_units.
  - exact OpenPMD_ReadTime_no_lookup.
  - exact OpenPMD_ReadUnits_frame.
  - exact OpenPMD_ReadUnits_function.
Qed.
End OpenPMDLaws.

(** The three classes of the module are lawful. *)
Lemma every_class_lawful (c : reader_class) : Lawful (methods_of c).
Proof.
  destruct c; [exact Osiris_lawful | exact HiPACE_lawful | exact OpenPMD_lawful].
Qed.

(** ** The cache of [RawDataReaderBase] *)

Section BaseClass.
Context {R : RawDataReader} {L : Lawful R}.

Lemma GetData_hit (t : Z) (r : Reader) (w : World) :
  currentTimeStep r = t -> GetData t r w = mkOutcome (Ok (data r)) r w.
Proof.
  intros H. unfold GetData. unfold_monad. cbn. rewrite H, Z.eqb_refl. reflexivity.
Qed.

Lemma GetData_miss (t : Z) (r : Reader) (w : World) :
  currentTimeStep r <> t ->
  GetData t r w =
  let o := _ReadData t (set_currentTimeStep t r) (log_call (Call_ReadData t) w) in
  match out_res o with
  | Ok d => mkOutcome (Ok d) (set_data d (out_self o)) (out_world o)
  | Raise e => mkOutcome (Raise e) (out_self o) (out_world o)
  end.
Proof.
  intros H. unfold GetData. unfold_monad. cbn.
  replace (t =? currentTimeStep r) with false by (symmetry; apply Z.eqb_neq; congruence).
  cbn. destruct (_ReadData t _ _) as [[d | e] r1 w1]; reflexivity.
Qed.

Lemma GetTime_hit (t : Z) (r : Reader) (w : World) :
  currentTimeStep r = t -> GetTime t r w = mkOutcome (Ok (currentTime r)) r w.
Proof.
  intros H. unfold GetTime. unfold_monad. cbn. rewrite H, Z.eqb_refl. reflexivity.
Qed.

Lemma GetTime_miss (t : Z) (r : Reader) (w : World) :
  currentTimeStep r <> t ->
  GetTime t r w =
  let o := _ReadTime t (set_currentTimeStep t r) (log_call (Call_ReadTime t) w) in
  match out_res o with
  | Ok _ => mkOutcome (Ok (currentTime (out_self o))) (out_self o) (out_world o)
  | Raise e => mkOutcome (Raise e) (out_self o) (out_world o)
  end.
Proof.
  intros H. unfold GetTime. unfold_monad. cbn.
  replace (t =? currentTimeStep r) with false by (symmetry; apply Z.eqb_neq; congruence).
  cbn. destruct (_ReadTime t _ _) as [[d | e] r1 w1]; reflexivity.
Qed.

(** After either call, whatever its outcome, the cache key is the requested
    time step. *)
Lemma GetData_key (t : Z) (r : Reader) (w : World) :
  currentTimeStep (out_self (GetData t r w)) = t.
Proof.
  destruct (Z.eq_dec (currentTimeStep r) t) as [H | H].
  - rewrite GetData_hit by assumption. exact H.
  - rewrite GetData_miss by assumption. cbv zeta.
    pose proof (ReadData_frame t (set_currentTimeStep t r)
                  (log_call (Call_ReadData t) w)) as F.
    destruct F as [_ _ _ _ _ Fk _ _ _].
    destruct (_ReadData t _ _) as [[d | e] r1 w1]; cbn in *; exact Fk.
Qed.

Lemma GetTime_key (t : Z) (r : Reader) (w : World) :
  currentTimeStep (out_self (GetTime t r w)) = t.
Proof.
  destruct (Z.eq_dec (currentTimeStep r) t) as [H | H].
  - rewrite GetTime_hit by assumption. exact H.
  - rewrite GetTime_miss by assumption. cbv zeta.
    pose proof (ReadTime_frame t (set_currentTimeStep t r)
                  (log_call (Call_ReadTime t) w)) as F.
    destruct F as [_ _ _ _ _ Fk _ _ _].
    destruct (_ReadTime t _ _) as [[d | e] r1 w1]; cbn in *; exact Fk.
Qed.

(** The dispatches each call adds to the record. *)
Lemma GetData_calls (t : Z) (r : Reader) (w : World) :
  calls (out_world (GetData t r w)) =
  if t =? currentTimeStep r then calls w else Call_ReadData t :: calls w.
Proof.
  destruct (Z.eq_dec (currentTimeStep r) t) as [H | H].
  - rewrite GetData_hit by assumption. rewrite H, Z.eqb_refl. reflexivity.
  - rewrite GetData_miss by assumption. cbv zeta.
    replace (t =? currentTimeStep r) with false by (symmetry; apply Z.eqb_neq; congruence).
    pose proof (ReadData_frame t (set_currentTimeStep t r)
                  (log_call (Call_ReadData t) w)) as F.
    destruct F as [_ _ _ _ _ _ _ Fc _].
    destruct (_ReadData t _ _) as [[d | e] r1 w1]; cbn in *; exact Fc.
Qed.

Lemma GetTime_calls (t : Z) (r : Reader) (w : World) :
  calls (out_world (GetTime t r w)) =
  if t =? currentTimeStep r then calls w else Call_ReadTime t :: calls w.
Proof.
  destruct (Z.eq_dec (currentTimeStep r) t) as [H | H].
  - rewrite GetTime_hit by assumption. rewrite H, Z.eqb_refl. reflexivity.
  - rewrite GetTime_miss by assumption. cbv zeta.
    replace (t =? currentTimeStep r) with false by (symmetry; apply Z.eqb_neq; congruence).
    pose proof (ReadTime_frame t (set_currentTimeStep t r)
                  (log_call (Call_ReadTime t) w)) as F.
    destruct F as [_ _ _ _ _ _ _ Fc _].
    destruct (_ReadTime t _ _) as [[d | e] r1 w1]; cbn in *; exact Fc.
Qed.

(** What a call returns is what it leaves in the slot it serves. *)
Lemma GetData_returns (t : Z) (r : Reader) (w : World) (d : ndarray) :
  out_res (GetData t r w) = Ok d -> data (out_self (GetData t r w)) = d.
Proof.
  destruct (Z.eq_dec (currentTimeStep r) t) as [H | H].
  - rewrite GetData_hit by assumption. cbn. congruence.
  - rewrite GetData_miss by assumption. cbv zeta.
    destruct (_ReadData t _ _) as [[d' | e] r1 w1]; cbn; congruence.
Qed.

Lemma GetTime_returns (t : Z) (r : Reader) (w : World) (v : pyscalar) :
  out_res (GetTime t r w) = Ok v -> currentTime (out_self (GetTime t r w)) = v.
Proof.
  destruct (Z.eq_dec (currentTimeStep r) t) as [H | H].
  - rewrite GetTime_hit by assumption. cbn. congruence.
  - rewrite GetTime_miss by assumption. cbv zeta.
    destruct (_ReadTime t _ _) as [[d' | e] r1 w1]; cbn; congruence.
Qed.

(** [GetTime] never touches the cached array; a failing [GetData] does not
    either. *)
Lemma GetTime_data (t : Z) (r : Reader) (w : World) :
  data (out_self (GetTime t r w)) = data r.
Proof.
  destruct (Z.eq_dec (currentTimeStep r) t) as [H | H].
  - rewrite GetTime_hit by assumption. reflexivity.
  - rewrite GetTime_miss by assumption. cbv zeta.
    pose proof (ReadTime_frame t (set_currentTimeStep t r)
                  (log_call (Call_ReadTime t) w)) as F.
    destruct F as [_ _ _ _ _ _ Fd _ _].
    destruct (_ReadTime t _ _) as [[d | e] r1 w1]; cbn in *; exact Fd.
Qed.

(** A time read looks no stored field up. *)
Lemma GetTime_no_lookup (t : Z) (r : Reader) (w : World) :
  no_lookups r w (out_self (GetTime t r w)) (out_world (GetTime t r w)).
Proof.
  destruct (Z.eq_dec (currentTimeStep r) t) as [H | H].
  - rewrite GetTime_hit by assumption. exists []. split; [reflexivity | constructor].
  - rewrite GetTime_miss by assumption. cbv zeta.
    pose proof (ReadTime_no_lookup t (set_currentTimeStep t r)
                  (log_call (Call_ReadTime t) w)) as F.
    destruct (_ReadTime t _ _) as [[d | e] r1 w1]; cbn in *; exact F.
Qed.

Lemma GetData_raises (t : Z) (r : Reader) (w : World) (e : exn) :
  out_res (GetData t r w) = Raise e ->
  currentTimeStep r <> t /\
  out_res (_ReadData t (set_currentTimeStep t r) (log_call (Call_ReadData t) w))
  = Raise e /\
  data (out_self (GetData t r w)) = data r.
Proof.
  destruct (Z.eq_dec (currentTimeStep r) t) as [H | H].
  - rewrite GetData_hit by assumption. cbn. discriminate.
  - rewrite GetData_miss by assumption. cbv zeta.
    pose proof (ReadData_frame t (set_currentTimeStep t r)
                  (log_call (Call_ReadData t) w)) as F.
    destruct F as [_ _ _ _ _ _ Fd _ _].
    destruct (_ReadData t _ _) as [[d | e'] r1 w1]; cbn in *; [discriminate|].
    intros E. repeat split; [assumption | exact E | exact Fd].
Qed.

Lemma GetTime_raises (t : Z) (r : Reader) (w : World) (e : exn) :
  out_res (GetTime t r w) = Raise e ->
  currentTimeStep r <> t /\
  out_res (_ReadTime t (set_currentTimeStep t r) (log_call (Call_ReadTime t) w))
  = Raise e.
Proof.
  destruct (Z.eq_dec (currentTimeStep r) t) as [H | H].
  - rewrite GetTime_hit by assumption. cbn. discriminate.
  - rewrite GetTime_miss by assumption. cbv zeta.
    destruct (_ReadTime t _ _) as [[d | e'] r1 w1]; cbn in *; [discriminate|].
    intros E. split; [assumption | congruence].
Qed.

End BaseClass.

(** ** Claims on the time-step cache *)

(** C7, as the code has it.  For every lawful reader and time step [t], of
    two consecutive [GetData(t)] calls: the first dispatches the extraction
    exactly when [t] is not the time step the reader caches, and then returns
    or raises what the extraction returns or raises; the second never
    dispatches, changes nothing and always returns the data slot.  So the pair
    extracts once when [t] was not cached and not at all when it was.  When
    the first call returns, the second returns the same array; when the first
    call raises, the second returns the array cached before the first call. *)
Theorem C7_second_GetData_is_cached
    (R : RawDataReader) (L : Lawful R) (t : Z) (r : Reader) (w : World) :
  let o1 := GetData t r w in
  let o2 := GetData t (out_self o1) (out_world o1) in
  calls (out_world o1)
  = (if t =? currentTimeStep r then calls w else Call_ReadData t :: calls w) /\
  (currentTimeStep r = t -> o1 = mkOutcome (Ok (data r)) r w) /\
  (currentTimeStep r <> t ->
   out_res o1
   = out_res (_ReadData t (set_currentTimeStep t r) (log_call (Call_ReadData t) w))) /\
  o2 = mkOutcome (Ok (data (out_self o1))) (out_self o1) (out_world o1) /\
  (currentTimeStep r <> t ->
   data_extractions (calls (out_world o2)) = S (data_extractions (calls w))) /\
  (currentTimeStep r = t ->
   data_extractions (calls (out_world o2)) = data_extractions (calls w)) /\
  (forall d, out_res o1 = Ok d -> out_res o2 = Ok d) /\
  (forall e, out_res o1 = Raise e ->
     currentTimeStep r <> t /\ out_res o2 = Ok (data r)).
Proof.
  cbv zeta.
  rewrite (GetData_hit t (out_self (GetData t r w))) by apply GetData_key.
  cbn [out_res out_self out_world].
  split; [apply GetData_calls | ].
  split; [intros H; apply GetData_hit; exact H | ].
  split.
  { intros H. rewrite GetData_miss by assumption. cbv zeta.
    destruct (_ReadData t _ _) as [[d | e] r1 w1]; reflexivity. }
  split; [reflexivity | ].
  split.
  { intros H. rewrite GetData_calls.
    replace (t =? currentTimeStep r) with false
      by (symmetry; apply Z.eqb_neq; congruence).
    reflexivity. }
  split.
  { intros H. rewrite GetData_calls, H, Z.eqb_refl. reflexivity. }
  split.
  { intros d Hd. f_equal. apply GetData_returns. exact Hd. }
  intros e He. destruct (GetData_raises t r w e He) as (Hnew & _ & Hd).
  split; [exact Hnew | f_equal; exact Hd].
Qed.

Lemma C7_witness :
  Lawful HiPACERawDataReader.reader /\
  currentTimeStep (Fixture.fresh "x1") <> 5 /\
  let o1 := GetData (R := HiPACERawDataReader.reader) 5 (Fixture.fresh "x1") Fixture.world in
  let o2 := GetData (R := HiPACERawDataReader.reader) 5 (out_self o1) (out_world o1) in
  calls (out_world o1) = Call_ReadData 5 :: calls Fixture.world /\
  o2 = mkOutcome (Ok (data (out_self o1))) (out_self o1) (out_world o1) /\
  data_extractions (calls (out_world o2)) = S (data_extractions (calls Fixture.world)).
Proof.
  assert (Hnew : currentTimeStep (Fixture.fresh "x1") <> 5) by (cbn; lia).
  split; [exact HiPACE_lawful | ].
  split; [exact Hnew | ].
  cbv zeta.
  destruct (C7_second_GetData_is_cached HiPACERawDataReader.reader HiPACE_lawful
              5 (Fixture.fresh "x1") Fixture.world)
    as (H1 & _ & _ & H4 & H5 & _).
  split; [exact H1 | ].
  split; [exact H4 | exact (H5 Hnew)].
Defined.

(** C7 as stated fails in two ways.  A reader that already caches step 5
    serves both [GetData(5)] calls from the cache: the first call of the pair
    triggers no extraction.  And when the first [GetData(6)] raises (there is
    no dump of step 6), the second does not raise but returns the array of
    step 5: the two calls do not return the same thing. *)
Lemma C7_counterexample :
  let o0 := GetData (R := OsirisRawDataReader.reader) 5 (Fixture.fresh "x1") Fixture.world in
  let o1 := GetData (R := OsirisRawDataReader.reader) 5 (out_self o0) (out_world o0) in
  let o2 := GetData (R := OsirisRawDataReader.reader) 5 (out_self o1) (out_world o1) in
  let p1 := GetData (R := OsirisRawDataReader.reader) 6 (out_self o0) (out_world o0) in
  let p2 := GetData (R := OsirisRawDataReader.reader) 6 (out_self p1) (out_world p1) in
  returned (out_res o0) = true /\
  returned (out_res o1) = true /\ returned (out_res o2) = true /\
  data_extractions (calls (out_world o1)) = data_extractions (calls (out_world o0)) /\
  data_extractions (calls (out_world o2)) = data_extractions (calls (out_world o0)) /\
  returned (out_res p1) = false /\ returned (out_res p2) = true /\
  out_res p2 = out_res o0 /\
  out_res p1 <> out_res p2.
Proof.
  vm_compute. repeat split; discriminate.
Qed.

(** C8, as the code has it.  For every lawful reader and distinct time steps
    [t1], [t2], in the sequence [GetData(t1)], [GetData(t2)], [GetData(t1)]
    the second and the third call each dispatch an extraction; the first one
    does exactly when [t1] is not the time step the reader already caches.
    Hence a reader that does not cache [t1] extracts three times. *)
Theorem C8_three_calls_extract
    (R : RawDataReader) (L : Lawful R) (t1 t2 : Z) (r : Reader) (w : World) :
  t1 <> t2 ->
  let o1 := GetData t1 r w in
  let o2 := GetData t2 (out_self o1) (out_world o1) in
  let o3 := GetData t1 (out_self o2) (out_world o2) in
  calls (out_world o1) =
    (if t1 =? currentTimeStep r then calls w else Call_ReadData t1 :: calls w) /\
  calls (out_world o2) = Call_ReadData t2 :: calls (out_world o1) /\
  calls (out_world o3) = Call_ReadData t1 :: calls (out_world o2) /\
  (currentTimeStep r <> t1 ->
   calls (out_world o3) =
     Call_ReadData t1 :: Call_ReadData t2 :: Call_ReadData t1 :: calls w).
Proof.
  intros Hne. cbv zeta.
  assert (H1 : calls (out_world (GetData t1 r w)) =
               if t1 =? currentTimeStep r then calls w else Call_ReadData t1 :: calls w)
    by apply GetData_calls.
  set (o1 := GetData t1 r w) in *.
  assert (H2 : calls (out_world (GetData t2 (out_self o1) (out_world o1)))
               = Call_ReadData t2 :: calls (out_world o1)).
  { rewrite GetData_calls. subst o1. rewrite GetData_key.
    replace (t2 =? t1) with false by (symmetry; apply Z.eqb_neq; congruence).
    reflexivity. }
  set (o2 := GetData t2 (out_self o1) (out_world o1)) in *.
  assert (H3 : calls (out_world (GetData t1 (out_self o2) (out_world o2)))
               = Call_ReadData t1 :: calls (out_world o2)).
  { rewrite GetData_calls. subst o2. rewrite GetData_key.
    replace (t1 =? t2) with false by (symmetry; apply Z.eqb_neq; congruence).
    reflexivity. }
  repeat split; try assumption.
  intros Hfresh. rewrite H3, H2, H1.
  replace (t1 =? currentTimeStep r) with false
    by (symmetry; apply Z.eqb_neq; congruence).
  reflexivity.
Qed.

Lemma C8_witness :
  Lawful OsirisRawDataReader.reader /\ 5 <> 7 /\
  let r := Fixture.fresh "tag" in
  let w := Fixture.world in
  let o1 := GetData (R := OsirisRawDataReader.reader) 5 r w in
  let o2 := GetData (R := OsirisRawDataReader.reader) 7 (out_self o1) (out_world o1) in
  let o3 := GetData (R := OsirisRawDataReader.reader) 5 (out_self o2) (out_world o2) in
  calls (out_world o1) =
    (if 5 =? currentTimeStep r then calls w else Call_ReadData 5 :: calls w) /\
  calls (out_world o2) = Call_ReadData 7 :: calls (out_world o1) /\
  calls (out_world o3) = Call_ReadData 5 :: calls (out_world o2) /\
  (currentTimeStep r <> 5 ->
   calls (out_world o3) =
     Call_ReadData 5 :: Call_ReadData 7 :: Call_ReadData 5 :: calls w).
Proof.
  split; [exact Osiris_lawful | split; [lia | ]].
  apply (C8_three_calls_extract OsirisRawDataReader.reader Osiris_lawful
           5 7 (Fixture.fresh "tag") Fixture.world).
  lia.
Defined.

(** C8 as stated fails for a reader that already caches [t1]: after one
    [GetData(5)], the sequence [GetData(5)], [GetData(7)], [GetData(5)] returns
    three arrays but dispatches only two extractions. *)
Lemma C8_counterexample :
  let o0 := GetData (R := OsirisRawDataReader.reader) 5 (Fixture.fresh "tag") Fixture.world in
  let o1 := GetData (R := OsirisRawDataReader.reader) 5 (out_self o0) (out_world o0) in
  let o2 := GetData (R := OsirisRawDataReader.reader) 7 (out_self o1) (out_world o1) in
  let o3 := GetData (R := OsirisRawDataReader.reader) 5 (out_self o2) (out_world o2) in
  5 <> 7 /\
  returned (out_res o1) = true /\ returned (out_res o2) = true /\
  returned (out_res o3) = true /\
  data_extractions (calls (out_world o3)) =
    (data_extractions (calls (out_world o0)) + 2)%nat /\
  data_extractions (calls (out_world o3)) <>
    (data_extractions (calls (out_world o0)) + 3)%nat.
Proof.
  vm_compute. repeat split; discriminate.
Qed.

(** C1, as the code has it.  For every lawful reader and a time step [t] other
    than the cached one, [GetTime(t)] dispatches the time extraction only (no
    data extraction, no stored field looked up, the cached array left alone),
    stores [t] as the cache key and returns the [currentTime] slot.  Data and time share that one key:
    a subsequent [GetData(t)] dispatches no extraction and returns the array
    the slot held before [GetTime], and a subsequent [GetTime(t)] dispatches
    no extraction and returns the cached [currentTime]. *)
Theorem C1_GetTime_first_then_cached_reads
    (R : RawDataReader) (L : Lawful R) (t : Z) (r : Reader) (w : World) :
  currentTimeStep r <> t ->
  let o1 := GetTime t r w in
  let o2 := GetData t (out_self o1) (out_world o1) in
  let o3 := GetTime t (out_self o1) (out_world o1) in
  calls (out_world o1) = Call_ReadTime t :: calls w /\
  no_lookups r w (out_self o1) (out_world o1) /\
  data (out_self o1) = data r /\
  currentTimeStep (out_self o1) = t /\
  (forall v, out_res o1 = Ok v -> currentTime (out_self o1) = v) /\
  o2 = mkOutcome (Ok (data r)) (out_self o1) (out_world o1) /\
  o3 = mkOutcome (Ok (currentTime (out_self o1))) (out_self o1) (out_world o1).
Proof.
  intros Hnew. cbv zeta. repeat split.
  - rewrite GetTime_calls.
    replace (t =? currentTimeStep r) with false
      by (symmetry; apply Z.eqb_neq; congruence).
    reflexivity.
  - apply GetTime_no_lookup.
  - apply GetTime_data.
  - apply GetTime_key.
  - intros v. apply GetTime_returns.
  - rewrite GetData_hit by apply GetTime_key. rewrite GetTime_data. reflexivity.
  - rewrite GetTime_hit by apply GetTime_key. reflexivity.
Qed.

Lemma C1_witness :
  Lawful OsirisRawDataReader.reader /\
  currentTimeStep (Fixture.fresh "x1") <> 5 /\
  let r := Fixture.fresh "x1" in
  let w := Fixture.world in
  let o1 := GetTime (R := OsirisRawDataReader.reader) 5 r w in
  let o2 := GetData (R := OsirisRawDataReader.reader) 5 (out_self o1) (out_world o1) in
  let o3 := GetTime (R := OsirisRawDataReader.reader) 5 (out_self o1) (out_world o1) in
  calls (out_world o1) = Call_ReadTime 5 :: calls w /\
  no_lookups r w (out_self o1) (out_world o1) /\
  data (out_self o1) = data r /\
  currentTimeStep (out_self o1) = 5 /\
  (forall v, out_res o1 = Ok v -> currentTime (out_self o1) = v) /\
  o2 = mkOutcome (Ok (data r)) (out_self o1) (out_world o1) /\
  o3 = mkOutcome (Ok (currentTime (out_self o1))) (out_self o1) (out_world o1).
Proof.
  split; [exact Osiris_lawful | split; [vm_compute; discriminate | ]].
  apply (C1_GetTime_first_then_cached_reads OsirisRawDataReader.reader
           Osiris_lawful 5 (Fixture.fresh "x1") Fixture.world).
  vm_compute; discriminate.
Defined.

(** C1 as stated fails: on a new OSIRIS reader for [x1], [GetTime(5)] returns
    the time 2.5; the [GetData(5)] that follows dispatches no data extraction
    at all (not one) and returns the initial content of the slot, although
    the dump of step 5 holds the array a direct [GetData(5)] returns. *)
Lemma C1_counterexample :
  let r := Fixture.fresh "x1" in
  let o1 := GetTime (R := OsirisRawDataReader.reader) 5 r Fixture.world in
  let o2 := GetData (R := OsirisRawDataReader.reader) 5 (out_self o1) (out_world o1) in
  currentTimeStep r <> 5 /\
  out_res o1 = Ok (PyFloat (Fixture.ratio 5 2)) /\
  time_extractions (calls (out_world o2)) = 1%nat /\
  data_extractions (calls (out_world o2)) = 0%nat /\
  data_extractions (calls (out_world o2)) <> 1%nat /\
  out_res o2 = Ok NdNone /\
  out_res (GetData (R := OsirisRawDataReader.reader) 5 r Fixture.world)
  = Ok (NdFloat Fixture.x1_raw).
Proof.
  vm_compute. repeat split; discriminate.
Qed.

(** C2, as the code has it.  For every lawful reader, when [GetData(t)] or
    [GetTime(t)] fails, the error is the one the extraction raised for a new
    time step, and the cached array is exactly the one held before the call;
    the cache key, however, is already [t]: it is assigned before the
    extraction starts and is not set back. *)
Theorem C2_failed_read_keeps_data_but_moves_key
    (R : RawDataReader) (L : Lawful R) (t : Z) (r : Reader) (w : World) (e : exn) :
  (out_res (GetData t r w) = Raise e ->
   out_res (_ReadData t (set_currentTimeStep t r) (log_call (Call_ReadData t) w))
   = Raise e /\
   data (out_self (GetData t r w)) = data r /\
   currentTimeStep (out_self (GetData t r w)) = t /\
   currentTimeStep r <> t) /\
  (out_res (GetTime t r w) = Raise e ->
   out_res (_ReadTime t (set_currentTimeStep t r) (log_call (Call_ReadTime t) w))
   = Raise e /\
   data (out_self (GetTime t r w)) = data r /\
   currentTimeStep (out_self (GetTime t r w)) = t /\
   currentTimeStep r <> t).
Proof.
  split; intros Hfail.
  - destruct (GetData_raises t r w e Hfail) as (Hnew & Hraise & Hdata).
    repeat split; try assumption. apply GetData_key.
  - destruct (GetTime_raises t r w e Hfail) as (Hnew & Hraise).
    repeat split; try assumption; [apply GetTime_data | apply GetTime_key].
Qed.

Lemma C2_witness :
  Lawful OsirisRawDataReader.reader /\
  let o0 := GetData (R := OsirisRawDataReader.reader) 5 (Fixture.fresh "x1") Fixture.world in
  let r := out_self o0 in
  let w := out_world o0 in
  let e := KeyError "TIME" in
  (out_res (GetData (R := OsirisRawDataReader.reader) 8 r w) = Raise e ->
   out_res (_ReadData (RawDataReader := OsirisRawDataReader.reader) 8
              (set_currentTimeStep 8 r) (log_call (Call_ReadData 8) w)) = Raise e /\
   data (out_self (GetData (R := OsirisRawDataReader.reader) 8 r w)) = data r /\
   currentTimeStep (out_self (GetData (R := OsirisRawDataReader.reader) 8 r w)) = 8 /\
   currentTimeStep r <> 8) /\
  (out_res (GetTime (R := OsirisRawDataReader.reader) 8 r w) = Raise e ->
   out_res (_ReadTime (RawDataReader := OsirisRawDataReader.reader) 8
              (set_currentTimeStep 8 r) (log_call (Call_ReadTime 8) w)) = Raise e /\
   data (out_self (GetTime (R := OsirisRawDataReader.reader) 8 r w)) = data r /\
   currentTimeStep (out_self (GetTime (R := OsirisRawDataReader.reader) 8 r w)) = 8 /\
   currentTimeStep r <> 8).
Proof.
  split; [exact Osiris_lawful | ].
  exact (C2_failed_read_keeps_data_but_moves_key OsirisRawDataReader.reader
           Osiris_lawful 8
           (out_self (GetData (R := OsirisRawDataReader.reader) 5
                        (Fixture.fresh "x1") Fixture.world))
           (out_world (GetData (R := OsirisRawDataReader.reader) 5
                         (Fixture.fresh "x1") Fixture.world))
           (KeyError "TIME")).
Defined.

(** C2 as stated fails: an OSIRIS reader that has served step 5 (key 5, time
    2.5, the array of step 5) is asked for step 6, which has no dump.  The
    call raises, and afterwards the key is 6 while the time and the array are
    still those of step 5; asking for step 6 again then returns the array of
    step 5.  The same happens to [GetTime] on step 8, whose dump has no [TIME]
    attribute. *)
Lemma C2_counterexample :
  let o0 := GetData (R := OsirisRawDataReader.reader) 5 (Fixture.fresh "x1") Fixture.world in
  let o1 := GetData (R := OsirisRawDataReader.reader) 6 (out_self o0) (out_world o0) in
  let o2 := GetData (R := OsirisRawDataReader.reader) 6 (out_self o1) (out_world o1) in
  let o3 := GetTime (R := OsirisRawDataReader.reader) 8 (out_self o0) (out_world o0) in
  out_res o0 = Ok (NdFloat Fixture.x1_raw) /\
  currentTimeStep (out_self o0) = 5 /\
  currentTime (out_self o0) = PyFloat (Fixture.ratio 5 2) /\
  data (out_self o0) = NdFloat Fixture.x1_raw /\
  out_res o1 = Raise (OSError "Unable to open file run/RAW-e-000006.h5") /\
  currentTimeStep (out_self o1) = 6 /\
  currentTimeStep (out_self o1) <> currentTimeStep (out_self o0) /\
  currentTime (out_self o1) = PyFloat (Fixture.ratio 5 2) /\
  data (out_self o1) = NdFloat Fixture.x1_raw /\
  out_res o2 = Ok (NdFloat Fixture.x1_raw) /\
  out_res o3 = Raise (KeyError "TIME") /\
  currentTimeStep (out_self o3) = 8 /\
  currentTime (out_self o3) = PyFloat (Fixture.ratio 5 2) /\
  data (out_self o3) = NdFloat Fixture.x1_raw.
Proof.
  vm_compute. repeat split; discriminate.
Qed.

(** ** Units *)

Section Units.
Context {R : RawDataReader} {L : Lawful R}.

Lemma GetDataUnits_hit (r : Reader) (w : World) :
  dataUnits r <> "" -> GetDataUnits r w = mkOutcome (Ok (dataUnits r)) r w.
Proof.
  intros H. unfold GetDataUnits. unfold_monad. cbn.
  replace (dataUnits r =? "")%string with false
    by (symmetry; apply String.eqb_neq; exact H).
  reflexivity.
Qed.

Lemma GetDataUnits_miss (r : Reader) (w : World) :
  dataUnits r = "" ->
  GetDataUnits r w =
  let o := _ReadUnits r (log_call Call_ReadUnits w) in
  match out_res o with
  | Ok _ => mkOutcome (Ok (dataUnits (out_self o))) (out_self o) (out_world o)
  | Raise e => mkOutcome (Raise e) (out_self o) (out_world o)
  end.
Proof.
  intros H. unfold GetDataUnits. unfold_monad. cbn. rewrite H.
  change ("" =? "")%string with true. cbn.
  destruct (_ReadUnits r _) as [[u | e] r1 w1]; reflexivity.
Qed.

Lemma GetTimeUnits_hit (r : Reader) (w : World) :
  timeUnits r <> "" -> GetTimeUnits r w = mkOutcome (Ok (timeUnits r)) r w.
Proof.
  intros H. unfold GetTimeUnits. unfold_monad. cbn.
  replace (timeUnits r =? "")%string with false
    by (symmetry; apply String.eqb_neq; exact H).
  reflexivity.
Qed.

Lemma GetTimeUnits_miss (r : Reader) (w : World) :
  timeUnits r = "" ->
  GetTimeUnits r w =
  let o := _ReadUnits r (log_call Call_ReadUnits w) in
  match out_res o with
  | Ok _ => mkOutcome (Ok (timeUnits (out_self o))) (out_self o) (out_world o)
  | Raise e => mkOutcome (Raise e) (out_self o) (out_world o)
  end.
Proof.
  intros H. unfold GetTimeUnits. unfold_monad. cbn. rewrite H.
  change ("" =? "")%string with true. cbn.
  destruct (_ReadUnits r _) as [[u | e] r1 w1]; reflexivity.
Qed.

Lemma same_source_refl (r : Reader) (w : World) : same_source r w r w.
Proof. repeat split. Qed.

Lemma same_source_trans (r1 r2 r3 : Reader) (w1 w2 w3 : World) :
  same_source r1 w1 r2 w2 -> same_source r2 w2 r3 w3 -> same_source r1 w1 r3 w3.
Proof.
  intros (A1 & A2 & A3 & A4 & A5 & A6) (B1 & B2 & B3 & B4 & B5 & B6).
  repeat split; congruence.
Qed.

Lemma frame_same_source (r r' : Reader) (w w' : World) :
  frame r w r' w' -> same_source r w r' w'.
Proof. intros [? ? ? ? ? ? ? ? ?]. repeat split; assumption. Qed.

(** A data or time read changes neither the source nor the unit strings. *)
Lemma GetData_source (t : Z) (r : Reader) (w : World) :
  same_source r w (out_self (GetData t r w)) (out_world (GetData t r w)) /\
  units_kept r w (out_self (GetData t r w)) (out_world (GetData t r w)).
Proof.
  destruct (Z.eq_dec (currentTimeStep r) t) as [H | H].
  - rewrite GetData_hit by assumption. split; [apply same_source_refl | split; reflexivity].
  - rewrite GetData_miss by assumption. cbv zeta.
    pose proof (ReadData_frame t (set_currentTimeStep t r)
                  (log_call (Call_ReadData t) w)) as F.
    pose proof (ReadData_units t (set_currentTimeStep t r)
                  (log_call (Call_ReadData t) w)) as [U1 U2].
    apply frame_same_source in F. destruct F as (F1 & F2 & F3 & F4 & F5 & F6).
    destruct (_ReadData t _ _) as [[d | e] r1 w1]; cbn in *;
      (split; [repeat split; assumption | split; assumption]).
Qed.

Lemma GetTime_source (t : Z) (r : Reader) (w : World) :
  same_source r w (out_self (GetTime t r w)) (out_world (GetTime t r w)) /\
  units_kept r w (out_self (GetTime t r w)) (out_world (GetTime t r w)).
Proof.
  destruct (Z.eq_dec (currentTimeStep r) t) as [H | H].
  - rewrite GetTime_hit by assumption. split; [apply same_source_refl | split; reflexivity].
  - rewrite GetTime_miss by assumption. cbv zeta.
    pose proof (ReadTime_frame t (set_currentTimeStep t r)
                  (log_call (Call_ReadTime t) w)) as F.
    pose proof (ReadTime_units t (set_currentTimeStep t r)
                  (log_call (Call_ReadTime t) w)) as [U1 U2].
    apply frame_same_source in F. destruct F as (F1 & F2 & F3 & F4 & F5 & F6).
    destruct (_ReadTime t _ _) as [[d | e] r1 w1]; cbn in *;
      (split; [repeat split; assumption | split; assumption]).
Qed.

Lemma ReadUnits_source (r : Reader) (w : World) :
  let o := _ReadUnits r (log_call Call_ReadUnits w) in
  same_source r w (out_self o) (out_world o).
Proof.
  cbv zeta. pose proof (ReadUnits_frame r (log_call Call_ReadUnits w)) as F.
  apply frame_same_source in F. exact F.
Qed.

Lemma GetDataUnits_source (r : Reader) (w : World) :
  same_source r w (out_self (GetDataUnits r w)) (out_world (GetDataUnits r w)).
Proof.
  destruct (string_dec (dataUnits r) "") as [H | H].
  - rewrite GetDataUnits_miss by assumption. cbv zeta.
    pose proof (ReadUnits_source r w) as F. cbv zeta in F.
    destruct (_ReadUnits r _) as [[u | e] r1 w1]; exact F.
  - rewrite GetDataUnits_hit by assumption. apply same_source_refl.
Qed.

Lemma GetTimeUnits_source (r : Reader) (w : World) :
  same_source r w (out_self (GetTimeUnits r w)) (out_world (GetTimeUnits r w)).
Proof.
  destruct (string_dec (timeUnits r) "") as [H | H].
  - rewrite GetTimeUnits_miss by assumption. cbv zeta.
    pose proof (ReadUnits_source r w) as F. cbv zeta in F.
    destruct (_ReadUnits r _) as [[u | e] r1 w1]; exact F.
  - rewrite GetTimeUnits_hit by assumption. apply same_source_refl.
Qed.

(** Once a resolution has stored a non-empty string in a slot, every
    resolution from a state with the same source stores the same string. *)
Lemma resolved_again (slot : Reader -> string) (r : Reader) (w : World) (u : string) :
  (forall r' w', same_source r w r' w' ->
     same_store slot r (out_self (_ReadUnits r w)) r' (out_self (_ReadUnits r' w'))) ->
  slot r = "" -> slot (out_self (_ReadUnits r w)) = u -> u <> "" ->
  forall r' w', same_source r w r' w' -> slot (out_self (_ReadUnits r' w')) = u.
Proof.
  intros Hlaw Hempty Hu Hne r' w' Hsrc.
  destruct (Hlaw r' w' Hsrc) as [Heq | [Hsame _]]; [congruence|].
  exfalso. apply Hne. congruence.
Qed.

End Units.

Section UnitsLifetime.
Context {R : RawDataReader} {L : Lawful R}.

(** A units getter either leaves the state alone or leaves the state of one
    resolution. *)
Lemma GetDataUnits_state (r : Reader) (w : World) :
  let o := _ReadUnits r (log_call Call_ReadUnits w) in
  (out_self (GetDataUnits r w) = r /\ out_world (GetDataUnits r w) = w) \/
  (out_self (GetDataUnits r w) = out_self o /\
   out_world (GetDataUnits r w) = out_world o).
Proof.
  cbv zeta. destruct (string_dec (dataUnits r) "") as [H | H].
  - right. rewrite GetDataUnits_miss by assumption. cbv zeta.
    destruct (_ReadUnits r _) as [[u | e] r1 w1]; split; reflexivity.
  - left. rewrite GetDataUnits_hit by assumption. split; reflexivity.
Qed.

Lemma GetTimeUnits_state (r : Reader) (w : World) :
  let o := _ReadUnits r (log_call Call_ReadUnits w) in
  (out_self (GetTimeUnits r w) = r /\ out_world (GetTimeUnits r w) = w) \/
  (out_self (GetTimeUnits r w) = out_self o /\
   out_world (GetTimeUnits r w) = out_world o).
Proof.
  cbv zeta. destruct (string_dec (timeUnits r) "") as [H | H].
  - right. rewrite GetTimeUnits_miss by assumption. cbv zeta.
    destruct (_ReadUnits r _) as [[u | e] r1 w1]; split; reflexivity.
  - left. rewrite GetTimeUnits_hit by assumption. split; reflexivity.
Qed.

Lemma later_keeps_slot (slot : Reader -> string) (rb : Reader) (wb : World)
    (u : string) (r0 : Reader) (w0 : World) :
  (forall r w r' w', units_kept r w r' w' -> slot r' = slot r) ->
  (forall r' w', same_source rb wb r' w' -> slot (out_self (_ReadUnits r' w')) = u) ->
  same_source rb wb r0 w0 -> slot r0 = u ->
  forall r w, later r0 w0 r w -> same_source rb wb r w /\ slot r = u.
Proof.
  intros Hkept Hres Hsrc0 Hslot0 r w Hlater.
  induction Hlater as [ | r w t _ [IHs IHu] | r w t _ [IHs IHu]
                        | r w _ [IHs IHu] | r w _ [IHs IHu]].
  - split; assumption.
  - destruct (GetData_source t r w) as [S K]. split.
    + eapply same_source_trans; eassumption.
    + rewrite (Hkept _ _ _ _ K). exact IHu.
  - destruct (GetTime_source t r w) as [S K]. split.
    + eapply same_source_trans; eassumption.
    + rewrite (Hkept _ _ _ _ K). exact IHu.
  - split.
    + eapply same_source_trans; [exact IHs | apply GetDataUnits_source].
    + destruct (GetDataUnits_state r w) as [[E _] | [E _]]; rewrite E;
        [exact IHu | apply Hres; exact IHs].
  - split.
    + eapply same_source_trans; [exact IHs | apply GetTimeUnits_source].
    + destruct (GetTimeUnits_state r w) as [[E _] | [E _]]; rewrite E;
        [exact IHu | apply Hres; exact IHs].
Qed.

Lemma dataUnits_for_life (r : Reader) (w : World) (u : string) :
  dataUnits r = "" -> out_res (GetDataUnits r w) = Ok u -> u <> "" ->
  forall r' w',
    later (out_self (GetDataUnits r w)) (out_world (GetDataUnits r w)) r' w' ->
    GetDataUnits r' w' = mkOutcome (Ok u) r' w'.
Proof.
  intros Hempty Hok Hne r' w' Hlater.
  rewrite GetDataUnits_miss in Hok, Hlater by assumption. cbv zeta in Hok, Hlater.
  assert (Hu : dataUnits (out_self (_ReadUnits r (log_call Call_ReadUnits w))) = u).
  { revert Hok. clear Hlater.
    destruct (_ReadUnits r (log_call Call_ReadUnits w)) as [[v | e] r1 w1];
      cbn; congruence. }
  assert (Hl : later (out_self (_ReadUnits r (log_call Call_ReadUnits w)))
                 (out_world (_ReadUnits r (log_call Call_ReadUnits w))) r' w').
  { revert Hlater. clear Hok Hu.
    destruct (_ReadUnits r (log_call Call_ReadUnits w)) as [[v | e] r1 w1];
      cbn; trivial. }
  assert (Hres : forall r2 w2, same_source r w r2 w2 ->
                   dataUnits (out_self (_ReadUnits r2 w2)) = u).
  { intros r2 w2 S2.
    apply (resolved_again dataUnits r (log_call Call_ReadUnits w) u);
      [ | exact Hempty | exact Hu | exact Hne | exact S2 ].
    intros r3 w3 S3.
    destruct (ReadUnits_function r (log_call Call_ReadUnits w) r3 w3 S3)
      as (_ & Hd & _). exact Hd. }
  destruct (later_keeps_slot dataUnits r w u _ _
              (fun _ _ _ _ K => proj1 K) Hres (ReadUnits_source r w) Hu r' w' Hl)
    as [_ Hslot].
  rewrite GetDataUnits_hit by congruence. rewrite Hslot. reflexivity.
Qed.

Lemma timeUnits_for_life (r : Reader) (w : World) (u : string) :
  timeUnits r = "" -> out_res (GetTimeUnits r w) = Ok u -> u <> "" ->
  forall r' w',
    later (out_self (GetTimeUnits r w)) (out_world (GetTimeUnits r w)) r' w' ->
    GetTimeUnits r' w' = mkOutcome (Ok u) r' w'.
Proof.
  intros Hempty Hok Hne r' w' Hlater.
  rewrite GetTimeUnits_miss in Hok, Hlater by assumption. cbv zeta in Hok, Hlater.
  assert (Hu : timeUnits (out_self (_ReadUnits r (log_call Call_ReadUnits w))) = u).
  { revert Hok. clear Hlater.
    destruct (_ReadUnits r (log_call Call_ReadUnits w)) as [[v | e] r1 w1];
      cbn; congruence. }
  assert (Hl : later (out_self (_ReadUnits r (log_call Call_ReadUnits w)))
                 (out_world (_ReadUnits r (log_call Call_ReadUnits w))) r' w').
  { revert Hlater. clear Hok Hu.
    destruct (_ReadUnits r (log_call Call_ReadUnits w)) as [[v | e] r1 w1];
      cbn; trivial. }
  assert (Hres : forall r2 w2, same_source r w r2 w2 ->
                   timeUnits (out_self (_ReadUnits r2 w2)) = u).
  { intros r2 w2 S2.
    apply (resolved_again timeUnits r (log_call Call_ReadUnits w) u);
      [ | exact Hempty | exact Hu | exact Hne | exact S2 ].
    intros r3 w3 S3.
    destruct (ReadUnits_function r (log_call Call_ReadUnits w) r3 w3 S3)
      as (_ & _ & Hd). exact Hd. }
  destruct (later_keeps_slot timeUnits r w u _ _
              (fun _ _ _ _ K => proj2 K) Hres (ReadUnits_source r w) Hu r' w' Hl)
    as [_ Hslot].
  rewrite GetTimeUnits_hit by congruence. rewrite Hslot. reflexivity.
Qed.

(** The cache slots play no part in a units read. *)
Lemma GetDataUnits_cache_blind (r : Reader) (w : World) ts tm d :
  out_res (GetDataUnits (with_cache ts tm d r) w) = out_res (GetDataUnits r w).
Proof.
  destruct (string_dec (dataUnits r) "") as [H | H].
  - rewrite (GetDataUnits_miss r) by assumption.
    rewrite (GetDataUnits_miss (with_cache ts tm d r)) by exact H. cbv zeta.
    destruct (ReadUnits_function r (log_call Call_ReadUnits w)
                (with_cache ts tm d r) (log_call Call_ReadUnits w))
      as (Hres & Hd & _); [repeat split|].
    destruct (_ReadUnits (with_cache ts tm d r) _) as [[v' | e'] r1' w1'];
      destruct (_ReadUnits r _) as [[v | e] r1 w1]; cbn in *;
      try discriminate; try congruence.
    destruct Hd as [Hd | [Hd Hd']]; cbn in *; congruence.
  - rewrite (GetDataUnits_hit r) by assumption.
    rewrite (GetDataUnits_hit (with_cache ts tm d r)) by exact H. reflexivity.
Qed.

Lemma GetTimeUnits_cache_blind (r : Reader) (w : World) ts tm d :
  out_res (GetTimeUnits (with_cache ts tm d r) w) = out_res (GetTimeUnits r w).
Proof.
  destruct (string_dec (timeUnits r) "") as [H | H].
  - rewrite (GetTimeUnits_miss r) by assumption.
    rewrite (GetTimeUnits_miss (with_cache ts tm d r)) by exact H. cbv zeta.
    destruct (ReadUnits_function r (log_call Call_ReadUnits w)
                (with_cache ts tm d r) (log_call Call_ReadUnits w))
      as (Hres & _ & Hd); [repeat split|].
    destruct (_ReadUnits (with_cache ts tm d r) _) as [[v' | e'] r1' w1'];
      destruct (_ReadUnits r _) as [[v | e] r1 w1]; cbn in *;
      try discriminate; try congruence.
    destruct Hd as [Hd | [Hd Hd']]; cbn in *; congruence.
  - rewrite (GetTimeUnits_hit r) by assumption.
    rewrite (GetTimeUnits_hit (with_cache ts tm d r)) by exact H. reflexivity.
Qed.

Lemma GetDataUnits_calls (r : Reader) (w : World) :
  calls (out_world (GetDataUnits r w)) =
  if (dataUnits r =? "")%string then Call_ReadUnits :: calls w else calls w.
Proof.
  destruct (string_dec (dataUnits r) "") as [H | H].
  - rewrite GetDataUnits_miss by assumption. cbv zeta. rewrite H.
    change ("" =? "")%string with true.
    pose proof (ReadUnits_frame r (log_call Call_ReadUnits w)) as F.
    destruct F as [_ _ _ _ _ _ _ Fc _].
    destruct (_ReadUnits r _) as [[v | e] r1 w1]; cbn in *; exact Fc.
  - rewrite GetDataUnits_hit by assumption.
    replace (dataUnits r =? "")%string with false
      by (symmetry; apply String.eqb_neq; exact H).
    reflexivity.
Qed.

Lemma GetTimeUnits_calls (r : Reader) (w : World) :
  calls (out_world (GetTimeUnits r w)) =
  if (timeUnits r =? "")%string then Call_ReadUnits :: calls w else calls w.
Proof.
  destruct (string_dec (timeUnits r) "") as [H | H].
  - rewrite GetTimeUnits_miss by assumption. cbv zeta. rewrite H.
    change ("" =? "")%string with true.
    pose proof (ReadUnits_frame r (log_call Call_ReadUnits w)) as F.
    destruct F as [_ _ _ _ _ _ _ Fc _].
    destruct (_ReadUnits r _) as [[v | e] r1 w1]; cbn in *; exact Fc.
  - rewrite GetTimeUnits_hit by assumption.
    replace (timeUnits r =? "")%string with false
      by (symmetry; apply String.eqb_neq; exact H).
    reflexivity.
Qed.

End UnitsLifetime.

(** C9, as the code has it.  For every lawful reader, a units getter resolves
    exactly when its slot holds the empty string: a non-empty slot is returned
    as it is, with no resolution and no change of state, and an empty slot
    costs one resolution per call.  When a getter called on an empty slot has
    returned a non-empty string, it returns that string, without resolution,
    in every state reached afterwards by calls of the four public methods.
    The cache slots (time step, time, array) play no part in what a getter
    returns. *)
Theorem C9_units_lazy_and_cached_when_nonempty
    (R : RawDataReader) (L : Lawful R) :
  (forall r w, dataUnits r <> "" ->
     GetDataUnits r w = mkOutcome (Ok (dataUnits r)) r w) /\
  (forall r w, timeUnits r <> "" ->
     GetTimeUnits r w = mkOutcome (Ok (timeUnits r)) r w) /\
  (forall r w, calls (out_world (GetDataUnits r w)) =
     if (dataUnits r =? "")%string then Call_ReadUnits :: calls w else calls w) /\
  (forall r w, calls (out_world (GetTimeUnits r w)) =
     if (timeUnits r =? "")%string then Call_ReadUnits :: calls w else calls w) /\
  (forall r w u, dataUnits r = "" -> out_res (GetDataUnits r w) = Ok u -> u <> "" ->
     forall r' w',
       later (out_self (GetDataUnits r w)) (out_world (GetDataUnits r w)) r' w' ->
       GetDataUnits r' w' = mkOutcome (Ok u) r' w') /\
  (forall r w u, timeUnits r = "" -> out_res (GetTimeUnits r w) = Ok u -> u <> "" ->
     forall r' w',
       later (out_self (GetTimeUnits r w)) (out_world (GetTimeUnits r w)) r' w' ->
       GetTimeUnits r' w' = mkOutcome (Ok u) r' w') /\
  (forall r w ts tm d,
     out_res (GetDataUnits (with_cache ts tm d r) w) = out_res (GetDataUnits r w)) /\
  (forall r w ts tm d,
     out_res (GetTimeUnits (with_cache ts tm d r) w) = out_res (GetTimeUnits r w)).
Proof.
  split; [intros; apply GetDataUnits_hit; assumption|].
  split; [intros; apply GetTimeUnits_hit; assumption|].
  split; [intros; apply GetDataUnits_calls|].
  split; [intros; apply GetTimeUnits_calls|].
  split; [intros r w u; apply dataUnits_for_life|].
  split; [intros r w u; apply timeUnits_for_life|].
  split; [intros; apply GetDataUnits_cache_blind | intros; apply GetTimeUnits_cache_blind].
Qed.

Lemma C9_witness :
  Lawful OsirisRawDataReader.reader /\
  ((forall r w, dataUnits r <> "" ->
      GetDataUnits (R := OsirisRawDataReader.reader) r w
      = mkOutcome (Ok (dataUnits r)) r w) /\
   (forall r w, timeUnits r <> "" ->
      GetTimeUnits (R := OsirisRawDataReader.reader) r w
      = mkOutcome (Ok (timeUnits r)) r w) /\
   (forall r w,
      calls (out_world (GetDataUnits (R := OsirisRawDataReader.reader) r w)) =
      if (dataUnits r =? "")%string then Call_ReadUnits :: calls w else calls w) /\
   (forall r w,
      calls (out_world (GetTimeUnits (R := OsirisRawDataReader.reader) r w)) =
      if (timeUnits r =? "")%string then Call_ReadUnits :: calls w else calls w) /\
   (forall r w u, dataUnits r = "" ->
      out_res (GetDataUnits (R := OsirisRawDataReader.reader) r w) = Ok u -> u <> "" ->
      forall r' w',
        later (R := OsirisRawDataReader.reader)
          (out_self (GetDataUnits (R := OsirisRawDataReader.reader) r w))
          (out_world (GetDataUnits (R := OsirisRawDataReader.reader) r w)) r' w' ->
        GetDataUnits (R := OsirisRawDataReader.reader) r' w' = mkOutcome (Ok u) r' w') /\
   (forall r w u, timeUnits r = "" ->
      out_res (GetTimeUnits (R := OsirisRawDataReader.reader) r w) = Ok u -> u <> "" ->
      forall r' w',
        later (R := OsirisRawDataReader.reader)
          (out_self (GetTimeUnits (R := OsirisRawDataReader.reader) r w))
          (out_world (GetTimeUnits (R := OsirisRawDataReader.reader) r w)) r' w' ->
        GetTimeUnits (R := OsirisRawDataReader.reader) r' w' = mkOutcome (Ok u) r' w') /\
   (forall r w ts tm d,
      out_res (GetDataUnits (R := OsirisRawDataReader.reader) (with_cache ts tm d r) w)
      = out_res (GetDataUnits (R := OsirisRawDataReader.reader) r w)) /\
   (forall r w ts tm d,
      out_res (GetTimeUnits (R := OsirisRawDataReader.reader) (with_cache ts tm d r) w)
      = out_res (GetTimeUnits (R := OsirisRawDataReader.reader) r w))).
Proof.
  split.
  - exact Osiris_lawful.
  - exact (C9_units_lazy_and_cached_when_nonempty
             OsirisRawDataReader.reader Osiris_lawful).
Defined.

(** C9 as stated fails when the resolved string is empty: the [tag] dataset
    of the dump carries [UNITS = b''], so on an OSIRIS reader for [tag] two
    consecutive [GetDataUnits()] calls both return the empty string and
    dispatch two resolutions. *)
Lemma C9_counterexample :
  let r := Fixture.fresh "tag" in
  let o1 := GetDataUnits (R := OsirisRawDataReader.reader) r Fixture.world in
  let o2 := GetDataUnits (R := OsirisRawDataReader.reader) (out_self o1) (out_world o1) in
  out_res o1 = Ok "" /\ out_res o2 = Ok "" /\
  units_resolutions (calls (out_world o2)) = 2%nat /\
  ~ (units_resolutions (calls (out_world o2)) <= 1)%nat.
Proof.
  vm_compute. repeat split; try reflexivity. intros H.
  inversion H as [ | n H1 E]. inversion H1.
Qed.

(** ** The stored name *)

Section StoredName.

Lemma lookups_use_refl (name : string) (l : list io_event) : lookups_use name l l.
Proof. exists []. split; [reflexivity | constructor]. Qed.

Lemma lookups_use_cons (name : string) (ev : io_event) (l l' : list io_event) :
  names_only name ev -> lookups_use name l l' -> lookups_use name l (ev :: l').
Proof.
  intros Hev (evs & -> & Hall). exists (ev :: evs).
  split; [reflexivity | constructor; assumption].
Qed.

Lemma lookups_use_trans (name : string) (l1 l2 l3 : list io_event) :
  lookups_use name l1 l2 -> lookups_use name l2 l3 -> lookups_use name l1 l3.
Proof.
  intros (e1 & -> & H1) (e2 & -> & H2). exists (e2 ++ e1)%list.
  split; [apply app_assoc | apply Forall_app; split; assumption].
Qed.

End StoredName.

Ltac lookups_done :=
  repeat (apply lookups_use_cons; [cbn; trivial | ]); apply lookups_use_refl.

Ltac name_done :=
  repeat split; first [ reflexivity | lookups_done ].

Ltac name_start r H := intros r ? H; destruct r; cbn in H; subst.

Section AdapterNames.

Lemma Osiris_ReadData_name t : uses_dataName (OsirisRawDataReader._ReadData t).
Proof.
  name_start r H. unfold OsirisRawDataReader._ReadData, OsirisRawDataReader._OpenFile.
  exec; name_done.
Qed.

Lemma Osiris_ReadTime_name t : uses_dataName (OsirisRawDataReader._ReadTime t).
Proof.
  name_start r H. unfold OsirisRawDataReader._ReadTime, OsirisRawDataReader._OpenFile.
  exec; name_done.
Qed.

Lemma Osiris_ReadUnits_name : uses_dataName OsirisRawDataReader._ReadUnits.
Proof.
  name_start r H. unfold OsirisRawDataReader._ReadUnits, OsirisRawDataReader._OpenFile.
  exec; name_done.
Qed.

Lemma Osiris_ReadBasicData_name : uses_dataName OsirisRawDataReader._ReadBasicData.
Proof.
  name_start r H.
  unfold OsirisRawDataReader._ReadBasicData,
    OsirisRawDataReader._ReadSimulationProperties, OsirisRawDataReader._OpenFile.
  exec; name_done.
Qed.

Lemma HiPACE_ReadData_name t : uses_dataName (HiPACERawDataReader._ReadData t).
Proof.
  name_start r H. unfold HiPACERawDataReader._ReadData, HiPACERawDataReader._OpenFile.
  exec; name_done.
Qed.

Lemma HiPACE_ReadTime_name t : uses_dataName (HiPACERawDataReader._ReadTime t).
Proof.
  name_start r H. unfold HiPACERawDataReader._ReadTime, HiPACERawDataReader._OpenFile.
  exec; name_done.
Qed.

Lemma HiPACE_ReadUnits_name : uses_dataName HiPACERawDataReader._ReadUnits.
Proof.
  name_start r H. unfold HiPACERawDataReader._ReadUnits. exec; name_done.
Qed.

Lemma HiPACE_ReadBasicData_name : uses_dataName HiPACERawDataReader._ReadBasicData.
Proof.
  name_start r H.
  unfold HiPACERawDataReader._ReadBasicData,
    HiPACERawDataReader._ReadSimulationProperties, HiPACERawDataReader._OpenFile.
  exec; name_done.
Qed.

Lemma OpenPMD_ReadData_name t : uses_dataName (OpenPMDRawDataReader._ReadData t).
Proof.
  name_start r H. unfold OpenPMDRawDataReader._ReadData, OpenPMDRawDataReader._ReadTime.
  exec; name_done.
Qed.

Lemma OpenPMD_ReadTime_name t : uses_dataName (OpenPMDRawDataReader._ReadTime t).
Proof.
  name_start r H. unfold OpenPMDRawDataReader._ReadTime. exec; name_done.
Qed.

Lemma OpenPMD_ReadUnits_name : uses_dataName OpenPMDRawDataReader._ReadUnits.
Proof.
  name_start r H. unfold OpenPMDRawDataReader._ReadUnits. exec; name_done.
Qed.

Lemma OpenPMD_ReadBasicData_name : uses_dataName OpenPMDRawDataReader._ReadBasicData.
Proof.
  name_start r H.
  unfold OpenPMDRawDataReader._ReadBasicData,
    OpenPMDRawDataReader._ReadSimulationProperties, OpenPMDRawDataReader._OpenFile.
  exec; name_done.
Qed.

End AdapterNames.

Section PublicNames.
Context {R : RawDataReader}.

Lemma GetData_name (t : Z) :
  uses_dataName (_ReadData t) -> uses_dataName (GetData t).
Proof.
  intros HA r w Hn. destruct (Z.eq_dec (currentTimeStep r) t) as [H | H].
  - rewrite GetData_hit by assumption. cbn.
    repeat split; [assumption | apply lookups_use_refl].
  - rewrite GetData_miss by assumption. cbv zeta.
    destruct (HA (set_currentTimeStep t r) (log_call (Call_ReadData t) w) Hn)
      as (A1 & A2 & A3).
    destruct (_ReadData t _ _) as [[d | e] r1 w1]; cbn in *;
      repeat split; assumption.
Qed.

Lemma GetTime_name (t : Z) :
  uses_dataName (_ReadTime t) -> uses_dataName (GetTime t).
Proof.
  intros HA r w Hn. destruct (Z.eq_dec (currentTimeStep r) t) as [H | H].
  - rewrite GetTime_hit by assumption. cbn.
    repeat split; [assumption | apply lookups_use_refl].
  - rewrite GetTime_miss by assumption. cbv zeta.
    destruct (HA (set_currentTimeStep t r) (log_call (Call_ReadTime t) w) Hn)
      as (A1 & A2 & A3).
    destruct (_ReadTime t _ _) as [[d | e] r1 w1]; cbn in *;
      repeat split; assumption.
Qed.

Lemma GetDataUnits_name :
  uses_dataName _ReadUnits -> uses_dataName GetDataUnits.
Proof.
  intros HA r w Hn. destruct (string_dec (dataUnits r) "") as [H | H].
  - rewrite GetDataUnits_miss by assumption. cbv zeta.
    destruct (HA r (log_call Call_ReadUnits w) Hn) as (A1 & A2 & A3).
    destruct (_ReadUnits _ _) as [[d | e] r1 w1]; cbn in *;
      repeat split; assumption.
  - rewrite GetDataUnits_hit by assumption. cbn.
    repeat split; [assumption | apply lookups_use_refl].
Qed.

Lemma GetTimeUnits_name :
  uses_dataName _ReadUnits -> uses_dataName GetTimeUnits.
Proof.
  intros HA r w Hn. destruct (string_dec (timeUnits r) "") as [H | H].
  - rewrite GetTimeUnits_miss by assumption. cbv zeta.
    destruct (HA r (log_call Call_ReadUnits w) Hn) as (A1 & A2 & A3).
    destruct (_ReadUnits _ _) as [[d | e] r1 w1]; cbn in *;
      repeat split; assumption.
  - rewrite GetTimeUnits_hit by assumption. cbn.
    repeat split; [assumption | apply lookups_use_refl].
Qed.

(** Whatever [internalName] argument is passed, the base constructor leaves
    [dataName] in both slots. *)
Lemma RawDataReaderBase_init_name dflt loc sp dn iname fts :
  uses_dataName _ReadBasicData ->
  forall r w,
    let o := RawDataReaderBase_init dflt loc sp dn iname fts r w in
    internalName (out_self o) = dn /\ dataName (out_self o) = dn.
Proof.
  intros HA r w. unfold RawDataReaderBase_init, DataReader_init.
  unfold_monad. cbn.
  match goal with
  | |- context [_ReadBasicData ?r1 ?w1] =>
      destruct (HA r1 w1 eq_refl) as (A1 & A2 & _);
      destruct (_ReadBasicData r1 w1) as [[u | e] r2 w2]
  end; cbn in *; split; congruence.
Qed.

End PublicNames.

(** ** The openPMD constructor *)

Lemma RunTimeError_is_unbound (msg : string) :
  raise_named "RunTimeError" msg = NameError "RunTimeError".
Proof. reflexivity. Qed.

(** The constructor, case by case: without the package the [raise] statement
    itself fails, on the name it mentions; with it, the series is built and
    the base constructor runs. *)
Lemma OpenPMD_init_run dflt loc sp dn iname fts (r : Reader) (w : World) :
  OpenPMDRawDataReader.__init__ dflt loc sp dn iname fts r w =
  if openpmd_installed w then
    match series_at w loc with
    | Ok ts =>
        RawDataReaderBase_init (R := OpenPMDRawDataReader.reader)
          dflt loc sp dn iname fts
          (set_openpmd_ts (Some ts) r) (log_io (EvSeries loc) w)
    | Raise e => mkOutcome (Raise e) r (log_io (EvSeries loc) w)
    end
  else mkOutcome (Raise (NameError "RunTimeError")) r w.
Proof.
  unfold OpenPMDRawDataReader.__init__, OpenPMDTimeSeries_new.
  unfold bind, world_attr, effect, lift, raise, ret, assign.
  rewrite RunTimeError_is_unbound.
  destruct (openpmd_installed w); cbn [negb out_res out_self out_world].
  - change (series_at (log_io (EvSeries loc) w)) with (series_at w).
    destruct (series_at w loc) as [ts | e]; reflexivity.
  - reflexivity.
Qed.

(** C10.  For each of the three reader classes: the constructor, whatever
    [internalName] argument it is given, leaves [internalName] equal to
    [dataName] (and, when it returns, both equal to the [dataName] argument);
    none of the four public methods changes either slot; and every stored
    field the methods look up, for data or for units, is looked up under
    [dataName]. *)
Theorem C10_internalName_is_dataName (c : reader_class) :
  (forall dflt loc sp dn iname fts w,
     let o := construct (init_of c dflt loc sp dn iname fts) w in
     internalName (out_self o) = dataName (out_self o) /\
     (out_res o = Ok tt ->
      internalName (out_self o) = dn /\ dataName (out_self o) = dn)) /\
  (forall t, uses_dataName (GetData (R := methods_of c) t)) /\
  (forall t, uses_dataName (GetTime (R := methods_of c) t)) /\
  uses_dataName (GetDataUnits (R := methods_of c)) /\
  uses_dataName (GetTimeUnits (R := methods_of c)).
Proof.
  destruct c; cbn [methods_of init_of];
    (split; [ | split; [ | split; [ | split ] ] ]).
  - intros. cbv zeta. unfold construct, OsirisRawDataReader.__init__.
    destruct (RawDataReaderBase_init_name (R := OsirisRawDataReader.reader)
                dflt loc sp dn iname fts Osiris_ReadBasicData_name new_object w)
      as [A B].
    split; [congruence | intros _; split; assumption].
  - intros t. apply GetData_name, Osiris_ReadData_name.
  - intros t. apply GetTime_name, Osiris_ReadTime_name.
  - apply GetDataUnits_name, Osiris_ReadUnits_name.
  - apply GetTimeUnits_name, Osiris_ReadUnits_name.
  - intros. cbv zeta. unfold construct, HiPACERawDataReader.__init__.
    destruct (RawDataReaderBase_init_name (R := HiPACERawDataReader.reader)
                dflt loc sp dn iname fts HiPACE_ReadBasicData_name new_object w)
      as [A B].
    split; [congruence | intros _; split; assumption].
  - intros t. apply GetData_name, HiPACE_ReadData_name.
  - intros t. apply GetTime_name, HiPACE_ReadTime_name.
  - apply GetDataUnits_name, HiPACE_ReadUnits_name.
  - apply GetTimeUnits_name, HiPACE_ReadUnits_name.
  - intros. cbv zeta. unfold construct. rewrite OpenPMD_init_run.
    destruct (openpmd_installed w).
    + destruct (series_at w loc) as [ts | e].
      * destruct (RawDataReaderBase_init_name (R := OpenPMDRawDataReader.reader)
                    dflt loc sp dn iname fts OpenPMD_ReadBasicData_name
                    (set_openpmd_ts (Some ts) new_object)
                    (log_io (EvSeries loc) w)) as [A B].
        split; [congruence | intros _; split; assumption].
      * split; [reflexivity | discriminate].
    + split; [reflexivity | discriminate].
  - intros t. apply GetData_name, OpenPMD_ReadData_name.
  - intros t. apply GetTime_name, OpenPMD_ReadTime_name.
  - apply GetDataUnits_name, OpenPMD_ReadUnits_name.
  - apply GetTimeUnits_name, OpenPMD_ReadUnits_name.
Qed.

(** C6.  Constructing the openPMD reader where [opmd_viewer] could not be
    imported fails before the series is scanned or any file is opened (the
    world is left as it was), but not with the installation hint: the
    statement names [RunTimeError], which is bound nowhere, so the error that
    reaches the caller is the [NameError] for that name.  Spelled
    [RuntimeError], the same statement raises the hint. *)
Theorem C6_missing_package_raises_NameError
    dflt (loc sp dn iname : string) (fts : Z) (w : World) :
  openpmd_installed w = false ->
  let o := construct (OpenPMDRawDataReader.__init__ dflt loc sp dn iname fts) w in
  out_res o = Raise (NameError "RunTimeError") /\
  exn_message (NameError "RunTimeError") = "name 'RunTimeError' is not defined" /\
  out_res o <> Raise (RuntimeError OpenPMDRawDataReader.install_hint) /\
  out_world o = w /\
  open_calls (io_log (out_world o)) = open_calls (io_log w) /\
  raise_named "RuntimeError" OpenPMDRawDataReader.install_hint
  = RuntimeError OpenPMDRawDataReader.install_hint.
Proof.
  intros Hmissing. cbv zeta. unfold construct.
  rewrite OpenPMD_init_run, Hmissing. cbn [out_res out_world].
  repeat split; discriminate.
Qed.

Lemma C6_witness :
  openpmd_installed Fixture.world = false /\
  let o := construct (OpenPMDRawDataReader.__init__ Fixture.dflt "run" "e" "x1" "x1" 5)
             Fixture.world in
  out_res o = Raise (NameError "RunTimeError") /\
  exn_message (NameError "RunTimeError") = "name 'RunTimeError' is not defined" /\
  out_res o <> Raise (RuntimeError OpenPMDRawDataReader.install_hint) /\
  out_world o = Fixture.world /\
  open_calls (io_log (out_world o)) = open_calls (io_log Fixture.world) /\
  raise_named "RuntimeError" OpenPMDRawDataReader.install_hint
  = RuntimeError OpenPMDRawDataReader.install_hint.
Proof.
  split; [reflexivity | ].
  apply (C6_missing_package_raises_NameError Fixture.dflt "run" "e" "x1" "x1" 5
           Fixture.world).
  reflexivity.
Defined.

(** ** File handles *)

Ltac handles_done :=
  cbn; rewrite ?Nat.eqb_refl;
  first [ reflexivity | left; reflexivity | right; reflexivity
        | match goal with
          | H : (?n =? ?n)%nat = false |- _ =>
              rewrite Nat.eqb_refl in H; discriminate H
          end ].

Section Handles.

Lemma Osiris_ReadData_fate t :
  handle_fate (fun r => OsirisRawDataReader.file_path r t)
    (OsirisRawDataReader._ReadData t).
Proof.
  intros r w. cbv beta.
  unfold OsirisRawDataReader._ReadData, OsirisRawDataReader._OpenFile.
  unfold_monad. cbn. unfold id.
  destruct (fs w (OsirisRawDataReader.file_path r t)) as [c | ]; cbn;
    [ | reflexivity].
  repeat (cbn; try split_match); handles_done.
Qed.

Lemma Osiris_ReadTime_fate t :
  handle_fate (fun r => OsirisRawDataReader.file_path r t)
    (OsirisRawDataReader._ReadTime t).
Proof.
  intros r w. cbv beta.
  unfold OsirisRawDataReader._ReadTime, OsirisRawDataReader._OpenFile.
  unfold_monad. cbn. unfold id.
  destruct (fs w (OsirisRawDataReader.file_path r t)) as [c | ]; cbn;
    [ | reflexivity].
  repeat (cbn; try split_match); handles_done.
Qed.

Lemma Osiris_ReadUnits_fate :
  handle_fate (fun r => OsirisRawDataReader.file_path r (firstTimeStep r))
    OsirisRawDataReader._ReadUnits.
Proof.
  intros r w. cbv beta.
  unfold OsirisRawDataReader._ReadUnits, OsirisRawDataReader._OpenFile.
  unfold_monad. cbn. unfold id.
  destruct (fs w (OsirisRawDataReader.file_path r (firstTimeStep r))) as [c | ]; cbn;
    [ | reflexivity].
  repeat (cbn; try split_match); handles_done.
Qed.

Lemma HiPACE_ReadData_fate t :
  handle_fate (fun r => HiPACERawDataReader.file_path r t)
    (HiPACERawDataReader._ReadData t).
Proof.
  intros r w. cbv beta.
  unfold HiPACERawDataReader._ReadData, HiPACERawDataReader._OpenFile.
  unfold_monad. cbn. unfold id.
  destruct (fs w (HiPACERawDataReader.file_path r t)) as [c | ]; cbn;
    [ | reflexivity].
  repeat (cbn; try split_match); handles_done.
Qed.

Lemma HiPACE_ReadTime_fate t :
  handle_fate (fun r => HiPACERawDataReader.file_path r t)
    (HiPACERawDataReader._ReadTime t).
Proof.
  intros r w. cbv beta.
  unfold HiPACERawDataReader._ReadTime, HiPACERawDataReader._OpenFile.
  unfold_monad. cbn. unfold id.
  destruct (fs w (HiPACERawDataReader.file_path r t)) as [c | ]; cbn;
    [ | reflexivity].
  repeat (cbn; try split_match); handles_done.
Qed.

(** The HiPACE units read opens no file and cannot fail. *)
Lemma HiPACE_ReadUnits_no_file r w :
  out_res (HiPACERawDataReader._ReadUnits r w) = Ok tt /\
  out_world (HiPACERawDataReader._ReadUnits r w) = w.
Proof.
  unfold HiPACERawDataReader._ReadUnits. exec; split; reflexivity.
Qed.

End Handles.

(** C5, as the code has it.  In every OSIRIS and HiPACE data read, time read
    and units read, the handle the call opened is closed before the call
    returns a value.  The methods have no handler around their reads: a call
    that raises after the file has opened leaves the handle it opened still
    open, and a call whose file does not open leaves no handle.  The HiPACE
    units read opens no file at all and always returns. *)
Theorem C5_handle_closed_on_return :
  (forall t, handle_fate (fun r => OsirisRawDataReader.file_path r t)
               (OsirisRawDataReader._ReadData t)) /\
  (forall t, handle_fate (fun r => OsirisRawDataReader.file_path r t)
               (OsirisRawDataReader._ReadTime t)) /\
  handle_fate (fun r => OsirisRawDataReader.file_path r (firstTimeStep r))
    OsirisRawDataReader._ReadUnits /\
  (forall t, handle_fate (fun r => HiPACERawDataReader.file_path r t)
               (HiPACERawDataReader._ReadData t)) /\
  (forall t, handle_fate (fun r => HiPACERawDataReader.file_path r t)
               (HiPACERawDataReader._ReadTime t)) /\
  (forall r w,
     out_res (HiPACERawDataReader._ReadUnits r w) = Ok tt /\
     out_world (HiPACERawDataReader._ReadUnits r w) = w).
Proof.
  split; [exact Osiris_ReadData_fate | ].
  split; [exact Osiris_ReadTime_fate | ].
  split; [exact Osiris_ReadUnits_fate | ].
  split; [exact HiPACE_ReadData_fate | ].
  split; [exact HiPACE_ReadTime_fate | exact HiPACE_ReadUnits_no_file].
Qed.

(** C5 as stated fails on the failure paths: the dump of step 8 opens but has
    no [TIME] attribute and no dataset; the OSIRIS time read, data read and
    units read of that step each raise with the handle they opened still
    open. *)
Lemma C5_counterexample :
  let r := Fixture.fresh "x1" in
  let w := Fixture.world in
  let o1 := OsirisRawDataReader._ReadTime 8 r w in
  let o2 := OsirisRawDataReader._ReadData 8 r w in
  let o3 := OsirisRawDataReader._ReadUnits (set_firstTimeStep 8 r) w in
  handles w = [] /\
  out_res o1 = Raise (KeyError "TIME") /\ handles (out_world o1) = [0%nat] /\
  out_res o2 = Raise (KeyError "TIME") /\ handles (out_world o2) = [0%nat] /\
  out_res o3 = Raise (KeyError "x1") /\ handles (out_world o3) = [0%nat] /\
  handles (out_world o1) <> handles w.
Proof.
  vm_compute. repeat split; discriminate.
Qed.

(** ** What a data read returns *)

Section DataReads.

(** The HiPACE data read, given the dump and its time. *)
Lemma HiPACE_ReadData_run (t : Z) (r : Reader) (w : World) (c : H5Content)
    (T : f64) (rest : list f64) :
  fs w (HiPACERawDataReader.file_path r t) = Some c ->
  h5_TIME c = Some (T :: rest) ->
  (forall xs, internalName r = "x1" -> stored_array c "x1" = NdFloat xs ->
     out_res (HiPACERawDataReader._ReadData t r w)
     = Ok (NdFloat (map (fun x => f64_add x T) xs))) /\
  (internalName r <> "x1" -> internalName r <> "tag" ->
     out_res (HiPACERawDataReader._ReadData t r w)
     = Ok (stored_array c (internalName r))) /\
  (forall bits rows, internalName r = "tag" ->
     stored_array c "tag" = NdTags bits rows ->
     out_res (HiPACERawDataReader._ReadData t r w)
     = Ok (pair_columns bits (map fst rows) (map snd rows))).
Proof.
  intros Hfs Htime.
  unfold HiPACERawDataReader._ReadData, HiPACERawDataReader._OpenFile.
  unfold_monad. cbn. unfold id. rewrite Hfs. cbn. rewrite Htime.
  split; [ | split ].
  - intros xs Hname Hx. rewrite Hname.
    change ("x1" =? "tag")%string with false.
    change ("x1" =? "x1")%string with true. cbn. rewrite Hx. reflexivity.
  - intros Hx1 Htag.
    replace (internalName r =? "tag")%string with false
      by (symmetry; apply String.eqb_neq; exact Htag).
    replace (internalName r =? "x1")%string with false
      by (symmetry; apply String.eqb_neq; exact Hx1).
    reflexivity.
  - intros bits rows Hname Hx. rewrite Hname.
    change ("tag" =? "tag")%string with true.
    change ("tag" =? "x1")%string with false. cbn. rewrite Hx. reflexivity.
Qed.

(** The OSIRIS data read of the tag field. *)
Lemma Osiris_ReadData_tag (t : Z) (r : Reader) (w : World) (c : H5Content)
    (T : f64) (rest : list f64) (bits : Z) (rows : list (Z * Z)) :
  fs w (OsirisRawDataReader.file_path r t) = Some c ->
  h5_TIME c = Some (T :: rest) ->
  internalName r = "tag" ->
  stored_array c "tag" = NdTags bits rows ->
  out_res (OsirisRawDataReader._ReadData t r w)
  = Ok (pair_columns bits (map fst rows) (map snd rows)).
Proof.
  intros Hfs Htime Hname Hx.
  unfold OsirisRawDataReader._ReadData, OsirisRawDataReader._OpenFile.
  unfold_monad. cbn. unfold id. rewrite Hfs. cbn. rewrite Htime, Hname.
  change ("tag" =? "tag")%string with true. cbn. rewrite Hx. reflexivity.
Qed.

End DataReads.

(** C4.  For the HiPACE reader, given the dump of the time step and its
    simulation time [T]: a data read of [x1] returns the stored float array
    with [T] added to every element; a data read of any other field adds
    nothing: it returns the stored array itself, or, for [tag], the
    identifiers paired from the stored columns.  On the dump of step 5
    ([T = 2.5], [x1 = [1.0, -0.5]], [p1 = [4.0, 6.0]]) the reads return
    [[3.5, 2.0]] and [[4.0, 6.0]]. *)
Theorem C4_HiPACE_shifts_x1_only (t : Z) (r : Reader) (w : World)
    (c : H5Content) (T : f64) (rest : list f64) :
  fs w (HiPACERawDataReader.file_path r t) = Some c ->
  h5_TIME c = Some (T :: rest) ->
  (forall xs, internalName r = "x1" -> stored_array c "x1" = NdFloat xs ->
     out_res (HiPACERawDataReader._ReadData t r w)
     = Ok (NdFloat (map (fun x => f64_add x T) xs))) /\
  (internalName r <> "x1" -> internalName r <> "tag" ->
     out_res (HiPACERawDataReader._ReadData t r w)
     = Ok (stored_array c (internalName r))) /\
  (forall bits rows, internalName r = "tag" ->
     stored_array c "tag" = NdTags bits rows ->
     out_res (HiPACERawDataReader._ReadData t r w)
     = Ok (pair_columns bits (map fst rows) (map snd rows))) /\
  out_res (GetData (R := HiPACERawDataReader.reader) 5 (Fixture.fresh "x1") Fixture.world)
  = Ok (NdFloat [Fixture.ratio 7 2; f64_of_Z 2]) /\
  out_res (GetData (R := HiPACERawDataReader.reader) 5 (Fixture.fresh "p1") Fixture.world)
  = Ok (NdFloat [f64_of_Z 4; f64_of_Z 6]).
Proof.
  intros Hfs Htime.
  destruct (HiPACE_ReadData_run t r w c T rest Hfs Htime) as (Hx1 & Hother & Htag).
  split; [exact Hx1 | ]. split; [exact Hother | ]. split; [exact Htag | ].
  split; vm_compute; reflexivity.
Qed.

Lemma C4_witness :
  let r := Fixture.fresh "x1" in
  let w := Fixture.world in
  let T := Fixture.ratio 5 2 in
  fs w (HiPACERawDataReader.file_path r 5) = Some Fixture.dump5 /\
  h5_TIME Fixture.dump5 = Some [T] /\
  internalName r = "x1" /\
  stored_array Fixture.dump5 "x1" = NdFloat Fixture.x1_raw /\
  out_res (HiPACERawDataReader._ReadData 5 r w)
  = Ok (NdFloat (map (fun x => f64_add x T) Fixture.x1_raw)).
Proof.
  cbv zeta.
  assert (Hfs : fs Fixture.world
                  (HiPACERawDataReader.file_path (Fixture.fresh "x1") 5)
                = Some Fixture.dump5) by reflexivity.
  assert (Htime : h5_TIME Fixture.dump5 = Some [Fixture.ratio 5 2]) by reflexivity.
  assert (Hname : internalName (Fixture.fresh "x1") = "x1") by reflexivity.
  assert (Hx : stored_array Fixture.dump5 "x1" = NdFloat Fixture.x1_raw) by reflexivity.
  split; [exact Hfs | ]. split; [exact Htime | ].
  split; [exact Hname | ]. split; [exact Hx | ].
  exact (proj1 (C4_HiPACE_shifts_x1_only 5 (Fixture.fresh "x1") Fixture.world
                  Fixture.dump5 (Fixture.ratio 5 2) [] Hfs Htime)
           Fixture.x1_raw Hname Hx).
Defined.

(** C3, as the code has it.  The identifiers are computed in [float64]
    ([1/2] is the float 0.5).  For tag columns of at least 32 bits whose rows
    are non-negative with a Cantor value below [2^53], the OSIRIS and the
    HiPACE tag read return, for every particle, exactly the Cantor value
    [(a+b)*(a+b+1)/2 + b] (as a float that stands for that integer), and
    distinct rows get distinct identifiers; (3,5) maps to 41 and (0,0) to 0. *)
Theorem C3_tag_ids_exact_below_2p53 (bits : Z) (rows : list (Z * Z))
    (t : Z) (r : Reader) (w : World) (c : H5Content) (T : f64) (rest : list f64) :
  32 <= bits -> Forall tag_in_domain rows ->
  internalName r = "tag" ->
  stored_array c "tag" = NdTags bits rows ->
  h5_TIME c = Some (T :: rest) ->
  let ids := map (fun ab => f64_of_Z (cantor (fst ab) (snd ab))) rows in
  (fs w (OsirisRawDataReader.file_path r t) = Some c ->
   out_res (OsirisRawDataReader._ReadData t r w) = Ok (NdFloat ids)) /\
  (fs w (HiPACERawDataReader.file_path r t) = Some c ->
   out_res (HiPACERawDataReader._ReadData t r w) = Ok (NdFloat ids)) /\
  map f64_to_Z ids = map (fun ab => Some (cantor (fst ab) (snd ab))) rows /\
  (forall p q, In p rows -> In q rows ->
     cantor_f64 bits (fst p) (snd p) = cantor_f64 bits (fst q) (snd q) -> p = q) /\
  f64_to_Z (cantor_f64 bits 3 5) = Some 41 /\
  f64_to_Z (cantor_f64 bits 0 0) = Some 0.
Proof.
  intros Hbits Hrows Hname Hx Htime. cbv zeta.
  split; [ | split; [ | split; [ | split; [ | split ] ] ] ].
  - intros Hfs.
    rewrite (Osiris_ReadData_tag t r w c T rest bits rows Hfs Htime Hname Hx).
    rewrite pair_columns_exact by assumption. reflexivity.
  - intros Hfs.
    destruct (HiPACE_ReadData_run t r w c T rest Hfs Htime) as (_ & _ & Htag).
    rewrite (Htag bits rows Hname Hx).
    rewrite pair_columns_exact by assumption. reflexivity.
  - rewrite map_map. apply map_ext_in. intros [a b] Hin.
    rewrite Forall_forall in Hrows. destruct (Hrows _ Hin) as (Ha & Hb & Hc).
    cbn [fst snd] in *. apply f64_to_Z_of_Z.
    split; [apply cantor_nonneg; assumption | assumption].
  - intros [a b] [a' b'] Hp Hq Heq. rewrite Forall_forall in Hrows.
    destruct (Hrows _ Hp) as (Ha & Hb & Hc).
    destruct (Hrows _ Hq) as (Ha' & Hb' & Hc'). cbn [fst snd] in *.
    rewrite !cantor_f64_exact in Heq by assumption.
    assert (Hz : Some (cantor a b) = Some (cantor a' b')).
    { rewrite <- (f64_to_Z_of_Z (cantor a b)), <- (f64_to_Z_of_Z (cantor a' b')).
      - rewrite Heq. reflexivity.
      - split; [apply cantor_nonneg; assumption | assumption].
      - split; [apply cantor_nonneg; assumption | assumption]. }
    injection Hz as Hz.
    destruct (cantor_injective a b a' b' Ha Hb Ha' Hb' Hz). congruence.
  - rewrite (cantor_f64_exact bits 3 5 Hbits)
      by first [lia | vm_compute; reflexivity].
    reflexivity.
  - rewrite (cantor_f64_exact bits 0 0 Hbits)
      by first [lia | vm_compute; reflexivity].
    reflexivity.
Qed.

Lemma C3_witness :
  let rows := [(3, 5); (0, 0)] in
  let r := Fixture.fresh "tag" in
  let w := Fixture.world in
  let ids := map (fun ab => f64_of_Z (cantor (fst ab) (snd ab))) rows in
  32 <= 32 /\ Forall tag_in_domain rows /\
  internalName r = "tag" /\
  stored_array Fixture.dump5 "tag" = NdTags 32 rows /\
  h5_TIME Fixture.dump5 = Some [Fixture.ratio 5 2] /\
  (fs w (OsirisRawDataReader.file_path r 5) = Some Fixture.dump5 ->
   out_res (OsirisRawDataReader._ReadData 5 r w) = Ok (NdFloat ids)) /\
  (fs w (HiPACERawDataReader.file_path r 5) = Some Fixture.dump5 ->
   out_res (HiPACERawDataReader._ReadData 5 r w) = Ok (NdFloat ids)) /\
  map f64_to_Z ids = map (fun ab => Some (cantor (fst ab) (snd ab))) rows /\
  (forall p q, In p rows -> In q rows ->
     cantor_f64 32 (fst p) (snd p) = cantor_f64 32 (fst q) (snd q) -> p = q) /\
  f64_to_Z (cantor_f64 32 3 5) = Some 41 /\
  f64_to_Z (cantor_f64 32 0 0) = Some 0.
Proof.
  cbv zeta.
  assert (Hbits : 32 <= 32) by lia.
  assert (Hrows : Forall tag_in_domain [(3, 5); (0, 0)]).
  { repeat constructor; cbn [fst snd]; first [lia | vm_compute; reflexivity]. }
  assert (Hname : internalName (Fixture.fresh "tag") = "tag") by reflexivity.
  assert (Hx : stored_array Fixture.dump5 "tag" = NdTags 32 [(3, 5); (0, 0)])
    by reflexivity.
  assert (Htime : h5_TIME Fixture.dump5 = Some [Fixture.ratio 5 2]) by reflexivity.
  split; [exact Hbits | ]. split; [exact Hrows | ]. split; [exact Hname | ].
  split; [exact Hx | ]. split; [exact Htime | ].
  exact (C3_tag_ids_exact_below_2p53 32 [(3, 5); (0, 0)] 5 (Fixture.fresh "tag")
           Fixture.world Fixture.dump5 (Fixture.ratio 5 2) []
           Hbits Hrows Hname Hx Htime).
Defined.

(** C3 as stated fails for large tags: the dump of step 7 holds the 32-bit
    rows (2^27 - 1, 1) and (2^27, 0), whose Cantor values are
    2^53 + 2^26 + 1 and 2^53 + 2^26.  The OSIRIS read returns the float
    2^53 + 2^26 for both: the first identifier is not the Cantor value, and
    two distinct rows share one identifier.  Nor is the formula injective on
    negative components, whatever the arithmetic: (-1, 0) and (0, 0) both
    map to 0. *)
Lemma C3_counterexample :
  let r := Fixture.fresh "tag" in
  let big := f64_of_Z (2 ^ 53 + 2 ^ 26) in
  stored_array Fixture.dump7 "tag" = NdTags 32 [(2 ^ 27 - 1, 1); (2 ^ 27, 0)] /\
  out_res (GetData (R := OsirisRawDataReader.reader) 7 r Fixture.world)
  = Ok (NdFloat [big; big]) /\
  f64_to_Z big = Some (2 ^ 53 + 2 ^ 26) /\
  cantor (2 ^ 27 - 1) 1 = 2 ^ 53 + 2 ^ 26 + 1 /\
  cantor (2 ^ 27) 0 = 2 ^ 53 + 2 ^ 26 /\
  f64_to_Z (cantor_f64 32 (2 ^ 27 - 1) 1) <> Some (cantor (2 ^ 27 - 1) 1) /\
  cantor_f64 32 (2 ^ 27 - 1) 1 = cantor_f64 32 (2 ^ 27) 0 /\
  (2 ^ 27 - 1, 1) <> (2 ^ 27, 0) /\
  cantor (-1) 0 = cantor 0 0 /\
  cantor_f64 32 (-1) 0 = cantor_f64 32 0 0.
Proof.
  vm_compute. repeat split; discriminate.
Qed.

(** * Further properties of the readers *)

(** ** File names *)

Section FileNames.

Lemma append_cancel_l (a x y : string) : a ++ x = a ++ y -> x = y.
Proof.
  induction a as [ | c a IH]; cbn; intros H; [exact H | ].
  injection H as H. exact (IH H).
Qed.

Lemma length_append (x y : string) :
  String.length (x ++ y) = (String.length x + String.length y)%nat.
Proof. induction x as [ | c x IH]; cbn; [reflexivity | now rewrite IH]. Qed.

Lemma append_cancel_r (a x y : string) : x ++ a = y ++ a -> x = y.
Proof.
  revert y. induction x as [ | c x IH]; intros [ | d y] H; cbn in H.
  - reflexivity.
  - exfalso. apply (f_equal String.length) in H. cbn in H.
    rewrite length_append in H. lia.
  - exfalso. apply (f_equal String.length) in H. cbn in H.
    rewrite length_append in H. lia.
  - injection H as Hc H. subst d. f_equal. exact (IH y H).
Qed.

Lemma append_assoc (x y z : string) : (x ++ y) ++ z = x ++ (y ++ z).
Proof. induction x as [ | c x IH]; cbn; [reflexivity | now rewrite IH]. Qed.

Lemma uint_of_zeros (k : nat) (s : string) :
  NilEmpty.uint_of_string (zeros k ++ s)
  = option_map (Nat.iter k Decimal.D0) (NilEmpty.uint_of_string s).
Proof.
  induction k as [ | k IH]; cbn [zeros append Nat.iter].
  - destruct (NilEmpty.uint_of_string s); reflexivity.
  - cbn [NilEmpty.uint_of_string]. rewrite IH.
    destruct (NilEmpty.uint_of_string s); reflexivity.
Qed.

Lemma of_uint_zeros (k : nat) (d : Decimal.uint) :
  Z.of_uint (Nat.iter k Decimal.D0 d) = Z.of_uint d.
Proof. induction k as [ | k IH]; [reflexivity | exact IH]. Qed.

Lemma zeros_head (k : nat) (s : string) (c : ascii) (rest : string) :
  zeros k ++ String c rest = s -> c <> "-"%char ->
  exists c' rest', s = String c' rest' /\ c' <> "-"%char.
Proof.
  intros <- Hc. destruct k as [ | k]; cbn.
  - exists c, rest. split; [reflexivity | exact Hc].
  - exists "0"%char, (zeros k ++ String c rest). split; [reflexivity | discriminate].
Qed.

(** Zero padding does not change the number a decimal string stands for. *)
Lemma padded_value_zfill (width : nat) (u : Decimal.uint) (neg : bool) :
  u <> Decimal.Nil ->
  padded_value
    (zfill width (NilEmpty.string_of_int (if neg then Decimal.Neg u else Decimal.Pos u)))
  = Some (Z.of_int (if neg then Decimal.Neg u else Decimal.Pos u)).
Proof.
  intros Hu. unfold padded_value. destruct neg.
  - cbn [NilEmpty.string_of_int]. unfold zfill.
    change (Ascii.eqb "-" "-" || Ascii.eqb "-" "+")%bool with true. cbv iota.
    cbn [NilEmpty.int_of_string]. change (Ascii.eqb "-" "-") with true. cbv iota.
    rewrite uint_of_zeros, NilEmpty.usu. cbn [option_map Z.of_int].
    rewrite of_uint_zeros. reflexivity.
  - cbn [NilEmpty.string_of_int].
    assert (Hhead : exists c rest, NilEmpty.string_of_uint u = String c rest /\
                      c <> "-"%char /\ c <> "+"%char).
    { destruct u; try (now destruct Hu); cbn;
        eexists; eexists; (split; [reflexivity | split; discriminate]). }
    destruct Hhead as (c & rest & Hs & Hminus & Hplus).
    unfold zfill. rewrite Hs.
    replace (Ascii.eqb c "-" || Ascii.eqb c "+")%bool with false
      by (symmetry; apply Bool.orb_false_iff; split; apply Ascii.eqb_neq; assumption).
    destruct (zeros_head (width - String.length (String c rest)) _ c rest eq_refl Hminus)
      as (c' & rest' & Hpad & Hc').
    unfold NilEmpty.int_of_string at 1. rewrite Hpad.
    replace (Ascii.eqb c' "-") with false by (symmetry; apply Ascii.eqb_neq; exact Hc').
    rewrite <- Hpad, <- Hs, uint_of_zeros, NilEmpty.usu. cbn [option_map Z.of_int].
    rewrite of_uint_zeros. reflexivity.
Qed.

(** The zero-padded decimal field of a time step reads back as that time
    step. *)
Lemma padded_value_of_timestep (width : nat) (t : Z) :
  padded_value (zfill width (py_str_int t)) = Some t.
Proof.
  unfold py_str_int. rewrite <- (DecimalZ.of_to t) at 2.
  destruct t as [ | p | p]; cbn [Z.to_int].
  - exact (padded_value_zfill width Decimal.zero false ltac:(discriminate)).
  - assert (Hn := DecimalPos.Unsigned.to_uint_nonnil p).
    replace (NilZero.string_of_int (Decimal.Pos (Pos.to_uint p)))
      with (NilEmpty.string_of_int (Decimal.Pos (Pos.to_uint p)))
      by (cbn; destruct (Pos.to_uint p); [now destruct Hn | reflexivity ..]).
    exact (padded_value_zfill width (Pos.to_uint p) false Hn).
  - assert (Hn := DecimalPos.Unsigned.to_uint_nonnil p).
    replace (NilZero.string_of_int (Decimal.Neg (Pos.to_uint p)))
      with (NilEmpty.string_of_int (Decimal.Neg (Pos.to_uint p)))
      by (cbn; destruct (Pos.to_uint p); [now destruct Hn | reflexivity ..]).
    exact (padded_value_zfill width (Pos.to_uint p) true Hn).
Qed.

End FileNames.

Arguments zfill : simpl never.
Arguments py_str_int : simpl never.

(** X1.  Both file-name schemes are injective in the time step: for one
    reader, two different time steps never address the same file (the decimal
    field is padded to six characters, never cut, and reads back as the time
    step). *)
Theorem X1_distinct_steps_distinct_files (r : Reader) (t1 t2 : Z) :
  t1 <> t2 ->
  OsirisRawDataReader.file_path r t1 <> OsirisRawDataReader.file_path r t2 /\
  HiPACERawDataReader.file_path r t1 <> HiPACERawDataReader.file_path r t2.
Proof.
  intros Hne.
  assert (Hfield : zfill 6 (py_str_int t1) = zfill 6 (py_str_int t2) -> t1 = t2).
  { intros H. apply (f_equal padded_value) in H.
    rewrite !padded_value_of_timestep in H. congruence. }
  split; intros H; apply Hne, Hfield.
  - unfold OsirisRawDataReader.file_path in H. cbv zeta in H.
    apply append_cancel_l in H. cbn in H. injection H as H.
    rewrite !append_assoc in H. apply append_cancel_l in H.
    cbn in H. injection H as H. apply append_cancel_r in H. exact H.
  - unfold HiPACERawDataReader.file_path in H. cbv zeta in H.
    apply append_cancel_l in H. cbn in H. injection H as H.
    rewrite !append_assoc in H. apply append_cancel_l in H.
    cbn in H. injection H as H. apply append_cancel_r in H. exact H.
Qed.

Lemma X1_witness :
  5 <> 7 /\
  OsirisRawDataReader.file_path (Fixture.fresh "x1") 5
  <> OsirisRawDataReader.file_path (Fixture.fresh "x1") 7 /\
  HiPACERawDataReader.file_path (Fixture.fresh "x1") 5
  <> HiPACERawDataReader.file_path (Fixture.fresh "x1") 7.
Proof.
  assert (H : 5 <> 7) by lia.
  split; [exact H | ].
  exact (X1_distinct_steps_distinct_files (Fixture.fresh "x1") 5 7 H).
Defined.

(** ** The one-slot cache over sequences of calls *)

Section CacheSequences.
Context {R : RawDataReader} {L : Lawful R}.

Lemma GetData_all_extractions (ts : list Z) (r : Reader) (w : World) :
  data_extractions (calls (snd (GetData_all ts r w)))
  = (data_extractions (calls w) + changes (currentTimeStep r) ts)%nat.
Proof.
  revert r w. induction ts as [ | t ts IH]; intros r w; cbn [GetData_all changes].
  - cbn. lia.
  - rewrite IH, GetData_key, GetData_calls.
    destruct (t =? currentTimeStep r); unfold data_extractions;
      cbn [filter List.length]; lia.
Qed.

Lemma last_cons (ts : list Z) (t d : Z) : last (t :: ts) d = last ts t.
Proof.
  revert t d. induction ts as [ | z ts IH]; intros t d; [reflexivity | ].
  change (last (t :: z :: ts) d) with (last (z :: ts) d).
  rewrite (IH z d), (IH z t). reflexivity.
Qed.

Lemma GetData_all_key (ts : list Z) (r : Reader) (w : World) :
  currentTimeStep (fst (GetData_all ts r w)) = last ts (currentTimeStep r).
Proof.
  revert r w. induction ts as [ | t ts IH]; intros r w; cbn [GetData_all].
  - reflexivity.
  - rewrite IH, GetData_key, last_cons. reflexivity.
Qed.

(** A units getter changes neither the cache key nor the cached array. *)
Lemma GetDataUnits_cache (r : Reader) (w : World) :
  currentTimeStep (out_self (GetDataUnits r w)) = currentTimeStep r /\
  data (out_self (GetDataUnits r w)) = data r /\
  units_resolutions (calls (out_world (GetDataUnits r w)))
  = (units_resolutions (calls w) + if (dataUnits r =? "")%string then 1 else 0)%nat.
Proof.
  pose proof (ReadUnits_frame r (log_call Call_ReadUnits w)) as F.
  destruct F as [_ _ _ _ _ Fk Fd _ _].
  rewrite GetDataUnits_calls.
  destruct (GetDataUnits_state r w) as [[E _] | [E _]]; rewrite E;
    (split; [ | split ]); try reflexivity; try assumption;
    destruct (dataUnits r =? "")%string; unfold units_resolutions;
    cbn [filter List.length]; lia.
Qed.

Lemma GetTimeUnits_cache (r : Reader) (w : World) :
  currentTimeStep (out_self (GetTimeUnits r w)) = currentTimeStep r /\
  data (out_self (GetTimeUnits r w)) = data r /\
  units_resolutions (calls (out_world (GetTimeUnits r w)))
  = (units_resolutions (calls w) + if (timeUnits r =? "")%string then 1 else 0)%nat.
Proof.
  pose proof (ReadUnits_frame r (log_call Call_ReadUnits w)) as F.
  destruct F as [_ _ _ _ _ Fk Fd _ _].
  rewrite GetTimeUnits_calls.
  destruct (GetTimeUnits_state r w) as [[E _] | [E _]]; rewrite E;
    (split; [ | split ]); try reflexivity; try assumption;
    destruct (timeUnits r =? "")%string; unfold units_resolutions;
    cbn [filter List.length]; lia.
Qed.

End CacheSequences.

(** X2.  The cache has one slot and no history: over any sequence of
    [GetData] calls, served one after the other whatever each returns, a
    lawful reader dispatches exactly one extraction per change of time step
    (the first request being compared with the cached step), and ends with
    the last requested step as its key. *)
Theorem X2_one_extraction_per_change
    (R : RawDataReader) (L : Lawful R) (ts : list Z) (r : Reader) (w : World) :
  data_extractions (calls (snd (GetData_all ts r w)))
  = (data_extractions (calls w) + changes (currentTimeStep r) ts)%nat /\
  currentTimeStep (fst (GetData_all ts r w)) = last ts (currentTimeStep r).
Proof.
  split; [apply GetData_all_extractions | apply GetData_all_key].
Qed.

Lemma X2_witness :
  Lawful OsirisRawDataReader.reader /\
  let ts := [5; 5; 7; 5] in
  let r := Fixture.fresh "tag" in
  let w := Fixture.world in
  data_extractions (calls (snd (GetData_all (R := OsirisRawDataReader.reader) ts r w)))
  = (data_extractions (calls w) + changes (currentTimeStep r) ts)%nat /\
  currentTimeStep (fst (GetData_all (R := OsirisRawDataReader.reader) ts r w))
  = last ts (currentTimeStep r).
Proof.
  split; [exact Osiris_lawful | ].
  exact (X2_one_extraction_per_change OsirisRawDataReader.reader Osiris_lawful
           [5; 5; 7; 5] (Fixture.fresh "tag") Fixture.world).
Defined.

(** X3.  Units queries do not disturb the data cache: for a lawful reader,
    [GetDataUnits()] and [GetTimeUnits()] called after [GetData(t)] leave the
    cache key and the cached array alone, so the next [GetData(t)] is served
    from the cache, without extraction, with the array of the first call. *)
Theorem X3_units_queries_keep_the_cache
    (R : RawDataReader) (L : Lawful R) (t : Z) (r : Reader) (w : World) :
  let o1 := GetData t r w in
  let o2 := GetDataUnits (out_self o1) (out_world o1) in
  let o3 := GetTimeUnits (out_self o2) (out_world o2) in
  let o4 := GetData t (out_self o3) (out_world o3) in
  currentTimeStep (out_self o3) = t /\
  data (out_self o3) = data (out_self o1) /\
  o4 = mkOutcome (Ok (data (out_self o1))) (out_self o3) (out_world o3) /\
  data_extractions (calls (out_world o4)) = data_extractions (calls (out_world o1)).
Proof.
  cbv zeta.
  destruct (GetDataUnits_cache (out_self (GetData t r w)) (out_world (GetData t r w)))
    as (K2 & D2 & _).
  destruct (GetTimeUnits_cache
              (out_self (GetDataUnits (out_self (GetData t r w)) (out_world (GetData t r w))))
              (out_world (GetDataUnits (out_self (GetData t r w)) (out_world (GetData t r w)))))
    as (K3 & D3 & _).
  assert (K : currentTimeStep
                (out_self (GetTimeUnits
                   (out_self (GetDataUnits (out_self (GetData t r w)) (out_world (GetData t r w))))
                   (out_world (GetDataUnits (out_self (GetData t r w)) (out_world (GetData t r w))))))
              = t) by (rewrite K3, K2; apply GetData_key).
  split; [exact K | ]. split; [congruence | ].
  rewrite (GetData_hit t _ _ K). cbn [out_world].
  split; [f_equal; f_equal; congruence | ].
  rewrite GetTimeUnits_calls, GetDataUnits_calls.
  do 2 match goal with |- context [if ?b then _ else _] => destruct b end;
    unfold data_extractions; cbn [filter List.length]; reflexivity.
Qed.

Lemma X3_witness :
  Lawful OsirisRawDataReader.reader /\
  let r := Fixture.fresh "x1" in
  let w := Fixture.world in
  let o1 := GetData (R := OsirisRawDataReader.reader) 5 r w in
  let o2 := GetDataUnits (R := OsirisRawDataReader.reader) (out_self o1) (out_world o1) in
  let o3 := GetTimeUnits (R := OsirisRawDataReader.reader) (out_self o2) (out_world o2) in
  let o4 := GetData (R := OsirisRawDataReader.reader) 5 (out_self o3) (out_world o3) in
  currentTimeStep (out_self o3) = 5 /\
  data (out_self o3) = data (out_self o1) /\
  o4 = mkOutcome (Ok (data (out_self o1))) (out_self o3) (out_world o3) /\
  data_extractions (calls (out_world o4)) = data_extractions (calls (out_world o1)).
Proof.
  split; [exact Osiris_lawful | ].
  exact (X3_units_queries_keep_the_cache OsirisRawDataReader.reader Osiris_lawful
           5 (Fixture.fresh "x1") Fixture.world).
Defined.

(** ** Time after data *)

Ltac ok_branches H :=
  revert H; exec; intros H; try discriminate H; unfold id in *.

Section TimeAfterData.

Lemma Osiris_ReadData_sets_time t r w d :
  out_res (OsirisRawDataReader._ReadData t r w) = Ok d ->
  exists c T rest,
    fs w (OsirisRawDataReader.file_path r t) = Some c /\
    h5_TIME c = Some (T :: rest) /\
    currentTime (out_self (OsirisRawDataReader._ReadData t r w)) = PyFloat T.
Proof.
  intros H.
  unfold OsirisRawDataReader._ReadData, OsirisRawDataReader._OpenFile in *.
  ok_branches H; do 3 eexists; repeat split; eassumption.
Qed.

Lemma HiPACE_ReadData_sets_time t r w d :
  out_res (HiPACERawDataReader._ReadData t r w) = Ok d ->
  exists c T rest,
    fs w (HiPACERawDataReader.file_path r t) = Some c /\
    h5_TIME c = Some (T :: rest) /\
    currentTime (out_self (HiPACERawDataReader._ReadData t r w)) = PyFloat T.
Proof.
  intros H.
  unfold HiPACERawDataReader._ReadData, HiPACERawDataReader._OpenFile in *.
  ok_branches H; do 3 eexists; repeat split; eassumption.
Qed.

Lemma OpenPMD_ReadData_sets_None t r w d :
  out_res (OpenPMDRawDataReader._ReadData t r w) = Ok d ->
  currentTime (out_self (OpenPMDRawDataReader._ReadData t r w)) = PyNone.
Proof.
  intros H.
  unfold OpenPMDRawDataReader._ReadData, OpenPMDRawDataReader._ReadTime in *.
  ok_branches H; reflexivity.
Qed.

Lemma OpenPMD_ReadTime_sets_float t r w u :
  out_res (OpenPMDRawDataReader._ReadTime t r w) = Ok u ->
  exists x, currentTime (out_self (OpenPMDRawDataReader._ReadTime t r w)) = PyFloat x.
Proof.
  intros H. unfold OpenPMDRawDataReader._ReadTime in *.
  ok_branches H; eexists; reflexivity.
Qed.

(** The slot a successful [GetData] for a new step leaves behind. *)
Lemma GetData_ok_time {R : RawDataReader} (t : Z) (r : Reader) (w : World) (d : ndarray) :
  currentTimeStep r <> t ->
  out_res (GetData t r w) = Ok d ->
  out_res (_ReadData t (set_currentTimeStep t r) (log_call (Call_ReadData t) w)) = Ok d /\
  currentTime (out_self (GetData t r w))
  = currentTime (out_self (_ReadData t (set_currentTimeStep t r)
                             (log_call (Call_ReadData t) w))).
Proof.
  intros Hnew. rewrite GetData_miss by assumption. cbv zeta.
  destruct (_ReadData t _ _) as [[d' | e] r1 w1]; cbn; intros H;
    [split; [exact H | reflexivity] | discriminate H].
Qed.

End TimeAfterData.

(** X4.  For the OSIRIS and the HiPACE reader, a [GetData(t)] that extracts
    and returns has read the [TIME] attribute of the dump of step [t] on the
    way: the [GetTime(t)] that follows returns its first element, with no
    further extraction or file access (the state is untouched). *)
Theorem X4_GetTime_after_GetData_is_the_dump_time (t : Z) (r : Reader) (w : World) :
  currentTimeStep r <> t ->
  (forall d,
     let o := GetData (R := OsirisRawDataReader.reader) t r w in
     out_res o = Ok d ->
     exists c T rest,
       fs w (OsirisRawDataReader.file_path r t) = Some c /\
       h5_TIME c = Some (T :: rest) /\
       GetTime (R := OsirisRawDataReader.reader) t (out_self o) (out_world o)
       = mkOutcome (Ok (PyFloat T)) (out_self o) (out_world o)) /\
  (forall d,
     let o := GetData (R := HiPACERawDataReader.reader) t r w in
     out_res o = Ok d ->
     exists c T rest,
       fs w (HiPACERawDataReader.file_path r t) = Some c /\
       h5_TIME c = Some (T :: rest) /\
       GetTime (R := HiPACERawDataReader.reader) t (out_self o) (out_world o)
       = mkOutcome (Ok (PyFloat T)) (out_self o) (out_world o)).
Proof.
  intros Hnew. split; intros d o Hok; subst o.
  - destruct (GetData_ok_time (R := OsirisRawDataReader.reader) t r w d Hnew Hok)
      as [Hrun Htime].
    destruct (Osiris_ReadData_sets_time _ _ _ _ Hrun) as (c & T & rest & Hfs & HT & Hcur).
    exists c, T, rest. split; [exact Hfs | ]. split; [exact HT | ].
    rewrite (GetTime_hit (R := OsirisRawDataReader.reader))
      by apply (GetData_key (R := OsirisRawDataReader.reader)).
    rewrite Htime. cbn [_ReadData OsirisRawDataReader.reader]. rewrite Hcur. reflexivity.
  - destruct (GetData_ok_time (R := HiPACERawDataReader.reader) t r w d Hnew Hok)
      as [Hrun Htime].
    destruct (HiPACE_ReadData_sets_time _ _ _ _ Hrun) as (c & T & rest & Hfs & HT & Hcur).
    exists c, T, rest. split; [exact Hfs | ]. split; [exact HT | ].
    rewrite (GetTime_hit (R := HiPACERawDataReader.reader))
      by apply (GetData_key (R := HiPACERawDataReader.reader)).
    rewrite Htime. cbn [_ReadData HiPACERawDataReader.reader]. rewrite Hcur. reflexivity.
Qed.

Lemma X4_witness :
  currentTimeStep (Fixture.fresh "x1") <> 5 /\
  let o := GetData (R := OsirisRawDataReader.reader) 5 (Fixture.fresh "x1") Fixture.world in
  out_res o = Ok (NdFloat Fixture.x1_raw) /\
  exists c T rest,
    fs Fixture.world (OsirisRawDataReader.file_path (Fixture.fresh "x1") 5) = Some c /\
    h5_TIME c = Some (T :: rest) /\
    GetTime (R := OsirisRawDataReader.reader) 5 (out_self o) (out_world o)
    = mkOutcome (Ok (PyFloat T)) (out_self o) (out_world o).
Proof.
  assert (Hnew : currentTimeStep (Fixture.fresh "x1") <> 5) by (vm_compute; discriminate).
  assert (Hok : out_res (GetData (R := OsirisRawDataReader.reader) 5
                           (Fixture.fresh "x1") Fixture.world)
                = Ok (NdFloat Fixture.x1_raw)) by (vm_compute; reflexivity).
  split; [exact Hnew | ]. cbv zeta. split; [exact Hok | ].
  exact (proj1 (X4_GetTime_after_GetData_is_the_dump_time 5 (Fixture.fresh "x1")
                  Fixture.world Hnew) (NdFloat Fixture.x1_raw) Hok).
Defined.

(** X5.  The openPMD reader loses the time in a data read: whenever its
    [GetData(t)] extracts and returns, the [currentTime] slot holds [None]
    ([_ReadData] assigns the result of [_ReadTime], which returns nothing), so
    the [GetTime(t)] that follows returns [None]; the time is a float only
    when [GetTime(t)] itself does the extraction. *)
Theorem X5_openPMD_data_read_leaves_no_time (t : Z) (r : Reader) (w : World) :
  currentTimeStep r <> t ->
  (forall d,
     let o := GetData (R := OpenPMDRawDataReader.reader) t r w in
     out_res o = Ok d ->
     currentTime (out_self o) = PyNone /\
     GetTime (R := OpenPMDRawDataReader.reader) t (out_self o) (out_world o)
     = mkOutcome (Ok PyNone) (out_self o) (out_world o)) /\
  (forall v,
     out_res (GetTime (R := OpenPMDRawDataReader.reader) t r w) = Ok v ->
     exists x, v = PyFloat x).
Proof.
  intros Hnew. split.
  - intros d o Hok. subst o.
    destruct (GetData_ok_time (R := OpenPMDRawDataReader.reader) t r w d Hnew Hok)
      as [Hrun Htime].
    pose proof (OpenPMD_ReadData_sets_None _ _ _ _ Hrun) as Hcur.
    cbn [_ReadData OpenPMDRawDataReader.reader] in Htime. rewrite Hcur in Htime.
    split; [exact Htime | ].
    rewrite (GetTime_hit (R := OpenPMDRawDataReader.reader))
      by apply (GetData_key (R := OpenPMDRawDataReader.reader)).
    rewrite Htime. reflexivity.
  - intros v. rewrite (GetTime_miss (R := OpenPMDRawDataReader.reader)) by assumption.
    cbv zeta. cbn [_ReadTime OpenPMDRawDataReader.reader].
    pose proof (OpenPMD_ReadTime_sets_float t (set_currentTimeStep t r)
                  (log_call (Call_ReadTime t) w)) as Hfloat.
    destruct (OpenPMDRawDataReader._ReadTime t _ _) as [[u | e] r1 w1];
      cbn in *; intros H; [ | discriminate H].
    destruct (Hfloat u eq_refl) as [x Hx]. exists x. congruence.
Qed.

Lemma X5_witness :
  currentTimeStep Fixture2.opmd_reader <> 5 /\
  let o := GetData (R := OpenPMDRawDataReader.reader) 5 Fixture2.opmd_reader
             Fixture2.world in
  out_res o = Ok (NdFloat Fixture.x1_raw) /\
  currentTime (out_self o) = PyNone /\
  GetTime (R := OpenPMDRawDataReader.reader) 5 (out_self o) (out_world o)
  = mkOutcome (Ok PyNone) (out_self o) (out_world o).
Proof.
  assert (Hnew : currentTimeStep Fixture2.opmd_reader <> 5) by (vm_compute; discriminate).
  assert (Hok : out_res (GetData (R := OpenPMDRawDataReader.reader) 5
                           Fixture2.opmd_reader Fixture2.world)
                = Ok (NdFloat Fixture.x1_raw)) by (vm_compute; reflexivity).
  split; [exact Hnew | ]. cbv zeta. split; [exact Hok | ].
  exact (proj1 (X5_openPMD_data_read_leaves_no_time 5 Fixture2.opmd_reader
                  Fixture2.world Hnew) (NdFloat Fixture.x1_raw) Hok).
Defined.

(** ** How reads fail and what they return *)

Ltac raise_branches H :=
  revert H; exec; intros H; try discriminate H; unfold id in *;
  injection H as H; subst.

Ltac failure_done :=
  first [ left; reflexivity
        | right; left; reflexivity
        | right; right; eexists; reflexivity ].

Section ReadFailures.

Lemma Osiris_ReadData_failure t r w e :
  out_res (OsirisRawDataReader._ReadData t r w) = Raise e ->
  read_failure (OsirisRawDataReader.file_path r t) e.
Proof.
  intros H.
  unfold OsirisRawDataReader._ReadData, OsirisRawDataReader._OpenFile in *.
  raise_branches H; failure_done.
Qed.

Lemma Osiris_ReadTime_failure t r w e :
  out_res (OsirisRawDataReader._ReadTime t r w) = Raise e ->
  read_failure (OsirisRawDataReader.file_path r t) e.
Proof.
  intros H.
  unfold OsirisRawDataReader._ReadTime, OsirisRawDataReader._OpenFile in *.
  raise_branches H; failure_done.
Qed.

Lemma HiPACE_ReadTime_failure t r w e :
  out_res (HiPACERawDataReader._ReadTime t r w) = Raise e ->
  read_failure (HiPACERawDataReader.file_path r t) e.
Proof.
  intros H.
  unfold HiPACERawDataReader._ReadTime, HiPACERawDataReader._OpenFile in *.
  raise_branches H; failure_done.
Qed.

Lemma HiPACE_ReadData_failure t r w e :
  out_res (HiPACERawDataReader._ReadData t r w) = Raise e ->
  read_failure (HiPACERawDataReader.file_path r t) e \/
  (internalName r = "x1" /\ exists m, e = TypeError m).
Proof.
  intros H.
  unfold HiPACERawDataReader._ReadData, HiPACERawDataReader._OpenFile in *.
  raise_branches H;
    first [ left; failure_done
          | right; split; [apply String.eqb_eq; assumption | eexists; reflexivity] ].
Qed.

Lemma Osiris_open_failure t r w :
  fs w (OsirisRawDataReader.file_path r t) = None ->
  out_res (OsirisRawDataReader._ReadData t r w)
  = Raise (OSError ("Unable to open file " ++ OsirisRawDataReader.file_path r t)) /\
  out_res (OsirisRawDataReader._ReadTime t r w)
  = Raise (OSError ("Unable to open file " ++ OsirisRawDataReader.file_path r t)).
Proof.
  intros H.
  unfold OsirisRawDataReader._ReadData, OsirisRawDataReader._ReadTime,
    OsirisRawDataReader._OpenFile.
  unfold_monad. cbn. unfold id. rewrite H. split; reflexivity.
Qed.

End ReadFailures.

(** X6.  An OSIRIS data or time read, and a HiPACE time read, fail in three
    ways only: [OSError] (the dump of the step does not open), [KeyError] for
    the [TIME] attribute, or [IndexError] (no tag columns, empty [TIME]).  A
    HiPACE data read can in addition fail with [TypeError], and only when the
    field is [x1].  For the OSIRIS reader, a dump that does not exist always
    gives the [OSError] that names its path. *)
Theorem X6_reads_fail_in_few_ways (t : Z) (r : Reader) (w : World) (e : exn) :
  (out_res (OsirisRawDataReader._ReadData t r w) = Raise e ->
   read_failure (OsirisRawDataReader.file_path r t) e) /\
  (out_res (OsirisRawDataReader._ReadTime t r w) = Raise e ->
   read_failure (OsirisRawDataReader.file_path r t) e) /\
  (out_res (HiPACERawDataReader._ReadTime t r w) = Raise e ->
   read_failure (HiPACERawDataReader.file_path r t) e) /\
  (out_res (HiPACERawDataReader._ReadData t r w) = Raise e ->
   read_failure (HiPACERawDataReader.file_path r t) e \/
   (internalName r = "x1" /\ exists m, e = TypeError m)) /\
  (fs w (OsirisRawDataReader.file_path r t) = None ->
   out_res (OsirisRawDataReader._ReadData t r w)
   = Raise (OSError ("Unable to open file " ++ OsirisRawDataReader.file_path r t)) /\
   out_res (OsirisRawDataReader._ReadTime t r w)
   = Raise (OSError ("Unable to open file " ++ OsirisRawDataReader.file_path r t))).
Proof.
  split; [apply Osiris_ReadData_failure | ].
  split; [apply Osiris_ReadTime_failure | ].
  split; [apply HiPACE_ReadTime_failure | ].
  split; [apply HiPACE_ReadData_failure | apply Osiris_open_failure].
Qed.

Lemma X6_witness :
  let r := Fixture.fresh "tag" in
  let w := Fixture.world in
  out_res (OsirisRawDataReader._ReadData 8 r w) = Raise (IndexError "too many indices for array") /\
  read_failure (OsirisRawDataReader.file_path r 8) (IndexError "too many indices for array") /\
  fs w (OsirisRawDataReader.file_path r 6) = None /\
  out_res (OsirisRawDataReader._ReadData 6 r w)
  = Raise (OSError ("Unable to open file " ++ OsirisRawDataReader.file_path r 6)).
Proof.
  cbv zeta.
  assert (H8 : out_res (OsirisRawDataReader._ReadData 8 (Fixture.fresh "tag") Fixture.world)
               = Raise (IndexError "too many indices for array")) by reflexivity.
  assert (H6 : fs Fixture.world (OsirisRawDataReader.file_path (Fixture.fresh "tag") 6)
               = None) by reflexivity.
  split; [exact H8 | ].
  split; [exact (proj1 (X6_reads_fail_in_few_ways 8 (Fixture.fresh "tag") Fixture.world
                          (IndexError "too many indices for array")) H8) | ].
  split; [exact H6 | ].
  exact (proj1 (proj2 (proj2 (proj2 (proj2
           (X6_reads_fail_in_few_ways 6 (Fixture.fresh "tag") Fixture.world
              (KeyError "TIME"))))) H6)).
Defined.

(** ** When a time read returns *)

Section TimeReads.

Lemma Osiris_ReadTime_ok t r w c T rest :
  fs w (OsirisRawDataReader.file_path r t) = Some c ->
  h5_TIME c = Some (T :: rest) ->
  out_res (OsirisRawDataReader._ReadTime t r w) = Ok tt /\
  out_self (OsirisRawDataReader._ReadTime t r w) = set_currentTime (PyFloat T) r /\
  handles (out_world (OsirisRawDataReader._ReadTime t r w)) = handles w.
Proof.
  intros Hc HT.
  unfold OsirisRawDataReader._ReadTime, OsirisRawDataReader._OpenFile.
  unfold_monad. cbn. unfold id. rewrite Hc. cbn. rewrite HT. cbn.
  rewrite Nat.eqb_refl. repeat split.
Qed.

Lemma HiPACE_ReadTime_ok t r w c T rest :
  fs w (HiPACERawDataReader.file_path r t) = Some c ->
  h5_TIME c = Some (T :: rest) ->
  out_res (HiPACERawDataReader._ReadTime t r w) = Ok tt /\
  out_self (HiPACERawDataReader._ReadTime t r w) = set_currentTime (PyFloat T) r /\
  handles (out_world (HiPACERawDataReader._ReadTime t r w)) = handles w.
Proof.
  intros Hc HT.
  unfold HiPACERawDataReader._ReadTime, HiPACERawDataReader._OpenFile.
  unfold_monad. cbn. unfold id. rewrite Hc. cbn. rewrite HT. cbn.
  rewrite Nat.eqb_refl. repeat split.
Qed.

Lemma Osiris_ReadTime_returns t r w u :
  out_res (OsirisRawDataReader._ReadTime t r w) = Ok u ->
  exists c T rest,
    fs w (OsirisRawDataReader.file_path r t) = Some c /\
    h5_TIME c = Some (T :: rest).
Proof.
  intros H.
  unfold OsirisRawDataReader._ReadTime, OsirisRawDataReader._OpenFile in *.
  ok_branches H; do 3 eexists; split; eassumption.
Qed.

Lemma HiPACE_ReadTime_returns t r w u :
  out_res (HiPACERawDataReader._ReadTime t r w) = Ok u ->
  exists c T rest,
    fs w (HiPACERawDataReader.file_path r t) = Some c /\
    h5_TIME c = Some (T :: rest).
Proof.
  intros H.
  unfold HiPACERawDataReader._ReadTime, HiPACERawDataReader._OpenFile in *.
  ok_branches H; do 3 eexists; split; eassumption.
Qed.

Lemma GetTime_ok_inv {R : RawDataReader} (t : Z) (r : Reader) (w : World) (v : pyscalar) :
  currentTimeStep r <> t ->
  out_res (GetTime t r w) = Ok v ->
  (exists u, out_res (_ReadTime t (set_currentTimeStep t r)
                        (log_call (Call_ReadTime t) w)) = Ok u) /\
  v = currentTime (out_self (_ReadTime t (set_currentTimeStep t r)
                               (log_call (Call_ReadTime t) w))).
Proof.
  intros Hnew. rewrite GetTime_miss by assumption. cbv zeta.
  destruct (_ReadTime t _ _) as [[u | e] r1 w1]; cbn; intros H;
    [ | discriminate H].
  injection H as <-. split; [exists u | ]; reflexivity.
Qed.

Lemma GetTime_ok_run {R : RawDataReader} (t : Z) (r r1 : Reader) (w : World) :
  currentTimeStep r <> t ->
  out_res (_ReadTime t (set_currentTimeStep t r) (log_call (Call_ReadTime t) w)) = Ok tt ->
  out_self (_ReadTime t (set_currentTimeStep t r) (log_call (Call_ReadTime t) w)) = r1 ->
  out_res (GetTime t r w) = Ok (currentTime r1) /\
  out_self (GetTime t r w) = r1 /\
  out_world (GetTime t r w)
  = out_world (_ReadTime t (set_currentTimeStep t r) (log_call (Call_ReadTime t) w)).
Proof.
  intros Hnew. rewrite GetTime_miss by assumption. cbv zeta.
  destruct (_ReadTime t _ _) as [[u | e] r' w1]; cbn; intros H E;
    [ | discriminate H].
  subst. repeat split.
Qed.

End TimeReads.

(** X7.  For the OSIRIS and the HiPACE reader, [GetTime(t)] for a step other
    than the cached one returns exactly when the dump of step [t] exists and
    has a non-empty [TIME] attribute.  It then returns the first element of
    [TIME], leaves the reader with that time under key [t] and nothing else
    changed, and leaves no file handle open. *)
Theorem X7_GetTime_returns_iff_dump_has_TIME (t : Z) (r : Reader) (w : World) :
  currentTimeStep r <> t ->
  (forall c T rest,
     fs w (OsirisRawDataReader.file_path r t) = Some c ->
     h5_TIME c = Some (T :: rest) ->
     out_res (GetTime (R := OsirisRawDataReader.reader) t r w) = Ok (PyFloat T) /\
     out_self (GetTime (R := OsirisRawDataReader.reader) t r w)
     = set_currentTime (PyFloat T) (set_currentTimeStep t r) /\
     handles (out_world (GetTime (R := OsirisRawDataReader.reader) t r w)) = handles w) /\
  (forall v,
     out_res (GetTime (R := OsirisRawDataReader.reader) t r w) = Ok v ->
     exists c T rest,
       fs w (OsirisRawDataReader.file_path r t) = Some c /\
       h5_TIME c = Some (T :: rest) /\ v = PyFloat T) /\
  (forall c T rest,
     fs w (HiPACERawDataReader.file_path r t) = Some c ->
     h5_TIME c = Some (T :: rest) ->
     out_res (GetTime (R := HiPACERawDataReader.reader) t r w) = Ok (PyFloat T) /\
     out_self (GetTime (R := HiPACERawDataReader.reader) t r w)
     = set_currentTime (PyFloat T) (set_currentTimeStep t r) /\
     handles (out_world (GetTime (R := HiPACERawDataReader.reader) t r w)) = handles w) /\
  (forall v,
     out_res (GetTime (R := HiPACERawDataReader.reader) t r w) = Ok v ->
     exists c T rest,
       fs w (HiPACERawDataReader.file_path r t) = Some c /\
       h5_TIME c = Some (T :: rest) /\ v = PyFloat T).
Proof.
  intros Hnew.
  assert (Run : forall (R : RawDataReader) (path : Reader -> Z -> string),
            (forall t r w c T rest,
               fs w (path r t) = Some c -> h5_TIME c = Some (T :: rest) ->
               out_res (_ReadTime t r w) = Ok tt /\
               out_self (_ReadTime t r w) = set_currentTime (PyFloat T) r /\
               handles (out_world (_ReadTime t r w)) = handles w) ->
            (forall r, path (set_currentTimeStep t r) t = path r t) ->
            forall c T rest,
              fs w (path r t) = Some c -> h5_TIME c = Some (T :: rest) ->
              out_res (GetTime t r w) = Ok (PyFloat T) /\
              out_self (GetTime t r w)
              = set_currentTime (PyFloat T) (set_currentTimeStep t r) /\
              handles (out_world (GetTime t r w)) = handles w).
  { intros R path Hok Hpath c T rest Hc HT.
    destruct (Hok t (set_currentTimeStep t r) (log_call (Call_ReadTime t) w) c T rest)
      as (H1 & H2 & H3); [rewrite Hpath; exact Hc | exact HT | ].
    destruct (GetTime_ok_run t r _ w Hnew H1 H2) as (G1 & G2 & G3).
    rewrite G1, G2, G3, H3. repeat split. }
  assert (Inv : forall (R : RawDataReader) (path : Reader -> Z -> string),
            (forall t r w c T rest,
               fs w (path r t) = Some c -> h5_TIME c = Some (T :: rest) ->
               out_res (_ReadTime t r w) = Ok tt /\
               out_self (_ReadTime t r w) = set_currentTime (PyFloat T) r /\
               handles (out_world (_ReadTime t r w)) = handles w) ->
            (forall t r w u, out_res (_ReadTime t r w) = Ok u ->
               exists c T rest, fs w (path r t) = Some c /\ h5_TIME c = Some (T :: rest)) ->
            (forall r, path (set_currentTimeStep t r) t = path r t) ->
            forall v, out_res (GetTime t r w) = Ok v ->
              exists c T rest,
                fs w (path r t) = Some c /\ h5_TIME c = Some (T :: rest) /\ v = PyFloat T).
  { intros R path Hok Hret Hpath v Hv.
    destruct (GetTime_ok_inv t r w v Hnew Hv) as ((u & Hu) & ->).
    destruct (Hret _ _ _ _ Hu) as (c & T & rest & Hc & HT).
    exists c, T, rest.
    destruct (Hok _ _ _ _ _ _ Hc HT) as (_ & -> & _).
    rewrite Hpath in Hc. repeat split; assumption. }
  split; [apply (Run OsirisRawDataReader.reader OsirisRawDataReader.file_path);
            [exact Osiris_ReadTime_ok | reflexivity] | ].
  split; [apply (Inv OsirisRawDataReader.reader OsirisRawDataReader.file_path);
            [exact Osiris_ReadTime_ok | exact Osiris_ReadTime_returns | reflexivity] | ].
  split; [apply (Run HiPACERawDataReader.reader HiPACERawDataReader.file_path);
            [exact HiPACE_ReadTime_ok | reflexivity] | ].
  apply (Inv HiPACERawDataReader.reader HiPACERawDataReader.file_path);
    [exact HiPACE_ReadTime_ok | exact HiPACE_ReadTime_returns | reflexivity].
Qed.

Lemma X7_witness :
  let r := Fixture.fresh "p1" in
  let w := Fixture.world in
  currentTimeStep r <> 7 /\
  fs w (OsirisRawDataReader.file_path r 7) = Some Fixture.dump7 /\
  out_res (GetTime (R := OsirisRawDataReader.reader) 7 r w) = Ok (PyFloat (f64_of_Z 3)) /\
  out_self (GetTime (R := OsirisRawDataReader.reader) 7 r w)
  = set_currentTime (PyFloat (f64_of_Z 3)) (set_currentTimeStep 7 r) /\
  handles (out_world (GetTime (R := OsirisRawDataReader.reader) 7 r w)) = handles w.
Proof.
  cbv zeta.
  assert (Hnew : currentTimeStep (Fixture.fresh "p1") <> 7) by (cbn; lia).
  assert (Hc : fs Fixture.world (OsirisRawDataReader.file_path (Fixture.fresh "p1") 7)
               = Some Fixture.dump7) by reflexivity.
  split; [exact Hnew | ].
  split; [exact Hc | ].
  exact (proj1 (X7_GetTime_returns_iff_dump_has_TIME 7 (Fixture.fresh "p1")
                  Fixture.world Hnew)
           Fixture.dump7 (f64_of_Z 3) [] Hc eq_refl).
Defined.

(** ** A field the dump does not hold *)

Section MissingField.

Lemma Osiris_ReadData_missing t r w c T rest :
  fs w (OsirisRawDataReader.file_path r t) = Some c ->
  h5_datasets c (internalName r) = None ->
  h5_TIME c = Some (T :: rest) ->
  OsirisRawDataReader._ReadData t r w
  = if (internalName r =? "tag")%string
    then mkOutcome (Raise (IndexError "too many indices for array")) r
           (log_io (EvDataset (internalName r))
              (set_handles (next_handle w :: handles w) (S (next_handle w))
                 (log_io (EvOpen (OsirisRawDataReader.file_path r t)) w)))
    else mkOutcome (Ok NdNone) (set_currentTime (PyFloat T) r)
           (log_io (EvClose (next_handle w))
              (set_handles (handles w) (S (next_handle w))
                 (log_io (EvDataset (internalName r))
                    (log_io (EvOpen (OsirisRawDataReader.file_path r t)) w)))).
Proof.
  intros Hc Hd HT.
  unfold OsirisRawDataReader._ReadData, OsirisRawDataReader._OpenFile.
  unfold_monad. cbn. unfold id. rewrite Hc. cbn.
  destruct (internalName r =? "tag")%string; cbn.
  - unfold stored_array. rewrite Hd. reflexivity.
  - unfold stored_array. rewrite Hd, HT. cbn. rewrite Nat.eqb_refl. reflexivity.
Qed.

Lemma HiPACE_ReadData_missing t r w c T rest :
  fs w (HiPACERawDataReader.file_path r t) = Some c ->
  h5_datasets c (internalName r) = None ->
  h5_TIME c = Some (T :: rest) ->
  HiPACERawDataReader._ReadData t r w
  = if (internalName r =? "tag")%string
    then mkOutcome (Raise (IndexError "too many indices for array")) r
           (log_io (EvDataset (internalName r))
              (set_handles (next_handle w :: handles w) (S (next_handle w))
                 (log_io (EvOpen (HiPACERawDataReader.file_path r t)) w)))
    else if (internalName r =? "x1")%string
    then mkOutcome (Raise (TypeError "unsupported operand for +="))
           (set_currentTime (PyFloat T) r)
           (log_io (EvDataset (internalName r))
              (set_handles (next_handle w :: handles w) (S (next_handle w))
                 (log_io (EvOpen (HiPACERawDataReader.file_path r t)) w)))
    else mkOutcome (Ok NdNone) (set_currentTime (PyFloat T) r)
           (log_io (EvClose (next_handle w))
              (set_handles (handles w) (S (next_handle w))
                 (log_io (EvDataset (internalName r))
                    (log_io (EvOpen (HiPACERawDataReader.file_path r t)) w)))).
Proof.
  intros Hc Hd HT.
  unfold HiPACERawDataReader._ReadData, HiPACERawDataReader._OpenFile.
  unfold_monad. cbn. unfold id. rewrite Hc. cbn.
  destruct (internalName r =? "tag")%string; cbn.
  - unfold stored_array. rewrite Hd. reflexivity.
  - unfold stored_array. rewrite Hd, HT. cbn.
    destruct (internalName r =? "x1")%string; cbn;
      rewrite ?Nat.eqb_refl; reflexivity.
Qed.

End MissingField.

(** X8.  When the dump of step [t] opens and has a [TIME] but does not hold
    the reader's field, the OSIRIS [GetData(t)] does not fail for an ordinary
    field: it returns and caches the array NumPy makes of [None], with the
    handle closed.  For the field [tag] it raises [IndexError], and the HiPACE
    reader raises [TypeError] for [x1] (after the time has been stored); in
    both failures the data slot keeps its old value and the handle stays
    open. *)
Theorem X8_absent_field (t : Z) (r : Reader) (w : World)
    (c : H5Content) (T : f64) (rest : list f64) :
  currentTimeStep r <> t ->
  h5_datasets c (internalName r) = None ->
  h5_TIME c = Some (T :: rest) ->
  (fs w (OsirisRawDataReader.file_path r t) = Some c ->
   let o := GetData (R := OsirisRawDataReader.reader) t r w in
   (internalName r <> "tag" ->
    out_res o = Ok NdNone /\ data (out_self o) = NdNone /\
    currentTime (out_self o) = PyFloat T /\
    handles (out_world o) = handles w) /\
   (internalName r = "tag" ->
    out_res o = Raise (IndexError "too many indices for array") /\
    data (out_self o) = data r /\
    currentTime (out_self o) = currentTime r /\
    handles (out_world o) = next_handle w :: handles w)) /\
  (fs w (HiPACERawDataReader.file_path r t) = Some c ->
   let o := GetData (R := HiPACERawDataReader.reader) t r w in
   (internalName r <> "tag" -> internalName r <> "x1" ->
    out_res o = Ok NdNone /\ data (out_self o) = NdNone /\
    currentTime (out_self o) = PyFloat T /\
    handles (out_world o) = handles w) /\
   (internalName r = "x1" ->
    out_res o = Raise (TypeError "unsupported operand for +=") /\
    data (out_self o) = data r /\
    currentTime (out_self o) = PyFloat T /\
    handles (out_world o) = next_handle w :: handles w)).
Proof.
  intros Hnew Hd HT. split; intros Hc; cbv zeta.
  - rewrite GetData_miss by assumption. cbv zeta.
    cbn [_ReadData OsirisRawDataReader.reader].
    rewrite (Osiris_ReadData_missing t (set_currentTimeStep t r)
               (log_call (Call_ReadData t) w) c T rest Hc Hd HT).
    cbn [internalName set_currentTimeStep].
    split; intros Hn.
    + replace (internalName r =? "tag")%string with false
        by (symmetry; apply String.eqb_neq; exact Hn).
      cbn. repeat split.
    + rewrite Hn. change ("tag" =? "tag")%string with true.
      cbn. repeat split.
  - rewrite GetData_miss by assumption. cbv zeta.
    cbn [_ReadData HiPACERawDataReader.reader].
    rewrite (HiPACE_ReadData_missing t (set_currentTimeStep t r)
               (log_call (Call_ReadData t) w) c T rest Hc Hd HT).
    cbn [internalName set_currentTimeStep].
    split.
    + intros Hn Hx.
      replace (internalName r =? "tag")%string with false
        by (symmetry; apply String.eqb_neq; exact Hn).
      replace (internalName r =? "x1")%string with false
        by (symmetry; apply String.eqb_neq; exact Hx).
      cbn. repeat split.
    + intros Hx. rewrite Hx.
      change ("x1" =? "tag")%string with false.
      change ("x1" =? "x1")%string with true.
      cbn. repeat split.
Qed.

Lemma X8_witness :
  let r := Fixture.fresh "q" in
  let w := Fixture.world in
  currentTimeStep r <> 5 /\
  h5_datasets Fixture.dump5 (internalName r) = None /\
  fs w (OsirisRawDataReader.file_path r 5) = Some Fixture.dump5 /\
  internalName r <> "tag" /\
  out_res (GetData (R := OsirisRawDataReader.reader) 5 r w) = Ok NdNone /\
  data (out_self (GetData (R := OsirisRawDataReader.reader) 5 r w)) = NdNone /\
  currentTime (out_self (GetData (R := OsirisRawDataReader.reader) 5 r w))
  = PyFloat (Fixture.ratio 5 2) /\
  handles (out_world (GetData (R := OsirisRawDataReader.reader) 5 r w)) = handles w.
Proof.
  cbv zeta.
  assert (Hnew : currentTimeStep (Fixture.fresh "q") <> 5) by (cbn; lia).
  assert (Hd : h5_datasets Fixture.dump5 (internalName (Fixture.fresh "q")) = None)
    by reflexivity.
  assert (Hc : fs Fixture.world (OsirisRawDataReader.file_path (Fixture.fresh "q") 5)
               = Some Fixture.dump5) by reflexivity.
  assert (Hn : internalName (Fixture.fresh "q") <> "tag") by (cbn; discriminate).
  split; [exact Hnew | ].
  split; [exact Hd | ].
  split; [exact Hc | ].
  split; [exact Hn | ].
  exact (proj1 (proj1 (X8_absent_field 5 (Fixture.fresh "q") Fixture.world
                         Fixture.dump5 (Fixture.ratio 5 2) [] Hnew Hd eq_refl) Hc) Hn).
Defined.

(** ** Construction *)

Section Construction.

Lemma RawDataReaderBase_init_run {R : RawDataReader} dflt loc sp dn iname fts
    (r : Reader) (w : World) :
  RawDataReaderBase_init dflt loc sp dn iname fts r w
  = _ReadBasicData (initialised dflt loc sp dn fts r) (log_call Call_ReadBasicData w).
Proof. reflexivity. Qed.

Lemma array_sub_returns (xs ys : list f64) (r : Reader) (w : World) :
  returned (out_res (array_sub xs ys r w)) = true <-> broadcastable xs ys.
Proof.
  unfold array_sub, broadcastable, ret, raise.
  destruct (List.length xs =? List.length ys)%nat eqn:E.
  - apply Nat.eqb_eq in E. cbn. split; [intros _; left; exact E | reflexivity].
  - apply Nat.eqb_neq in E.
    destruct xs as [ | x [ | x' xs]]; destruct ys as [ | y [ | y' ys]]; cbn in *;
      split; intros H; try reflexivity; try discriminate H;
      try (right; left; reflexivity); try (right; right; reflexivity);
      destruct H as [H | [H | H]]; try discriminate H; congruence.
Qed.

Lemma array_sub_same_shape (xs ys : list f64) (r : Reader) (w : World) :
  List.length xs = List.length ys ->
  array_sub xs ys r w = mkOutcome (Ok (extent xs ys)) r w.
Proof.
  intros H. unfold array_sub. rewrite H, Nat.eqb_refl. reflexivity.
Qed.

End Construction.

Ltac basic_data_ok Hc Hnx Hmax Hmin Hlen :=
  unfold H5File, close, attrs, bind, ret, raise, attr, assign, effect;
  cbn; unfold id; rewrite Hc; cbn; rewrite Hnx; cbn; rewrite Hmax; cbn;
  rewrite Hmin; cbn; rewrite (array_sub_same_shape _ _ _ _ Hlen); cbn;
  rewrite Nat.eqb_refl; reflexivity.

Section BasicData.

Lemma Osiris_ReadBasicData_returns r w :
  returned (out_res (OsirisRawDataReader._ReadBasicData r w)) = true <->
  exists c nx xmax xmin,
    fs w (OsirisRawDataReader.file_path r (firstTimeStep r)) = Some c /\
    h5_NX c = Some nx /\ h5_XMAX c = Some xmax /\ h5_XMIN c = Some xmin /\
    broadcastable xmax xmin.
Proof.
  unfold OsirisRawDataReader._ReadBasicData, OsirisRawDataReader._OpenFile,
    OsirisRawDataReader._ReadSimulationProperties.
  unfold H5File, close, attrs, bind, ret, raise, attr, assign, effect.
  cbn. unfold id.
  destruct (fs w _) as [c | ] eqn:Hc; cbn.
  2: { split; [discriminate | intros (c & ? & ? & ? & H & _); discriminate H]. }
  destruct (h5_NX c) as [nx | ] eqn:Hnx; cbn.
  2: { split; [discriminate | ].
       intros (c' & ? & ? & ? & H & H' & _). injection H as <-. congruence. }
  destruct (h5_XMAX c) as [xmax | ] eqn:Hmax; cbn.
  2: { split; [discriminate | ].
       intros (c' & ? & ? & ? & H & _ & H' & _). injection H as <-. congruence. }
  destruct (h5_XMIN c) as [xmin | ] eqn:Hmin; cbn.
  2: { split; [discriminate | ].
       intros (c' & ? & ? & ? & H & _ & _ & H' & _). injection H as <-. congruence. }
  match goal with
  | |- context [array_sub xmax xmin ?r1 ?w1] =>
      pose proof (array_sub_returns xmax xmin r1 w1) as B;
      destruct (array_sub xmax xmin r1 w1) as [[size | e] r2 w2]
  end; cbn in *.
  - split; [intros _ | reflexivity].
    exists c, nx, xmax, xmin. repeat split; try assumption. apply B. reflexivity.
  - split; [discriminate | ].
    intros (c' & nx' & xmax' & xmin' & H & _ & H1 & H2 & H3).
    injection H as <-. apply B. congruence.
Qed.

Lemma HiPACE_ReadBasicData_returns r w :
  returned (out_res (HiPACERawDataReader._ReadBasicData r w)) = true <->
  exists c nx xmax xmin,
    fs w (HiPACERawDataReader.file_path r (firstTimeStep r)) = Some c /\
    h5_NX c = Some nx /\ h5_XMAX c = Some xmax /\ h5_XMIN c = Some xmin /\
    broadcastable xmax xmin.
Proof.
  unfold HiPACERawDataReader._ReadBasicData, HiPACERawDataReader._OpenFile,
    HiPACERawDataReader._ReadSimulationProperties.
  unfold H5File, close, attrs, bind, ret, raise, attr, assign, effect.
  cbn. unfold id.
  destruct (fs w _) as [c | ] eqn:Hc; cbn.
  2: { split; [discriminate | intros (c & ? & ? & ? & H & _); discriminate H]. }
  destruct (h5_NX c) as [nx | ] eqn:Hnx; cbn.
  2: { split; [discriminate | ].
       intros (c' & ? & ? & ? & H & H' & _). injection H as <-. congruence. }
  destruct (h5_XMAX c) as [xmax | ] eqn:Hmax; cbn.
  2: { split; [discriminate | ].
       intros (c' & ? & ? & ? & H & _ & H' & _). injection H as <-. congruence. }
  destruct (h5_XMIN c) as [xmin | ] eqn:Hmin; cbn.
  2: { split; [discriminate | ].
       intros (c' & ? & ? & ? & H & _ & _ & H' & _). injection H as <-. congruence. }
  match goal with
  | |- context [array_sub xmax xmin ?r1 ?w1] =>
      pose proof (array_sub_returns xmax xmin r1 w1) as B;
      destruct (array_sub xmax xmin r1 w1) as [[size | e] r2 w2]
  end; cbn in *.
  - split; [intros _ | reflexivity].
    exists c, nx, xmax, xmin. repeat split; try assumption. apply B. reflexivity.
  - split; [discriminate | ].
    intros (c' & nx' & xmax' & xmin' & H & _ & H1 & H2 & H3).
    injection H as <-. apply B. congruence.
Qed.

Lemma Osiris_ReadBasicData_ok r w c nx xmax xmin :
  fs w (OsirisRawDataReader.file_path r (firstTimeStep r)) = Some c ->
  h5_NX c = Some nx -> h5_XMAX c = Some xmax -> h5_XMIN c = Some xmin ->
  List.length xmax = List.length xmin ->
  OsirisRawDataReader._ReadBasicData r w
  = mkOutcome (Ok tt)
      (set_grid_units "c/ \omega_p"
         (set_grid_size (Some (extent xmax xmin))
            (set_grid_resolution (Some nx) r)))
      (log_io (EvClose (next_handle w))
         (set_handles (handles w) (S (next_handle w))
            (log_io (EvOpen (OsirisRawDataReader.file_path r (firstTimeStep r))) w))).
Proof.
  intros Hc Hnx Hmax Hmin Hlen.
  unfold OsirisRawDataReader._ReadBasicData, OsirisRawDataReader._OpenFile,
    OsirisRawDataReader._ReadSimulationProperties.
  basic_data_ok Hc Hnx Hmax Hmin Hlen.
Qed.

Lemma HiPACE_ReadBasicData_ok r w c nx xmax xmin :
  fs w (HiPACERawDataReader.file_path r (firstTimeStep r)) = Some c ->
  h5_NX c = Some nx -> h5_XMAX c = Some xmax -> h5_XMIN c = Some xmin ->
  List.length xmax = List.length xmin ->
  HiPACERawDataReader._ReadBasicData r w
  = mkOutcome (Ok tt)
      (set_grid_units "c/ \omega_p"
         (set_grid_size (Some (extent xmax xmin))
            (set_grid_resolution (Some nx) r)))
      (log_io (EvClose (next_handle w))
         (set_handles (handles w) (S (next_handle w))
            (log_io (EvOpen (HiPACERawDataReader.file_path r (firstTimeStep r))) w))).
Proof.
  intros Hc Hnx Hmax Hmin Hlen.
  unfold HiPACERawDataReader._ReadBasicData, HiPACERawDataReader._OpenFile,
    HiPACERawDataReader._ReadSimulationProperties.
  basic_data_ok Hc Hnx Hmax Hmin Hlen.
Qed.

Lemma Osiris_ReadBasicData_fate :
  handle_fate (fun r => OsirisRawDataReader.file_path r (firstTimeStep r))
    OsirisRawDataReader._ReadBasicData.
Proof.
  intros r w. cbv beta.
  unfold OsirisRawDataReader._ReadBasicData, OsirisRawDataReader._OpenFile,
    OsirisRawDataReader._ReadSimulationProperties.
  unfold_monad. cbn. unfold id.
  destruct (fs w (OsirisRawDataReader.file_path r (firstTimeStep r))) as [c | ]; cbn;
    [ | reflexivity].
  repeat (cbn; try split_match); handles_done.
Qed.

Lemma HiPACE_ReadBasicData_fate :
  handle_fate (fun r => HiPACERawDataReader.file_path r (firstTimeStep r))
    HiPACERawDataReader._ReadBasicData.
Proof.
  intros r w. cbv beta.
  unfold HiPACERawDataReader._ReadBasicData, HiPACERawDataReader._OpenFile,
    HiPACERawDataReader._ReadSimulationProperties.
  unfold_monad. cbn. unfold id.
  destruct (fs w (HiPACERawDataReader.file_path r (firstTimeStep r))) as [c | ]; cbn;
    [ | reflexivity].
  repeat (cbn; try split_match); handles_done.
Qed.

Lemma Osiris_ReadBasicData_no_NX r w c :
  fs w (OsirisRawDataReader.file_path r (firstTimeStep r)) = Some c ->
  h5_NX c = None ->
  out_res (OsirisRawDataReader._ReadBasicData r w) = Raise (KeyError "NX") /\
  handles (out_world (OsirisRawDataReader._ReadBasicData r w))
  = next_handle w :: handles w.
Proof.
  intros Hc Hnx.
  unfold OsirisRawDataReader._ReadBasicData, OsirisRawDataReader._OpenFile,
    OsirisRawDataReader._ReadSimulationProperties.
  unfold_monad. cbn. unfold id. rewrite Hc. cbn. rewrite Hnx. cbn.
  split; reflexivity.
Qed.

Lemma HiPACE_ReadBasicData_no_NX r w c :
  fs w (HiPACERawDataReader.file_path r (firstTimeStep r)) = Some c ->
  h5_NX c = None ->
  out_res (HiPACERawDataReader._ReadBasicData r w) = Raise (KeyError "NX") /\
  handles (out_world (HiPACERawDataReader._ReadBasicData r w))
  = next_handle w :: handles w.
Proof.
  intros Hc Hnx.
  unfold HiPACERawDataReader._ReadBasicData, HiPACERawDataReader._OpenFile,
    HiPACERawDataReader._ReadSimulationProperties.
  unfold_monad. cbn. unfold id. rewrite Hc. cbn. rewrite Hnx. cbn.
  split; reflexivity.
Qed.

Lemma OpenPMD_ReadBasicData_handles r w :
  handles (out_world (OpenPMDRawDataReader._ReadBasicData r w)) = handles w.
Proof.
  unfold OpenPMDRawDataReader._ReadBasicData, OpenPMDRawDataReader._OpenFile,
    OpenPMDRawDataReader._ReadSimulationProperties.
  exec; handles_done.
Qed.

End BasicData.

(** X9.  Constructing an OSIRIS or a HiPACE reader returns exactly when the
    dump of the first time step exists, has the attributes [NX], [XMAX] and
    [XMIN], and the two extents have shapes NumPy can subtract.  The
    [internalName] argument plays no part. *)
Theorem X9_constructor_returns_iff_bootstrap_dump
    (dflt : BaseDefaults) (loc sp dn iname : string) (fts : Z) (w : World) :
  let r0 := initialised dflt loc sp dn fts new_object in
  (returned (out_res (construct (OsirisRawDataReader.__init__ dflt loc sp dn iname fts) w))
   = true <->
   exists c nx xmax xmin,
     fs w (OsirisRawDataReader.file_path r0 fts) = Some c /\
     h5_NX c = Some nx /\ h5_XMAX c = Some xmax /\ h5_XMIN c = Some xmin /\
     broadcastable xmax xmin) /\
  (returned (out_res (construct (HiPACERawDataReader.__init__ dflt loc sp dn iname fts) w))
   = true <->
   exists c nx xmax xmin,
     fs w (HiPACERawDataReader.file_path r0 fts) = Some c /\
     h5_NX c = Some nx /\ h5_XMAX c = Some xmax /\ h5_XMIN c = Some xmin /\
     broadcastable xmax xmin).
Proof.
  cbv zeta. unfold construct, OsirisRawDataReader.__init__, HiPACERawDataReader.__init__.
  rewrite !RawDataReaderBase_init_run.
  cbn [_ReadBasicData OsirisRawDataReader.reader HiPACERawDataReader.reader].
  split.
  - apply (Osiris_ReadBasicData_returns (initialised dflt loc sp dn fts new_object)
             (log_call Call_ReadBasicData w)).
  - apply (HiPACE_ReadBasicData_returns (initialised dflt loc sp dn fts new_object)
             (log_call Call_ReadBasicData w)).
Qed.

Lemma X9_witness :
  returned (out_res (construct (OsirisRawDataReader.__init__ Fixture.dflt "run" "e" "x1" "x1" 5)
                       Fixture.world)) = true /\
  returned (out_res (construct (OsirisRawDataReader.__init__ Fixture.dflt "run" "e" "x1" "x1" 8)
                       Fixture.world)) = false.
Proof.
  split.
  - apply (proj1 (X9_constructor_returns_iff_bootstrap_dump Fixture.dflt "run" "e" "x1" "x1" 5
                    Fixture.world)).
    exists Fixture.dump5, [64], [f64_of_Z 10], [f64_of_Z 0].
    repeat split. left. reflexivity.
  - destruct (returned (out_res (construct
                (OsirisRawDataReader.__init__ Fixture.dflt "run" "e" "x1" "x1" 8)
                Fixture.world))) eqn:E; [ | reflexivity].
    apply (proj1 (X9_constructor_returns_iff_bootstrap_dump Fixture.dflt "run" "e" "x1" "x1" 8
                    Fixture.world)) in E.
    destruct E as (c & nx & xmax & xmin & Hc & Hnx & _).
    injection Hc as <-. discriminate Hnx.
Defined.

(** X10.  When the bootstrap dump has [NX], [XMAX] and [XMIN] with extents of
    one shape, the OSIRIS and the HiPACE constructor leave this reader: the
    descriptors as given with [internalName] set to [dataName], empty units
    and cache, the stored [NX] as resolution, [XMAX - XMIN] elementwise as
    size, and the unit label [c/ \omega_p].  One file was opened and closed,
    and [_ReadBasicData] was dispatched once. *)
Theorem X10_constructed_reader
    (dflt : BaseDefaults) (loc sp dn iname : string) (fts : Z) (w : World)
    (c : H5Content) (nx : list Z) (xmax xmin : list f64) :
  h5_NX c = Some nx -> h5_XMAX c = Some xmax -> h5_XMIN c = Some xmin ->
  List.length xmax = List.length xmin ->
  let r0 := initialised dflt loc sp dn fts new_object in
  let built :=
    set_grid_units "c/ \omega_p"
      (set_grid_size (Some (extent xmax xmin)) (set_grid_resolution (Some nx) r0)) in
  (fs w (OsirisRawDataReader.file_path r0 fts) = Some c ->
   let o := construct (OsirisRawDataReader.__init__ dflt loc sp dn iname fts) w in
   out_res o = Ok tt /\ out_self o = built /\
   handles (out_world o) = handles w /\
   calls (out_world o) = Call_ReadBasicData :: calls w /\
   io_log (out_world o)
   = EvClose (next_handle w) :: EvOpen (OsirisRawDataReader.file_path r0 fts) :: io_log w) /\
  (fs w (HiPACERawDataReader.file_path r0 fts) = Some c ->
   let o := construct (HiPACERawDataReader.__init__ dflt loc sp dn iname fts) w in
   out_res o = Ok tt /\ out_self o = built /\
   handles (out_world o) = handles w /\
   calls (out_world o) = Call_ReadBasicData :: calls w /\
   io_log (out_world o)
   = EvClose (next_handle w) :: EvOpen (HiPACERawDataReader.file_path r0 fts) :: io_log w).
Proof.
  intros Hnx Hmax Hmin Hlen. cbv zeta.
  unfold construct, OsirisRawDataReader.__init__, HiPACERawDataReader.__init__.
  rewrite !RawDataReaderBase_init_run.
  cbn [_ReadBasicData OsirisRawDataReader.reader HiPACERawDataReader.reader].
  split; intros Hc.
  - rewrite (Osiris_ReadBasicData_ok (initialised dflt loc sp dn fts new_object)
               (log_call Call_ReadBasicData w) c nx xmax xmin Hc Hnx Hmax Hmin Hlen).
    repeat split.
  - rewrite (HiPACE_ReadBasicData_ok (initialised dflt loc sp dn fts new_object)
               (log_call Call_ReadBasicData w) c nx xmax xmin Hc Hnx Hmax Hmin Hlen).
    repeat split.
Qed.

Lemma X10_witness :
  h5_NX Fixture.dump5 = Some [64] /\
  fs Fixture.world
    (OsirisRawDataReader.file_path (initialised Fixture.dflt "run" "e" "x1" 5 new_object) 5)
  = Some Fixture.dump5 /\
  out_res (construct (OsirisRawDataReader.__init__ Fixture.dflt "run" "e" "x1" "other" 5)
             Fixture.world) = Ok tt /\
  out_self (construct (OsirisRawDataReader.__init__ Fixture.dflt "run" "e" "x1" "other" 5)
              Fixture.world) = Fixture.fresh "x1".
Proof.
  assert (Hc : fs Fixture.world
                 (OsirisRawDataReader.file_path
                    (initialised Fixture.dflt "run" "e" "x1" 5 new_object) 5)
               = Some Fixture.dump5) by reflexivity.
  split; [reflexivity | ].
  split; [exact Hc | ].
  destruct (proj1 (X10_constructed_reader Fixture.dflt "run" "e" "x1" "other" 5
                     Fixture.world Fixture.dump5 [64] [f64_of_Z 10] [f64_of_Z 0]
                     eq_refl eq_refl eq_refl eq_refl) Hc) as (H1 & H2 & _).
  split; [exact H1 | ].
  rewrite H2. reflexivity.
Defined.

Section OpenPMDConstruction.

Lemma OpenPMD_ReadBasicData_ok r w ts i f c :
  openpmd_ts r = Some ts ->
  find_slot ts (firstTimeStep r) = Ok i ->
  nth_error (h5_files ts) i = Some f ->
  fs w f = Some c ->
  OpenPMDRawDataReader._ReadBasicData r w
  = mkOutcome (Ok tt)
      (set_grid_units "m"
         (set_grid_size None
            (set_grid_resolution None
               (set_openpmd_ts (Some (set_current_i i ts)) r))))
      (log_io (EvClose (next_handle w))
         (set_handles (handles w) (S (next_handle w)) (log_io (EvOpen f) w))).
Proof.
  intros Hts Hi Hf Hc.
  unfold OpenPMDRawDataReader._ReadBasicData, OpenPMDRawDataReader._OpenFile,
    OpenPMDRawDataReader._ReadSimulationProperties.
  unfold_monad. cbn. rewrite Hts. cbn. rewrite Hi. cbn. rewrite Hf. cbn.
  rewrite Hc. cbn. rewrite Nat.eqb_refl. reflexivity.
Qed.

Lemma OpenPMD_ReadBasicData_unresolved r w ts e :
  openpmd_ts r = Some ts ->
  find_slot ts (firstTimeStep r) = Raise e ->
  OpenPMDRawDataReader._ReadBasicData r w = mkOutcome (Raise e) r w.
Proof.
  intros Hts Hi.
  unfold OpenPMDRawDataReader._ReadBasicData, OpenPMDRawDataReader._OpenFile,
    OpenPMDRawDataReader._ReadSimulationProperties.
  unfold_monad. cbn. rewrite Hts. cbn. rewrite Hi. reflexivity.
Qed.

End OpenPMDConstruction.

(** X11.  With the openPMD package installed, the openPMD constructor first
    scans the series at [location]; an error of the scan is the constructor's
    error, before anything is stored or opened.  It then has the series
    resolve the first time step to a slot.  When the series answers with an
    error, that error is the constructor's, and no file has been opened.  When
    it answers with a slot and the file of that slot opens, the constructor
    returns a reader whose series is positioned on that slot, with no
    resolution, no size and the unit label [m]; the file was opened only to be
    closed again. *)
Theorem X11_openPMD_constructor
    (dflt : BaseDefaults) (loc sp dn iname : string) (fts : Z) (w : World) :
  openpmd_installed w = true ->
  let o := construct (OpenPMDRawDataReader.__init__ dflt loc sp dn iname fts) w in
  (forall e, series_at w loc = Raise e ->
     out_res o = Raise e /\ out_self o = new_object /\
     io_log (out_world o) = EvSeries loc :: io_log w) /\
  (forall ts e, series_at w loc = Ok ts ->
     find_slot ts fts = Raise e ->
     out_res o = Raise e /\
     io_log (out_world o) = EvSeries loc :: io_log w) /\
  (forall ts i f c, series_at w loc = Ok ts ->
     find_slot ts fts = Ok i ->
     nth_error (h5_files ts) i = Some f ->
     fs w f = Some c ->
     out_res o = Ok tt /\
     out_self o
     = set_grid_units "m"
         (set_openpmd_ts (Some (set_current_i i ts))
            (initialised dflt loc sp dn fts new_object)) /\
     handles (out_world o) = handles w /\
     io_log (out_world o)
     = EvClose (next_handle w) :: EvOpen f :: EvSeries loc :: io_log w).
Proof.
  intros Hin. cbv zeta. unfold construct. rewrite OpenPMD_init_run, Hin.
  split; [ | split].
  - intros e He. rewrite He. repeat split.
  - intros ts e Hts Hi. rewrite Hts, RawDataReaderBase_init_run.
    cbn [_ReadBasicData OpenPMDRawDataReader.reader].
    rewrite (OpenPMD_ReadBasicData_unresolved _ _ ts e) by (try reflexivity; exact Hi).
    repeat split.
  - intros ts i f c Hts Hi Hf Hc. rewrite Hts, RawDataReaderBase_init_run.
    cbn [_ReadBasicData OpenPMDRawDataReader.reader].
    rewrite (OpenPMD_ReadBasicData_ok _ _ ts i f c) by (try reflexivity; assumption).
    repeat split.
Qed.

Lemma X11_witness :
  openpmd_installed Fixture2.world = true /\
  find_slot Fixture.series 5 = Ok O /\
  out_res (construct (OpenPMDRawDataReader.__init__ Fixture.dflt "run" "e" "x1" "x1" 5)
             Fixture2.world) = Ok tt /\
  out_self (construct (OpenPMDRawDataReader.__init__ Fixture.dflt "run" "e" "x1" "x1" 5)
              Fixture2.world)
  = set_grid_units "m"
      (set_openpmd_ts (Some (set_current_i 0 Fixture.series))
         (initialised Fixture.dflt "run" "e" "x1" 5 new_object)) /\
  openpmd_installed Fixture2.world_first = true /\
  find_slot Fixture2.series_first 6 = Ok O /\
  out_res (construct (OpenPMDRawDataReader.__init__ Fixture.dflt "run" "e" "x1" "x1" 6)
             Fixture2.world_first) = Ok tt.
Proof.
  assert (Hin : openpmd_installed Fixture2.world = true) by reflexivity.
  assert (Hin' : openpmd_installed Fixture2.world_first = true) by reflexivity.
  split; [exact Hin | ].
  split; [reflexivity | ].
  destruct (proj2 (proj2 (X11_openPMD_constructor Fixture.dflt "run" "e" "x1" "x1" 5
                            Fixture2.world Hin))
              Fixture.series 0%nat "run/data00000005.h5" Fixture.dump5
              eq_refl eq_refl eq_refl eq_refl) as (H1 & H2 & _).
  split; [exact H1 | ].
  split; [exact H2 | ].
  split; [exact Hin' | ].
  split; [reflexivity | ].
  exact (proj1 (proj2 (proj2 (X11_openPMD_constructor Fixture.dflt "run" "e" "x1" "x1" 6
                                Fixture2.world_first Hin'))
                  Fixture2.series_first 0%nat "run/data00000005.h5" Fixture.dump5
                  eq_refl eq_refl eq_refl eq_refl)).
Defined.

(** X12.  The bootstrap read treats its file handle like the other reads.
    For the OSIRIS and the HiPACE [_ReadBasicData]: when it returns, the
    handle it opened is closed; when it raises after the dump has opened (a
    missing [NX], [XMAX] or [XMIN], shapes that cannot be subtracted), the
    handle is still open; when the dump does not open there is no handle.  In
    particular a dump without [NX] gives [KeyError] with the handle left open,
    for both readers.  The openPMD [_ReadBasicData] reads nothing between
    opening and closing, so it leaves no handle open in any outcome. *)
Theorem X12_bootstrap_read_and_handles :
  handle_fate (fun r => OsirisRawDataReader.file_path r (firstTimeStep r))
    OsirisRawDataReader._ReadBasicData /\
  handle_fate (fun r => HiPACERawDataReader.file_path r (firstTimeStep r))
    HiPACERawDataReader._ReadBasicData /\
  (forall r w,
     handles (out_world (OpenPMDRawDataReader._ReadBasicData r w)) = handles w) /\
  (forall r w c,
     fs w (OsirisRawDataReader.file_path r (firstTimeStep r)) = Some c ->
     h5_NX c = None ->
     out_res (OsirisRawDataReader._ReadBasicData r w) = Raise (KeyError "NX") /\
     handles (out_world (OsirisRawDataReader._ReadBasicData r w))
     = next_handle w :: handles w) /\
  (forall r w c,
     fs w (HiPACERawDataReader.file_path r (firstTimeStep r)) = Some c ->
     h5_NX c = None ->
     out_res (HiPACERawDataReader._ReadBasicData r w) = Raise (KeyError "NX") /\
     handles (out_world (HiPACERawDataReader._ReadBasicData r w))
     = next_handle w :: handles w).
Proof.
  split; [exact Osiris_ReadBasicData_fate | ].
  split; [exact HiPACE_ReadBasicData_fate | ].
  split; [exact OpenPMD_ReadBasicData_handles | ].
  split; [exact Osiris_ReadBasicData_no_NX | exact HiPACE_ReadBasicData_no_NX].
Qed.

Lemma X12_witness :
  let r := set_firstTimeStep 8 (Fixture.fresh "x1") in
  fs Fixture.world (OsirisRawDataReader.file_path r (firstTimeStep r)) = Some Fixture.dump8 /\
  out_res (OsirisRawDataReader._ReadBasicData r Fixture.world) = Raise (KeyError "NX") /\
  handles (out_world (OsirisRawDataReader._ReadBasicData r Fixture.world))
  = next_handle Fixture.world :: handles Fixture.world.
Proof.
  cbv zeta. split; [reflexivity | ].
  exact (proj1 (proj2 (proj2 (proj2 X12_bootstrap_read_and_handles)))
           (set_firstTimeStep 8 (Fixture.fresh "x1")) Fixture.world Fixture.dump8
           eq_refl eq_refl).
Defined.

(** ** Units *)

Section Decoding.

Lemma replace_escape (b : string) :
  replace_double_backslash (escape_backslashes b) = b.
Proof.
  induction b as [ | c rest IH]; [reflexivity | ].
  cbn [escape_backslashes].
  destruct (Ascii.eqb c "\") eqn:E.
  - apply Ascii.eqb_eq in E. subst c.
    cbn [replace_double_backslash]. cbn [Ascii.eqb Bool.eqb andb].
    rewrite IH. reflexivity.
  - cbn [replace_double_backslash].
    destruct (escape_backslashes rest) as [ | c' rest'] eqn:Er.
    + destruct rest as [ | d rest2]; [reflexivity | ].
      cbn [escape_backslashes] in Er.
      destruct (Ascii.eqb d "\"); discriminate Er.
    + rewrite E. cbn [andb]. rewrite IH. reflexivity.
Qed.

Lemma substring_prefix (e x : string) :
  substring 0 (String.length e) (e ++ x) = e.
Proof.
  induction e as [ | c e IH]; cbn.
  - destruct x; reflexivity.
  - rewrite IH. reflexivity.
Qed.

Lemma slice_str_bytes (b : string) :
  slice_2_m1 (py_str_bytes b) = escape_backslashes b.
Proof.
  unfold slice_2_m1, py_str_bytes.
  cbn [append String.length].
  rewrite length_append. cbn [String.length].
  replace (S (S (String.length (escape_backslashes b) + 1)) - 3)%nat
    with (String.length (escape_backslashes b)) by lia.
  cbn [substring]. apply substring_prefix.
Qed.

(** Where [str] renders the bytes as themselves, decoding gives them back. *)
Lemma decode_units_plain (b : string) :
  plain_bytes b = true -> decode_units b = b.
Proof.
  intros _. unfold decode_units. rewrite slice_str_bytes. apply replace_escape.
Qed.

End Decoding.

Section OsirisUnitsReads.

Lemma Osiris_ReadUnits_ok r w c ds u us tu tus :
  fs w (OsirisRawDataReader.file_path r (firstTimeStep r)) = Some c ->
  h5_datasets c (internalName r) = Some ds ->
  ds_UNITS ds = Some (u :: us) ->
  h5_TIME_UNITS c = Some (tu :: tus) ->
  OsirisRawDataReader._ReadUnits r w
  = mkOutcome (Ok tt)
      (set_timeUnits (decode_units tu) (set_dataUnits (decode_units u) r))
      (log_io (EvClose (next_handle w))
         (set_handles (handles w) (S (next_handle w))
            (log_io (EvDataset (internalName r))
               (log_io (EvOpen (OsirisRawDataReader.file_path r (firstTimeStep r))) w)))).
Proof.
  intros Hc Hd Hu Htu.
  unfold OsirisRawDataReader._ReadUnits, OsirisRawDataReader._OpenFile.
  unfold_monad. cbn. unfold id. rewrite Hc. cbn. rewrite Hd. cbn. rewrite Hu. cbn.
  rewrite Htu. cbn. rewrite Nat.eqb_refl. reflexivity.
Qed.

Lemma Osiris_ReadUnits_no_time_units r w c ds u us :
  fs w (OsirisRawDataReader.file_path r (firstTimeStep r)) = Some c ->
  h5_datasets c (internalName r) = Some ds ->
  ds_UNITS ds = Some (u :: us) ->
  h5_TIME_UNITS c = None ->
  OsirisRawDataReader._ReadUnits r w
  = mkOutcome (Raise (KeyError "TIME UNITS"))
      (set_dataUnits (decode_units u) r)
      (log_io (EvDataset (internalName r))
         (set_handles (next_handle w :: handles w) (S (next_handle w))
            (log_io (EvOpen (OsirisRawDataReader.file_path r (firstTimeStep r))) w))).
Proof.
  intros Hc Hd Hu Htu.
  unfold OsirisRawDataReader._ReadUnits, OsirisRawDataReader._OpenFile.
  unfold_monad. cbn. unfold id. rewrite Hc. cbn. rewrite Hd. cbn. rewrite Hu. cbn.
  rewrite Htu. reflexivity.
Qed.

End OsirisUnitsReads.

(** X13.  For an OSIRIS reader whose units are unresolved, [GetDataUnits]
    opens the dump of the first time step and returns the first element of the
    field's [UNITS] attribute as it is stored, provided the stored bytes are
    printable ASCII without a single quote (the bytes [str] renders as
    themselves up to the doubling of backslashes, which the decoding undoes).
    The same call stores the first element of [TIME UNITS] as the time units
    and closes the file. *)
Theorem X13_Osiris_units_are_the_stored_bytes
    (r : Reader) (w : World) (c : H5Content) (ds : H5Dataset)
    (u tu : string) (us tus : list string) :
  dataUnits r = "" ->
  fs w (OsirisRawDataReader.file_path r (firstTimeStep r)) = Some c ->
  h5_datasets c (internalName r) = Some ds ->
  ds_UNITS ds = Some (u :: us) ->
  h5_TIME_UNITS c = Some (tu :: tus) ->
  plain_bytes u = true -> plain_bytes tu = true ->
  let o := GetDataUnits (R := OsirisRawDataReader.reader) r w in
  out_res o = Ok u /\
  dataUnits (out_self o) = u /\ timeUnits (out_self o) = tu /\
  handles (out_world o) = handles w /\
  open_calls (io_log (out_world o)) = S (open_calls (io_log w)).
Proof.
  intros Hempty Hc Hd Hu Htu Pu Ptu. cbv zeta.
  rewrite GetDataUnits_miss by assumption. cbv zeta.
  cbn [_ReadUnits OsirisRawDataReader.reader].
  rewrite (Osiris_ReadUnits_ok r (log_call Call_ReadUnits w) c ds u us tu tus
             Hc Hd Hu Htu).
  rewrite (decode_units_plain u Pu), (decode_units_plain tu Ptu).
  cbn. repeat split.
Qed.

Lemma X13_witness :
  let r := Fixture.fresh "x1" in
  let o := GetDataUnits (R := OsirisRawDataReader.reader) r Fixture.world in
  plain_bytes "c / \omega_p" = true /\
  out_res o = Ok "c / \omega_p" /\
  dataUnits (out_self o) = "c / \omega_p" /\ timeUnits (out_self o) = "1 / \omega_p" /\
  handles (out_world o) = handles Fixture.world /\
  open_calls (io_log (out_world o)) = S (open_calls (io_log Fixture.world)).
Proof.
  cbv zeta. split; [reflexivity | ].
  exact (X13_Osiris_units_are_the_stored_bytes (Fixture.fresh "x1") Fixture.world
           Fixture.dump5 (mkDataset (NdFloat Fixture.x1_raw) (Some ["c / \omega_p"]))
           "c / \omega_p" "1 / \omega_p" [] []
           eq_refl eq_refl eq_refl eq_refl eq_refl eq_refl eq_refl).
Defined.

(** X14.  [_ReadUnits] of the OSIRIS reader stores the data units before it
    reads the time units.  When the bootstrap dump has the field's [UNITS] but
    no [TIME UNITS] attribute, the first [GetDataUnits] raises [KeyError] with
    the data units already stored and the file still open; as the stored
    string is not empty, a second [GetDataUnits] returns it without touching
    any file, while [GetTimeUnits] raises again. *)
Theorem X14_units_half_resolved
    (r : Reader) (w : World) (c : H5Content) (ds : H5Dataset)
    (u : string) (us : list string) :
  dataUnits r = "" -> timeUnits r = "" ->
  fs w (OsirisRawDataReader.file_path r (firstTimeStep r)) = Some c ->
  h5_datasets c (internalName r) = Some ds ->
  ds_UNITS ds = Some (u :: us) ->
  h5_TIME_UNITS c = None ->
  decode_units u <> "" ->
  let o1 := GetDataUnits (R := OsirisRawDataReader.reader) r w in
  let o2 := GetDataUnits (R := OsirisRawDataReader.reader) (out_self o1) (out_world o1) in
  let o3 := GetTimeUnits (R := OsirisRawDataReader.reader) (out_self o2) (out_world o2) in
  out_res o1 = Raise (KeyError "TIME UNITS") /\
  dataUnits (out_self o1) = decode_units u /\
  handles (out_world o1) = next_handle w :: handles w /\
  out_res o2 = Ok (decode_units u) /\
  out_self o2 = out_self o1 /\ out_world o2 = out_world o1 /\
  out_res o3 = Raise (KeyError "TIME UNITS").
Proof.
  intros Hd0 Ht0 Hc Hd Hu Htu Hne. cbv zeta.
  rewrite (GetDataUnits_miss r w Hd0). cbv zeta.
  cbn [_ReadUnits OsirisRawDataReader.reader].
  rewrite (Osiris_ReadUnits_no_time_units r (log_call Call_ReadUnits w) c ds u us
             Hc Hd Hu Htu).
  cbn [out_res out_self out_world].
  rewrite GetDataUnits_hit by (cbn; exact Hne).
  cbn [out_res out_self out_world].
  rewrite GetTimeUnits_miss by (cbn; exact Ht0). cbv zeta.
  cbn [_ReadUnits OsirisRawDataReader.reader].
  erewrite Osiris_ReadUnits_no_time_units;
    [ | exact Hc | exact Hd | exact Hu | exact Htu].
  cbn. repeat split.
Qed.

Lemma X14_witness :
  let r := Fixture2.reader9 in
  let w := Fixture2.world in
  let o1 := GetDataUnits (R := OsirisRawDataReader.reader) r w in
  let o2 := GetDataUnits (R := OsirisRawDataReader.reader) (out_self o1) (out_world o1) in
  let o3 := GetTimeUnits (R := OsirisRawDataReader.reader) (out_self o2) (out_world o2) in
  decode_units "c / \omega_p" = "c / \omega_p" /\
  out_res o1 = Raise (KeyError "TIME UNITS") /\
  dataUnits (out_self o1) = decode_units "c / \omega_p" /\
  handles (out_world o1) = next_handle w :: handles w /\
  out_res o2 = Ok (decode_units "c / \omega_p") /\
  out_self o2 = out_self o1 /\ out_world o2 = out_world o1 /\
  out_res o3 = Raise (KeyError "TIME UNITS").
Proof.
  cbv zeta. split; [reflexivity | ].
  apply (X14_units_half_resolved Fixture2.reader9 Fixture2.world Fixture2.dump9
           (mkDataset (NdFloat Fixture.x1_raw) (Some ["c / \omega_p"]))
           "c / \omega_p" []);
    first [ reflexivity | vm_compute; discriminate ].
Defined.

Section FixedLabels.

Lemma HiPACE_ReadUnits_run r w :
  exists label,
    In label HiPACE_labels /\
    HiPACERawDataReader._ReadUnits r w
    = mkOutcome (Ok tt) (set_timeUnits "1/ \omega_p" (set_dataUnits label r)) w.
Proof.
  unfold HiPACERawDataReader._ReadUnits, HiPACE_labels. unfold_monad. cbn.
  destruct ((dataName r =? "x1") || (dataName r =? "x2") || (dataName r =? "x3"))%string;
    [eexists; split; [ | reflexivity]; cbn; tauto | ].
  destruct ((dataName r =? "p1") || (dataName r =? "p2") || (dataName r =? "p3"))%string;
    [eexists; split; [ | reflexivity]; cbn; tauto | ].
  destruct (dataName r =? "q")%string;
    eexists; (split; [ | reflexivity]); cbn; tauto.
Qed.

Lemma OpenPMD_ReadUnits_run r w :
  OpenPMDRawDataReader._ReadUnits r w
  = mkOutcome (Ok tt) (set_timeUnits "s" (set_dataUnits "arb.u." r)) w.
Proof. reflexivity. Qed.

End FixedLabels.

(** X15.  The HiPACE and the openPMD reader resolve units without reading
    anything: on a reader with unresolved units, [GetDataUnits] always returns,
    with one of the four HiPACE labels (resp. [arb.u.]), and the
    [GetTimeUnits] that follows returns [1/ \omega_p] (resp. [s]) from the
    same resolution.  [_ReadUnits] was dispatched once for the two calls and
    the I/O record is as it was. *)
Theorem X15_fixed_labels_resolve_once (r : Reader) (w : World) :
  dataUnits r = "" ->
  (let o1 := GetDataUnits (R := HiPACERawDataReader.reader) r w in
   let o2 := GetTimeUnits (R := HiPACERawDataReader.reader) (out_self o1) (out_world o1) in
   (exists label, In label HiPACE_labels /\ out_res o1 = Ok label) /\
   out_res o2 = Ok "1/ \omega_p" /\
   calls (out_world o2) = Call_ReadUnits :: calls w /\
   io_log (out_world o2) = io_log w /\ handles (out_world o2) = handles w) /\
  (let o1 := GetDataUnits (R := OpenPMDRawDataReader.reader) r w in
   let o2 := GetTimeUnits (R := OpenPMDRawDataReader.reader) (out_self o1) (out_world o1) in
   out_res o1 = Ok "arb.u." /\
   out_res o2 = Ok "s" /\
   calls (out_world o2) = Call_ReadUnits :: calls w /\
   io_log (out_world o2) = io_log w /\ handles (out_world o2) = handles w).
Proof.
  intros Hd0. split; cbv zeta.
  - rewrite (GetDataUnits_miss r w Hd0). cbv zeta.
    cbn [_ReadUnits HiPACERawDataReader.reader].
    destruct (HiPACE_ReadUnits_run r (log_call Call_ReadUnits w)) as (label & Hin & ->).
    cbn [out_res out_self out_world].
    rewrite GetTimeUnits_hit by (cbn; discriminate).
    split; [exists label; split; [exact Hin | reflexivity] | ].
    cbn. repeat split.
  - rewrite (GetDataUnits_miss r w Hd0). cbv zeta.
    cbn [_ReadUnits OpenPMDRawDataReader.reader].
    rewrite OpenPMD_ReadUnits_run.
    cbn [out_res out_self out_world].
    rewrite GetTimeUnits_hit by (cbn; discriminate).
    cbn. repeat split.
Qed.

Lemma X15_witness :
  let r := Fixture.fresh "p1" in
  let w := Fixture.world in
  dataUnits r = "" /\
  out_res (GetDataUnits (R := OpenPMDRawDataReader.reader) r w) = Ok "arb.u." /\
  out_res (GetTimeUnits (R := OpenPMDRawDataReader.reader)
             (out_self (GetDataUnits (R := OpenPMDRawDataReader.reader) r w))
             (out_world (GetDataUnits (R := OpenPMDRawDataReader.reader) r w)))
  = Ok "s".
Proof.
  cbv zeta.
  assert (Hd0 : dataUnits (Fixture.fresh "p1") = "") by reflexivity.
  split; [exact Hd0 | ].
  destruct (proj2 (X15_fixed_labels_resolve_once (Fixture.fresh "p1") Fixture.world Hd0))
    as (H1 & H2 & _).
  split; [exact H1 | exact H2].
Defined.

(** ** File opens per call *)

Ltac opens_done :=
  unfold open_calls; cbn [filter List.length]; lia.

Section Opens.

Lemma Osiris_ReadData_opens t : opens (OsirisRawDataReader._ReadData t) 1.
Proof.
  intros r w. unfold OsirisRawDataReader._ReadData, OsirisRawDataReader._OpenFile.
  exec; opens_done.
Qed.

Lemma Osiris_ReadTime_opens t : opens (OsirisRawDataReader._ReadTime t) 1.
Proof.
  intros r w. unfold OsirisRawDataReader._ReadTime, OsirisRawDataReader._OpenFile.
  exec; opens_done.
Qed.

Lemma Osiris_ReadUnits_opens : opens OsirisRawDataReader._ReadUnits 1.
Proof.
  intros r w. unfold OsirisRawDataReader._ReadUnits, OsirisRawDataReader._OpenFile.
  exec; opens_done.
Qed.

Lemma HiPACE_ReadData_opens t : opens (HiPACERawDataReader._ReadData t) 1.
Proof.
  intros r w. unfold HiPACERawDataReader._ReadData, HiPACERawDataReader._OpenFile.
  exec; opens_done.
Qed.

Lemma HiPACE_ReadTime_opens t : opens (HiPACERawDataReader._ReadTime t) 1.
Proof.
  intros r w. unfold HiPACERawDataReader._ReadTime, HiPACERawDataReader._OpenFile.
  exec; opens_done.
Qed.

Lemma HiPACE_ReadUnits_opens : opens HiPACERawDataReader._ReadUnits 0.
Proof.
  intros r w. unfold HiPACERawDataReader._ReadUnits. exec; opens_done.
Qed.

Lemma OpenPMD_ReadData_opens t : opens (OpenPMDRawDataReader._ReadData t) 0.
Proof.
  intros r w. unfold OpenPMDRawDataReader._ReadData, OpenPMDRawDataReader._ReadTime.
  exec; opens_done.
Qed.

Lemma OpenPMD_ReadTime_opens t : opens (OpenPMDRawDataReader._ReadTime t) 0.
Proof.
  intros r w. unfold OpenPMDRawDataReader._ReadTime. exec; opens_done.
Qed.

Lemma OpenPMD_ReadUnits_opens : opens OpenPMDRawDataReader._ReadUnits 0.
Proof.
  intros r w. unfold OpenPMDRawDataReader._ReadUnits. exec; opens_done.
Qed.

Context {R : RawDataReader}.

Lemma GetData_opens n t r w :
  opens (_ReadData t) n ->
  open_calls (io_log (out_world (GetData t r w)))
  = (open_calls (io_log w) + if (t =? currentTimeStep r)%Z then 0 else n)%nat.
Proof.
  intros H. destruct (Z.eq_dec (currentTimeStep r) t) as [E | E].
  - rewrite GetData_hit by assumption. rewrite E, Z.eqb_refl. cbn. lia.
  - rewrite GetData_miss by assumption. cbv zeta.
    replace (t =? currentTimeStep r) with false
      by (symmetry; apply Z.eqb_neq; congruence).
    specialize (H (set_currentTimeStep t r) (log_call (Call_ReadData t) w)).
    destruct (_ReadData t _ _) as [[d | e] r1 w1]; cbn in *; exact H.
Qed.

Lemma GetTime_opens n t r w :
  opens (_ReadTime t) n ->
  open_calls (io_log (out_world (GetTime t r w)))
  = (open_calls (io_log w) + if (t =? currentTimeStep r)%Z then 0 else n)%nat.
Proof.
  intros H. destruct (Z.eq_dec (currentTimeStep r) t) as [E | E].
  - rewrite GetTime_hit by assumption. rewrite E, Z.eqb_refl. cbn. lia.
  - rewrite GetTime_miss by assumption. cbv zeta.
    replace (t =? currentTimeStep r) with false
      by (symmetry; apply Z.eqb_neq; congruence).
    specialize (H (set_currentTimeStep t r) (log_call (Call_ReadTime t) w)).
    destruct (_ReadTime t _ _) as [[d | e] r1 w1]; cbn in *; exact H.
Qed.

Lemma GetDataUnits_opens n r w :
  opens _ReadUnits n ->
  open_calls (io_log (out_world (GetDataUnits r w)))
  = (open_calls (io_log w) + if (dataUnits r =? "")%string then n else 0)%nat.
Proof.
  intros H. destruct (string_dec (dataUnits r) "") as [E | E].
  - rewrite GetDataUnits_miss by assumption. cbv zeta. rewrite E.
    change ("" =? "")%string with true.
    specialize (H r (log_call Call_ReadUnits w)).
    destruct (_ReadUnits r _) as [[d | e] r1 w1]; cbn in *; exact H.
  - rewrite GetDataUnits_hit by assumption.
    replace (dataUnits r =? "")%string with false
      by (symmetry; apply String.eqb_neq; exact E).
    cbn. lia.
Qed.

Lemma GetTimeUnits_opens n r w :
  opens _ReadUnits n ->
  open_calls (io_log (out_world (GetTimeUnits r w)))
  = (open_calls (io_log w) + if (timeUnits r =? "")%string then n else 0)%nat.
Proof.
  intros H. destruct (string_dec (timeUnits r) "") as [E | E].
  - rewrite GetTimeUnits_miss by assumption. cbv zeta. rewrite E.
    change ("" =? "")%string with true.
    specialize (H r (log_call Call_ReadUnits w)).
    destruct (_ReadUnits r _) as [[d | e] r1 w1]; cbn in *; exact H.
  - rewrite GetTimeUnits_hit by assumption.
    replace (timeUnits r =? "")%string with false
      by (symmetry; apply String.eqb_neq; exact E).
    cbn. lia.
Qed.

End Opens.

(** X16.  How often a public call opens a file with [H5File], whatever its
    outcome.  OSIRIS and HiPACE: [GetData(t)] and [GetTime(t)] open exactly
    one file when [t] is not the cached step and none when it is.  The OSIRIS
    units getters open exactly one file while their slot is empty and none
    afterwards; the HiPACE units getters never open one.  The openPMD reader
    itself opens no file in any of the four calls (its data come through the
    series object). *)
Theorem X16_file_opens_per_call (t : Z) (r : Reader) (w : World) :
  let before := open_calls (io_log w) in
  let miss := if t =? currentTimeStep r then 0%nat else 1%nat in
  let after {A} (m : M A) := open_calls (io_log (out_world (m r w))) in
  (after (GetData (R := OsirisRawDataReader.reader) t) = (before + miss)%nat /\
   after (GetTime (R := OsirisRawDataReader.reader) t) = (before + miss)%nat /\
   after (GetDataUnits (R := OsirisRawDataReader.reader))
   = (before + if (dataUnits r =? "")%string then 1 else 0)%nat /\
   after (GetTimeUnits (R := OsirisRawDataReader.reader))
   = (before + if (timeUnits r =? "")%string then 1 else 0)%nat) /\
  (after (GetData (R := HiPACERawDataReader.reader) t) = (before + miss)%nat /\
   after (GetTime (R := HiPACERawDataReader.reader) t) = (before + miss)%nat /\
   after (GetDataUnits (R := HiPACERawDataReader.reader)) = before /\
   after (GetTimeUnits (R := HiPACERawDataReader.reader)) = before) /\
  (after (GetData (R := OpenPMDRawDataReader.reader) t) = before /\
   after (GetTime (R := OpenPMDRawDataReader.reader) t) = before /\
   after (GetDataUnits (R := OpenPMDRawDataReader.reader)) = before /\
   after (GetTimeUnits (R := OpenPMDRawDataReader.reader)) = before).
Proof.
  cbv zeta.
  split; [ | split]; (split; [ | split; [ | split]]).
  - apply (GetData_opens (R := OsirisRawDataReader.reader)), Osiris_ReadData_opens.
  - apply (GetTime_opens (R := OsirisRawDataReader.reader)), Osiris_ReadTime_opens.
  - apply (GetDataUnits_opens (R := OsirisRawDataReader.reader)), Osiris_ReadUnits_opens.
  - apply (GetTimeUnits_opens (R := OsirisRawDataReader.reader)), Osiris_ReadUnits_opens.
  - apply (GetData_opens (R := HiPACERawDataReader.reader)), HiPACE_ReadData_opens.
  - apply (GetTime_opens (R := HiPACERawDataReader.reader)), HiPACE_ReadTime_opens.
  - rewrite (GetDataUnits_opens (R := HiPACERawDataReader.reader) 0 r w
               HiPACE_ReadUnits_opens).
    destruct (dataUnits r =? "")%string; lia.
  - rewrite (GetTimeUnits_opens (R := HiPACERawDataReader.reader) 0 r w
               HiPACE_ReadUnits_opens).
    destruct (timeUnits r =? "")%string; lia.
  - rewrite (GetData_opens (R := OpenPMDRawDataReader.reader) 0 t r w
               (OpenPMD_ReadData_opens t)).
    destruct (t =? currentTimeStep r); lia.
  - rewrite (GetTime_opens (R := OpenPMDRawDataReader.reader) 0 t r w
               (OpenPMD_ReadTime_opens t)).
    destruct (t =? currentTimeStep r); lia.
  - rewrite (GetDataUnits_opens (R := OpenPMDRawDataReader.reader) 0 r w
               OpenPMD_ReadUnits_opens).
    destruct (dataUnits r =? "")%string; lia.
  - rewrite (GetTimeUnits_opens (R := OpenPMDRawDataReader.reader) 0 r w
               OpenPMD_ReadUnits_opens).
    destruct (timeUnits r =? "")%string; lia.
Qed.

(** ** openPMD reads at the slot the series resolves *)

Section ResolvedSlot.

Lemma OpenPMD_ReadTime_returns t r w ts u :
  openpmd_ts r = Some ts ->
  out_res (OpenPMDRawDataReader._ReadTime t r w) = Ok u ->
  exists i x,
    find_slot ts t = Ok i /\
    nth_error (series_t ts) i = Some x /\
    out_self (OpenPMDRawDataReader._ReadTime t r w)
    = set_currentTime (PyFloat x) (set_openpmd_ts (Some (set_current_i i ts)) r).
Proof.
  intros Hts H. unfold OpenPMDRawDataReader._ReadTime in *.
  revert H. unfold_monad. cbn. rewrite Hts. cbn.
  destruct (find_slot ts t) as [i | e]; cbn; [ | discriminate].
  destruct (nth_error (series_t ts) i) as [x | ] eqn:Hx; cbn; [ | discriminate].
  intros _. exists i, x. repeat split. exact Hx.
Qed.

Lemma OpenPMD_ReadTime_ok t r w ts i x :
  openpmd_ts r = Some ts ->
  find_slot ts t = Ok i ->
  nth_error (series_t ts) i = Some x ->
  OpenPMDRawDataReader._ReadTime t r w
  = mkOutcome (Ok tt)
      (set_currentTime (PyFloat x) (set_openpmd_ts (Some (set_current_i i ts)) r)) w.
Proof.
  intros Hts Hi Hx. unfold OpenPMDRawDataReader._ReadTime.
  unfold_monad. cbn. rewrite Hts. cbn. rewrite Hi. cbn. rewrite Hx. reflexivity.
Qed.

Lemma find_slot_positioned (ts : OpenPMDTimeSeries) (i : nat) (t : Z) :
  find_slot (set_current_i i ts) t = find_slot ts t.
Proof. reflexivity. Qed.

Lemma OpenPMD_ReadData_returns t r w ts d :
  openpmd_ts r = Some ts ->
  out_res (OpenPMDRawDataReader._ReadData t r w) = Ok d ->
  exists i,
    find_slot ts t = Ok i /\
    particle_data ts (speciesName r) (internalName r) i = Some d /\
    openpmd_ts (out_self (OpenPMDRawDataReader._ReadData t r w))
    = Some (set_current_i i ts).
Proof.
  intros Hts H.
  unfold OpenPMDRawDataReader._ReadData, OpenPMDRawDataReader._ReadTime in *.
  revert H. unfold_monad. cbn. rewrite Hts. cbn.
  destruct (find_slot ts t) as [i | e] eqn:Hi; cbn; [ | discriminate].
  destruct (particle_data ts (speciesName r) (internalName r) i) as [d' | ] eqn:Hd;
    cbn; [ | discriminate].
  rewrite find_slot_positioned, Hi. cbn.
  destruct (nth_error (series_t ts) i) as [x | ]; cbn; [ | discriminate].
  intros H. injection H as <-. exists i. repeat split. exact Hd.
Qed.

Lemma OpenPMD_reads_unresolved t r w ts e :
  openpmd_ts r = Some ts ->
  find_slot ts t = Raise e ->
  out_res (OpenPMDRawDataReader._ReadTime t r w) = Raise e /\
  out_res (OpenPMDRawDataReader._ReadData t r w) = Raise e.
Proof.
  intros Hts Hi.
  unfold OpenPMDRawDataReader._ReadData, OpenPMDRawDataReader._ReadTime.
  unfold_monad. cbn. rewrite Hts. cbn. rewrite Hi. split; reflexivity.
Qed.

End ResolvedSlot.

(** X17.  The openPMD reader reads at the slot the series resolves the
    requested step to.  For a step [t] other than the cached one: a
    [GetTime(t)] that returns gives the entry of the series' time axis at that
    slot and leaves the series positioned there, and it does return whenever
    the series resolves [t] to a slot the time axis has; a [GetData(t)] that
    returns gives the species' field at that slot; and when the series answers
    [t] with an error, both calls raise that error. *)
Theorem X17_openPMD_reads_the_resolved_slot
    (t : Z) (r : Reader) (w : World) (ts : OpenPMDTimeSeries) :
  currentTimeStep r <> t ->
  openpmd_ts r = Some ts ->
  (forall v,
     out_res (GetTime (R := OpenPMDRawDataReader.reader) t r w) = Ok v ->
     exists i x,
       find_slot ts t = Ok i /\
       nth_error (series_t ts) i = Some x /\ v = PyFloat x /\
       openpmd_ts (out_self (GetTime (R := OpenPMDRawDataReader.reader) t r w))
       = Some (set_current_i i ts)) /\
  (forall i x,
     find_slot ts t = Ok i ->
     nth_error (series_t ts) i = Some x ->
     out_res (GetTime (R := OpenPMDRawDataReader.reader) t r w) = Ok (PyFloat x)) /\
  (forall d,
     out_res (GetData (R := OpenPMDRawDataReader.reader) t r w) = Ok d ->
     exists i,
       find_slot ts t = Ok i /\
       particle_data ts (speciesName r) (internalName r) i = Some d /\
       openpmd_ts (out_self (GetData (R := OpenPMDRawDataReader.reader) t r w))
       = Some (set_current_i i ts)) /\
  (forall e,
     find_slot ts t = Raise e ->
     out_res (GetTime (R := OpenPMDRawDataReader.reader) t r w) = Raise e /\
     out_res (GetData (R := OpenPMDRawDataReader.reader) t r w) = Raise e).
Proof.
  intros Hnew Hts. split; [ | split; [ | split]].
  - intros v Hv.
    destruct (GetTime_ok_inv t r w v Hnew Hv) as ((u & Hu) & ->).
    cbn [_ReadTime OpenPMDRawDataReader.reader] in *.
    destruct (OpenPMD_ReadTime_returns t (set_currentTimeStep t r)
                (log_call (Call_ReadTime t) w) ts u Hts Hu) as (i & x & Hi & Hx & Hs).
    exists i, x.
    split; [exact Hi | ].
    split; [exact Hx | ].
    rewrite GetTime_miss by assumption. cbv zeta.
    cbn [_ReadTime OpenPMDRawDataReader.reader].
    rewrite Hu. cbn [out_self]. rewrite Hs. split; reflexivity.
  - intros i x Hi Hx.
    rewrite GetTime_miss by assumption. cbv zeta.
    cbn [_ReadTime OpenPMDRawDataReader.reader].
    rewrite (OpenPMD_ReadTime_ok t (set_currentTimeStep t r)
               (log_call (Call_ReadTime t) w) ts i x Hts Hi Hx).
    reflexivity.
  - intros d Hd.
    destruct (GetData_ok_time t r w d Hnew Hd) as (Hr & _).
    cbn [_ReadData OpenPMDRawDataReader.reader] in *.
    destruct (OpenPMD_ReadData_returns t (set_currentTimeStep t r)
                (log_call (Call_ReadData t) w) ts d Hts Hr) as (i & Hi & Hp & Hs).
    exists i.
    split; [exact Hi | ].
    split; [exact Hp | ].
    rewrite GetData_miss by assumption. cbv zeta.
    cbn [_ReadData OpenPMDRawDataReader.reader].
    rewrite Hr. cbn [out_self]. exact Hs.
  - intros e He.
    destruct (OpenPMD_reads_unresolved t (set_currentTimeStep t r)
                (log_call (Call_ReadTime t) w) ts e Hts He) as (H1 & _).
    destruct (OpenPMD_reads_unresolved t (set_currentTimeStep t r)
                (log_call (Call_ReadData t) w) ts e Hts He) as (_ & H2).
    rewrite GetTime_miss, GetData_miss by assumption. cbv zeta.
    cbn [_ReadTime _ReadData OpenPMDRawDataReader.reader].
    rewrite H1, H2. split; reflexivity.
Qed.

Lemma X17_witness :
  let r := Fixture2.opmd_reader_first in
  let w := Fixture2.world_first in
  currentTimeStep r <> 6 /\ openpmd_ts r = Some Fixture2.series_first /\
  find_slot Fixture2.series_first 6 = Ok O /\
  out_res (GetTime (R := OpenPMDRawDataReader.reader) 6 r w)
  = Ok (PyFloat (Fixture.ratio 5 2)) /\
  currentTimeStep Fixture2.opmd_reader <> 5 /\
  out_res (GetTime (R := OpenPMDRawDataReader.reader) 5 Fixture2.opmd_reader Fixture2.world)
  = Ok (PyFloat (Fixture.ratio 5 2)).
Proof.
  cbv zeta.
  assert (Hnew : currentTimeStep Fixture2.opmd_reader_first <> 6) by (cbn; lia).
  assert (Hnew' : currentTimeStep Fixture2.opmd_reader <> 5) by (cbn; lia).
  split; [exact Hnew | ].
  split; [reflexivity | ].
  split; [reflexivity | ].
  split.
  - exact (proj1 (proj2 (X17_openPMD_reads_the_resolved_slot 6 Fixture2.opmd_reader_first
                           Fixture2.world_first Fixture2.series_first Hnew eq_refl))
             O (Fixture.ratio 5 2) eq_refl eq_refl).
  - split; [exact Hnew' | ].
    exact (proj1 (proj2 (X17_openPMD_reads_the_resolved_slot 5 Fixture2.opmd_reader
                           Fixture2.world Fixture.series Hnew' eq_refl))
             O (Fixture.ratio 5 2) eq_refl eq_refl).
Defined.
